(** * iAcoes valuation engine: a shallow embedding of [scripts/valuation.ts]

    The development follows the source file top to bottom: the numeric
    layer of the host language, the string helpers, the row types handed
    over by the fetch layer, [getFinancialData], [calculateWacc], the five
    pricing functions and [performValuation]; the properties come after
    the definitions.

    Numbers.  A JavaScript number is modelled as an exact rational or one
    of the three special values [+Infinity], [-Infinity] and [NaN], with
    the IEEE rules for the special values (division by zero, [Inf - Inf],
    [0 * Inf], comparisons with [NaN]).  Finite arithmetic is exact: there
    is no rounding and no overflow, and there is a single zero, which
    counts as [+0] when it is a divisor.  A statement over [number] is a
    statement about the formulas of the code, rounding aside.

    The program itself computes in binary64.  The module [Binary64]
    holds that arithmetic and the pricing functions written over it; the
    properties that rounding decides are stated there. *)

From Stdlib Require Import QArith Qcanon Qround ZArith List String Ascii Bool Lia.
From Stdlib Require Import Permutation Sorted Lqa DecimalString SpecFloat Qabs.
Import ListNotations.

Local Open Scope string_scope.
Local Open Scope list_scope.

(* ================================================================== *)
(** ** The numeric layer *)
(* ================================================================== *)

Inductive number : Type :=
| Fin (q : Qc)
| PInf
| NInf
| NaN.

Declare Scope js_scope.
Delimit Scope js_scope with js.
Bind Scope js_scope with number.

(** A decimal literal of the source, [dec 0.005]. *)
Definition dec (q : Q) : number := Fin (Q2Qc q).
Arguments dec q%_Q.

(** Sign of a finite value: [Gt] positive, [Eq] zero, [Lt] negative. *)
Definition sgn (q : Qc) : comparison := (q ?= Q2Qc 0)%Qc.

Definition inf_of_sign (c : comparison) : number :=
  match c with
  | Gt => PInf
  | Lt => NInf
  | Eq => NaN
  end.

Definition nneg (x : number) : number :=
  match x with
  | Fin q => Fin (- q)%Qc
  | PInf => NInf
  | NInf => PInf
  | NaN => NaN
  end.

Definition nadd (x y : number) : number :=
  match x, y with
  | NaN, _ | _, NaN => NaN
  | Fin a, Fin b => Fin (a + b)%Qc
  | PInf, NInf | NInf, PInf => NaN
  | PInf, _ | _, PInf => PInf
  | NInf, _ | _, NInf => NInf
  end.

Definition nsub (x y : number) : number := nadd x (nneg y).

Definition nmul (x y : number) : number :=
  match x, y with
  | NaN, _ | _, NaN => NaN
  | Fin a, Fin b => Fin (a * b)%Qc
  | Fin a, PInf | PInf, Fin a => inf_of_sign (sgn a)
  | Fin a, NInf | NInf, Fin a => inf_of_sign (CompOpp (sgn a))
  | PInf, PInf | NInf, NInf => PInf
  | PInf, NInf | NInf, PInf => NInf
  end.

Definition ndiv (x y : number) : number :=
  match x, y with
  | NaN, _ | _, NaN => NaN
  | Fin a, Fin b =>
      match sgn b with
      | Eq => inf_of_sign (sgn a)
      | _ => Fin (a / b)%Qc
      end
  | Fin _, PInf | Fin _, NInf => Fin (Q2Qc 0)
  | PInf, Fin b => match sgn b with Lt => NInf | _ => PInf end
  | NInf, Fin b => match sgn b with Lt => PInf | _ => NInf end
  | _, _ => NaN
  end.

Notation "x + y" := (nadd x y) : js_scope.
Notation "x - y" := (nsub x y) : js_scope.
Notation "x * y" := (nmul x y) : js_scope.
Notation "x / y" := (ndiv x y) : js_scope.

(** Ordering; [None] when one side is [NaN], so that every comparison
    with [NaN] is false. *)
Definition ncompare (x y : number) : option comparison :=
  match x, y with
  | NaN, _ | _, NaN => None
  | Fin a, Fin b => Some (a ?= b)%Qc
  | PInf, PInf | NInf, NInf => Some Eq
  | PInf, _ | _, NInf => Some Gt
  | NInf, _ | _, PInf => Some Lt
  end.

Definition nltb (x y : number) : bool :=
  match ncompare x y with Some Lt => true | _ => false end.
Definition nleb (x y : number) : bool :=
  match ncompare x y with Some Lt | Some Eq => true | _ => false end.
Definition ngtb (x y : number) : bool := nltb y x.
Definition ngeb (x y : number) : bool := nleb y x.
(** [x === y] on numbers. *)
Definition neqb (x y : number) : bool :=
  match ncompare x y with Some Eq => true | _ => false end.

Notation "x <? y" := (nltb x y) : js_scope.
Notation "x <=? y" := (nleb x y) : js_scope.
Notation "x >? y" := (ngtb x y) (at level 70) : js_scope.
Notation "x >=? y" := (ngeb x y) (at level 70) : js_scope.
Notation "x === y" := (neqb x y) (at level 70) : js_scope.

(** Truthiness of a number: [0] and [NaN] are falsy. *)
Definition truthy (x : number) : bool :=
  match x with
  | Fin q => match sgn q with Eq => false | _ => true end
  | PInf | NInf => true
  | NaN => false
  end.

Definition Number_isFinite (x : number) : bool :=
  match x with Fin _ => true | _ => false end.

Definition max2 (x y : number) : number :=
  match ncompare x y with
  | None => NaN
  | Some Lt => y
  | Some _ => x
  end.

Definition min2 (x y : number) : number :=
  match ncompare x y with
  | None => NaN
  | Some Gt => y
  | Some _ => x
  end.

(** [Math.max(...args)] and [Math.min(...args)]: variadic, [-Infinity]
    and [+Infinity] on no argument. *)
Definition Math_max (args : list number) : number := fold_left max2 args NInf.
Definition Math_min (args : list number) : number := fold_left min2 args PInf.

Definition Math_abs (x : number) : number :=
  match x with
  | Fin q => match sgn q with Lt => Fin (- q)%Qc | _ => Fin q end
  | PInf | NInf => PInf
  | NaN => NaN
  end.

(** [Math.pow(x, n)] at the exponents the source uses, the loop index
    [1..5] and the literal [5]. *)
Definition Math_pow (x : number) (n : nat) : number :=
  match x with
  | Fin q => Fin (q ^ n)%Qc
  | PInf => match n with O => Fin (Q2Qc 1) | _ => PInf end
  | NInf => match n with
            | O => Fin (Q2Qc 1)
            | _ => if Nat.even n then PInf else NInf
            end
  | NaN => match n with O => Fin (Q2Qc 1) | _ => NaN end
  end.

(** [Math.sqrt].  The root of a rational is taken on the integers after
    scaling by [4^53]: exact on rational squares, rounded down to a
    multiple of [1 / (den * 2^53)] elsewhere. *)
Definition sqrt_scale : Z := 2 ^ 53.

Definition Qsqrt (q : Q) : Q :=
  let n := Qnum q in
  let d := Zpos (Qden q) in
  Qmake (Z.sqrt (n * d * sqrt_scale * sqrt_scale))
        (Z.to_pos (d * sqrt_scale)).

Definition Math_sqrt (x : number) : number :=
  match x with
  | Fin q => match sgn q with
             | Lt => NaN
             | _ => Fin (Q2Qc (Qsqrt (this q)))
             end
  | PInf => PInf
  | NInf | NaN => NaN
  end.

(* ================================================================== *)
(** ** Optional values and the falsy-default operators *)
(* ================================================================== *)

(** [x || d] where [x : number | null | undefined]: the default is taken
    when [x] is absent, [0] or [NaN]. *)
Definition or_num (x : option number) (d : number) : number :=
  match x with
  | Some v => if truthy v then v else d
  | None => d
  end.

(** [x ?? d]: the default is taken only when [x] is absent. *)
Definition nullish {A : Type} (x : option A) (d : A) : A :=
  match x with
  | Some v => v
  | None => d
  end.

(** [x ? f(x) : d] on an optional number. *)
Definition if_truthy {A : Type} (x : option number) (f : number -> A) (d : A) : A :=
  match x with
  | Some v => if truthy v then f v else d
  | None => d
  end.

(** Truthiness of an optional number, as in [!x] and [x && ...]. *)
Definition truthy_opt (x : option number) : bool :=
  match x with
  | Some v => truthy v
  | None => false
  end.

(** [pickPos] (source lines 44-48). *)
Definition pickPos (v : option number) : option number :=
  match v with
  | None => None
  | Some n => if Number_isFinite n && (n >? Fin (Q2Qc 0))%js then Some n else None
  end.

(** [normPercent] (source lines 37-42). *)
Definition normPercent (v : option number) : option number :=
  match v with
  | None => None
  | Some n =>
      if negb (Number_isFinite n) then None
      else Some (if (Math_abs n >? dec 2)%js then (n / dec 100)%js else n)
  end.

(* ================================================================== *)
(** ** Strings *)
(* ================================================================== *)

(** Strings are ASCII; case mapping touches the letters [a-z] / [A-Z]
    only. *)

Definition in_range (lo hi : nat) (c : ascii) : bool :=
  Nat.leb lo (nat_of_ascii c) && Nat.leb (nat_of_ascii c) hi.

Definition upper_char (c : ascii) : ascii :=
  if in_range 97 122 c then ascii_of_nat (nat_of_ascii c - 32) else c.

Definition lower_char (c : ascii) : ascii :=
  if in_range 65 90 c then ascii_of_nat (nat_of_ascii c + 32) else c.

Fixpoint string_map (f : ascii -> ascii) (s : string) : string :=
  match s with
  | EmptyString => EmptyString
  | String c r => String (f c) (string_map f r)
  end.

Definition toUpperCase (s : string) : string := string_map upper_char s.
Definition toLowerCase (s : string) : string := string_map lower_char s.

(** [s.startsWith(p)] and [s.endsWith(p)]. *)
Definition startsWith (s p : string) : bool := String.prefix p s.

Definition string_rev (s : string) : string :=
  string_of_list_ascii (rev (list_ascii_of_string s)).

Definition endsWith (s p : string) : bool :=
  String.prefix (string_rev p) (string_rev s).

Fixpoint drop_while (f : ascii -> bool) (s : string) : string :=
  match s with
  | EmptyString => EmptyString
  | String c r => if f c then drop_while f r else s
  end.

(** [s.replace(/[cls]+$/, '')]: the longest trailing run of characters of
    the class is removed. *)
Definition strip_trailing (cls : ascii -> bool) (s : string) : string :=
  string_rev (drop_while cls (string_rev s)).

Definition is_space (c : ascii) : bool :=
  in_range 9 13 c || Ascii.eqb c " "%char.

Definition trim (s : string) : string :=
  strip_trailing is_space (drop_while is_space s).

(** The class [[0-9F]] of the source's share-class pattern. *)
Definition is_share_class (c : ascii) : bool :=
  in_range 48 57 c || Ascii.eqb c "F"%char.

(** [t.replace(/[0-9F]+$/, '')]. *)
Definition ticker_root (t : string) : string := strip_trailing is_share_class t.

(** [s.replace(/\.SA$/, '')]. *)
Definition strip_SA (s : string) : string :=
  if endsWith s ".SA" then substring 0 (String.length s - 3) s else s.

(** [a || b] on strings: the empty string is falsy. *)
Definition or_str (x : option string) (d : string) : string :=
  match x with
  | Some EmptyString | None => d
  | Some s => s
  end.

(** [arr.join(sep)]. *)
Fixpoint join (sep : string) (l : list string) : string :=
  match l with
  | [] => ""
  | [s] => s
  | s :: r => s ++ sep ++ join sep r
  end.

(** [arr.includes(x)] on strings. *)
Definition includes (l : list string) (x : string) : bool :=
  existsb (String.eqb x) l.

(* ================================================================== *)
(** ** Dates: the host's clock, parser and formatter *)
(* ================================================================== *)

(** [new Date(s).getTime()] and [d.toLocaleDateString('pt-BR')] belong to
    the host; a time value is a number of milliseconds, [NaN] for an
    invalid date.  The clock reading of [new Date()] is an input of
    [getFinancialData]. *)
Record Host : Type := {
  Date_parse : string -> number;
  toLocaleDateString_ptBR : number -> string
}.

(** A reference host in the UTC time zone: ISO dates [YYYY-MM-DD] in,
    [DD/MM/YYYY] out. *)
Definition digit_val (c : ascii) : option Z :=
  if in_range 48 57 c then Some (Z.of_nat (nat_of_ascii c - 48)) else None.

Fixpoint digits_val (acc : Z) (s : string) : option Z :=
  match s with
  | EmptyString => Some acc
  | String c r =>
      match digit_val c with
      | Some d => digits_val (acc * 10 + d) r
      | None => None
      end
  end.

Definition days_from_civil (y m d : Z) : Z :=
  let y' := if (m <=? 2)%Z then (y - 1)%Z else y in
  let era := (y' / 400)%Z in
  let yoe := (y' - era * 400)%Z in
  let mp := if (m >? 2)%Z then (m - 3)%Z else (m + 9)%Z in
  let doy := ((153 * mp + 2) / 5 + d - 1)%Z in
  let doe := (yoe * 365 + yoe / 4 - yoe / 100 + doy)%Z in
  (era * 146097 + doe - 719468)%Z.

Definition civil_from_days (z0 : Z) : Z * Z * Z :=
  let z := (z0 + 719468)%Z in
  let era := (z / 146097)%Z in
  let doe := (z - era * 146097)%Z in
  let yoe := ((doe - doe / 1460 + doe / 36524 - doe / 146096) / 365)%Z in
  let doy := (doe - (365 * yoe + yoe / 4 - yoe / 100))%Z in
  let mp := ((5 * doy + 2) / 153)%Z in
  let d := (doy - (153 * mp + 2) / 5 + 1)%Z in
  let m := if (mp <? 10)%Z then (mp + 3)%Z else (mp - 9)%Z in
  let y := (yoe + era * 400 + (if (m <=? 2)%Z then 1 else 0))%Z in
  (y, m, d).

Definition ms_per_day : Z := 86400000.

Definition utc_parse (s : string) : number :=
  match digits_val 0 (substring 0 4 s),
        digits_val 0 (substring 5 2 s),
        digits_val 0 (substring 8 2 s) with
  | Some y, Some m, Some d =>
      if (String.length s =? 10)%nat
         && String.eqb (substring 4 1 s) "-"
         && String.eqb (substring 7 1 s) "-"
         && (1 <=? m)%Z && (m <=? 12)%Z && (1 <=? d)%Z && (d <=? 31)%Z
      then Fin (Q2Qc (inject_Z (days_from_civil y m d * ms_per_day)))
      else NaN
  | _, _, _ => NaN
  end.

Definition digit_char (d : Z) : ascii := ascii_of_nat (48 + Z.to_nat d).

Fixpoint pad_digits (width : nat) (n : Z) (acc : string) : string :=
  match width with
  | O => acc
  | S w => pad_digits w (n / 10)%Z (String (digit_char (n mod 10)%Z) acc)
  end.

Definition utc_format (t : number) : string :=
  match t with
  | Fin q =>
      let '(y, m, d) := civil_from_days (Qfloor (this q) / ms_per_day)%Z in
      pad_digits 2 d "" ++ "/" ++ pad_digits 2 m "" ++ "/" ++ pad_digits 4 y ""
  | _ => "Invalid Date"
  end.

Definition utc_host : Host :=
  {| Date_parse := utc_parse; toLocaleDateString_ptBR := utc_format |}.

(* ================================================================== *)
(** ** Rows handed over by the fetch layer *)
(* ================================================================== *)

(** The row types of [types.ts] ([RawIncomeStatement], [RawBalanceSheet],
    [RawCashFlow], [RawBrapiQuote], [RawDividend]; its text follows line
    110 of [generate-pages.ts] in the sources).  Each row is given with
    the columns that [valuation.ts] reads; the rows come from the fetch
    layer unchecked, and the code reads a numeric column through a
    default ([x || 0]) or a null test, so each may be absent ([null] or
    [undefined]). *)

Module Income.
Record row : Type := {
    symbol : string;
    end_date : string;
    period : string;
    type : option string;
    total_revenue : option number;
    gross_profit : option number;
    ebit : option number;
    net_income : option number;
    interest_expense : option number
  }.
Definition with_type (ty : string) (r : row) : row :=
    {| symbol := symbol r; end_date := end_date r; period := period r;
       type := Some ty;
       total_revenue := total_revenue r; gross_profit := gross_profit r;
       ebit := ebit r; net_income := net_income r;
       interest_expense := interest_expense r |}.
End Income.

Module Balance.
Record row : Type := {
    symbol : string;
    end_date : string;
    period : string;
    type : option string;
    total_assets : option number;
    total_current_assets : option number;
    total_current_liabilities : option number;
    cash : option number;
    short_term_investments : option number;
    long_term_debt : option number;
    short_long_term_debt : option number;
    total_stockholder_equity : option number
  }.
Definition with_type (ty : string) (r : row) : row :=
    {| symbol := symbol r; end_date := end_date r; period := period r;
       type := Some ty;
       total_assets := total_assets r;
       total_current_assets := total_current_assets r;
       total_current_liabilities := total_current_liabilities r;
       cash := cash r; short_term_investments := short_term_investments r;
       long_term_debt := long_term_debt r;
       short_long_term_debt := short_long_term_debt r;
       total_stockholder_equity := total_stockholder_equity r |}.
End Balance.

Module CashFlow.
Record row : Type := {
    symbol : string;
    end_date : string;
    period : string;
    type : option string;
    total_cash_from_operating_activities : option number;
    capital_expenditures : option number;
    depreciation : option number
  }.
Definition with_type (ty : string) (r : row) : row :=
    {| symbol := symbol r; end_date := end_date r; period := period r;
       type := Some ty;
       total_cash_from_operating_activities :=
         total_cash_from_operating_activities r;
       capital_expenditures := capital_expenditures r;
       depreciation := depreciation r |}.
End CashFlow.

Module Brapi.
Record row : Type := {
    symbol : string;
    longName : option string;
    shortName : option string;
    sector : option string;
    industry : option string;
    longBusinessSummary : option string;
    regularMarketPrice : option number;
    regularMarketChangePercent : option number;
    fiftyTwoWeekChange : option number;
    fiftyTwoWeekLow : option number;
    fiftyTwoWeekHigh : option number;
    averageDailyVolume3Month : option number;
    marketCap : option number;
    enterpriseValue : option number;
    sharesOutstanding : option number;
    earningsPerShare : option number;
    bookValue : option number;
    beta5y : option number;
    revenueGrowth : option number;
    dividendYield : option number;
    pl : option number;
    priceEarnings : option number;
    pvp : option number;
    priceToBook : option number;
    lpa : option number;
    vpa : option number;
    roe : option number;
    roic : option number;
    net_margin : option number;
    ebitda_margin : option number;
    enterpriseToEbitda : option number;
    ev_ebit : option number;
    debt_ebitda : option number
  }.
End Brapi.

Module Dividend.
Record row : Type := {
    symbol : string;
    amount : option number;
    exDate : string;
    paymentDate : string;
    dividendType : string;
    currency : string
  }.
End Dividend.

(** [SupabaseFinancials], the result of [fetchFinancials]. *)
Record SupabaseFinancials : Type := {
  income : list Income.row;
  balance : list Balance.row;
  cashFlow : list CashFlow.row;
  brapi : list Brapi.row;
  dividends : list Dividend.row
}.

(** The structural bounds of the generic helpers: [T extends { symbol }]
    and [T extends { end_date }]. *)
Class HasSymbol (T : Type) := symbol : T -> string.
Class HasEndDate (T : Type) := end_date : T -> string.

#[export] Instance Income_symbol : HasSymbol Income.row := Income.symbol.
#[export] Instance Balance_symbol : HasSymbol Balance.row := Balance.symbol.
#[export] Instance CashFlow_symbol : HasSymbol CashFlow.row := CashFlow.symbol.
#[export] Instance Brapi_symbol : HasSymbol Brapi.row := Brapi.symbol.
#[export] Instance Income_end_date : HasEndDate Income.row := Income.end_date.
#[export] Instance Balance_end_date : HasEndDate Balance.row := Balance.end_date.
#[export] Instance CashFlow_end_date : HasEndDate CashFlow.row := CashFlow.end_date.

(* ================================================================== *)
(** ** Helpers of [valuation.ts] (source lines 12-55) *)
(* ================================================================== *)

(** [filterByTicker] (source lines 12-17). *)
Definition filterByTicker {T : Type} `{HasSymbol T}
    (data : list T) (ticker : string) : list T :=
  let exact :=
    filter (fun d => String.eqb (toUpperCase (symbol d)) (toUpperCase ticker)) data in
  if Nat.ltb 0 (List.length exact) then exact
  else
    let root := ticker_root (toUpperCase ticker) in
    filter (fun d => startsWith (toUpperCase (symbol d)) root) data.

(** [arr.sort(cmp)]: stable, an element stays in front of a later one
    unless the comparator is positive on the pair. *)
Fixpoint sort_insert {T : Type} (cmp : T -> T -> number) (x : T) (l : list T) : list T :=
  match l with
  | [] => [x]
  | y :: r =>
      if (cmp x y >? Fin (Q2Qc 0))%js then y :: sort_insert cmp x r
      else x :: l
  end.

Definition Array_sort {T : Type} (cmp : T -> T -> number) (l : list T) : list T :=
  fold_right (sort_insert cmp) [] l.

(** The comparator [(a, b) => new Date(b.end_date).getTime() -
    new Date(a.end_date).getTime()]. *)
Definition by_end_date_desc {T : Type} `{HasEndDate T} (h : Host) (a b : T) : number :=
  (Date_parse h (end_date b) - Date_parse h (end_date a))%js.

(** [getLatest] (source lines 19-22).  The source sorts its argument in
    place: the second component is the argument array after the call. *)
Definition getLatest {T : Type} `{HasEndDate T} (h : Host) (data : list T)
    : option T * list T :=
  match data with
  | [] => (None, data)
  | _ => let sorted := Array_sort (by_end_date_desc h) data in
         (nth_error sorted 0, sorted)
  end.

(** [classifyPeriod] (source lines 24-28); the result is the string
    ['quarterly'] or ['yearly']. *)
Definition classifyPeriod (period : string) : string :=
  if String.eqb period "" then "quarterly"
  else if startsWith (toUpperCase period) "FY"
          || Nat.eqb (String.length period) 4
       then "yearly"
       else "quarterly".

(** [normalizeType] (source lines 30-35). *)
Definition normalizeType (rawType : option string) (period : option string) : string :=
  let n := toLowerCase (nullish rawType "") in
  if includes ["yearly"; "annual"; "anual"; "fy"] n then "yearly"
  else if includes ["quarterly"; "quarter"] n || startsWith n "q" then "quarterly"
  else classifyPeriod (or_str period (or_str rawType "")).

(** [getTypeFromTicker] (source lines 50-55). *)
Definition getTypeFromTicker (t : string) : string :=
  if endsWith t "11" then "UNT"
  else if endsWith t "4" then "PN"
  else if endsWith t "3" then "ON"
  else "ON".

(* ================================================================== *)
(** ** Constants ([constants.ts]) *)
(* ================================================================== *)

Definition DEFAULT_COST_OF_DEBT : number := dec 0.16.

(** [ValuationWeights] of [types.ts], one weight per method. *)
Record ValuationWeights : Type := {
  DCF : number;
  GORDON : number;
  EVA : number;
  MULTIPLES : number;
  GRAHAM : number
}.

Module DEFAULT_WEIGHTS.
Definition GROWTH : ValuationWeights :=
  {| DCF := dec 0.50; GORDON := dec 0.0; EVA := dec 0.20;
     MULTIPLES := dec 0.20; GRAHAM := dec 0.10 |}.
Definition MATURE : ValuationWeights :=
  {| DCF := dec 0.40; GORDON := dec 0.10; EVA := dec 0.15;
     MULTIPLES := dec 0.15; GRAHAM := dec 0.20 |}.
Definition DISTRESS : ValuationWeights :=
  {| DCF := dec 0.40; GORDON := dec 0.0; EVA := dec 0.15;
     MULTIPLES := dec 0.25; GRAHAM := dec 0.20 |}.
End DEFAULT_WEIGHTS.

(** A scenario preset; [generate-pages.ts] completes it with
    [costOfDebt] and [taxRate] into a [ValuationAssumptions]. *)
Record ScenarioPreset : Type := {
  preset_riskFreeRate : number;
  preset_equityRiskPremium : number;
  preset_beta : number;
  preset_perpetualGrowth : number;
  preset_projectedRevenueGrowth : number
}.

Module SCENARIO_PRESETS.
Definition BASE : ScenarioPreset :=
  {| preset_riskFreeRate := dec 0.15; preset_equityRiskPremium := dec 0.05;
     preset_beta := dec 1.0; preset_perpetualGrowth := dec 0.05;
     preset_projectedRevenueGrowth := dec 0.05 |}.
Definition BULL : ScenarioPreset :=
  {| preset_riskFreeRate := dec 0.12; preset_equityRiskPremium := dec 0.045;
     preset_beta := dec 1.1; preset_perpetualGrowth := dec 0.06;
     preset_projectedRevenueGrowth := dec 0.08 |}.
Definition BEAR : ScenarioPreset :=
  {| preset_riskFreeRate := dec 0.16; preset_equityRiskPremium := dec 0.06;
     preset_beta := dec 0.9; preset_perpetualGrowth := dec 0.03;
     preset_projectedRevenueGrowth := dec 0.02 |}.
End SCENARIO_PRESETS.

(* ================================================================== *)
(** ** The snapshot types ([FundamentalData], [FinancialData]) *)
(* ================================================================== *)

(** [FundamentalData] and [FinancialData] of [types.ts], with the fields
    that [getFinancialData] assigns (source lines 131-175). *)

Module FundamentalData.
Record t : Type := {
  symbol : string;
  name : string;
  sector : string;
  subSector : string;
  type : string;
  price : number;
  date : string;
  min52Week : number;
  max52Week : number;
  volMed2m : number;
  marketCap : number;
  firmValue : number;
  lastBalanceDate : string;
  sharesOutstanding : number;
  changeDay : number;
  change12m : number;
  pl : number;
  pvp : number;
  pebit : number;
  psr : number;
  divYield : number;
  evEbitda : number;
  evEbit : number;
  lpa : number;
  vpa : number;
  grossMargin : number;
  ebitMargin : number;
  ebitdaMargin : number;
  netMargin : number;
  roic : number;
  roe : number;
  currentLiquidity : number;
  debtEquity : number;
  debtEbitda : number
}.
(** [{ ...x, date: d }]. *)
Definition with_date (d : string) (x : t) : t :=
  {| symbol := symbol x;
     name := name x;
     sector := sector x;
     subSector := subSector x;
     type := type x;
     price := price x;
     date := d;
     min52Week := min52Week x;
     max52Week := max52Week x;
     volMed2m := volMed2m x;
     marketCap := marketCap x;
     firmValue := firmValue x;
     lastBalanceDate := lastBalanceDate x;
     sharesOutstanding := sharesOutstanding x;
     changeDay := changeDay x;
     change12m := change12m x;
     pl := pl x;
     pvp := pvp x;
     pebit := pebit x;
     psr := psr x;
     divYield := divYield x;
     evEbitda := evEbitda x;
     evEbit := evEbit x;
     lpa := lpa x;
     vpa := vpa x;
     grossMargin := grossMargin x;
     ebitMargin := ebitMargin x;
     ebitdaMargin := ebitdaMargin x;
     netMargin := netMargin x;
     roic := roic x;
     roe := roe x;
     currentLiquidity := currentLiquidity x;
     debtEquity := debtEquity x;
     debtEbitda := debtEbitda x |}.
End FundamentalData.

Module FinancialData.
Record t : Type := {
  ticker : string;
  price : number;
  currency : string;
  sharesOutstanding : number;
  beta : number;
  wacc : number;
  growthRate : number;
  roe : number;
  payoutRatio : number;
  revenue : number;
  ebit : number;
  netIncome : number;
  interestExpenses : number;
  taxRate : number;
  equity : number;
  debt : number;
  cashAndEquivalents : number;
  investedCapital : number;
  freeCashFlow : number;
  depreciation : number;
  volatility : number;
  sectorPE : number;
  sectorEVEBITDA : number;
  currentPE : number;
  currentEVEBITDA : number;
  currentEPS : number;
  _rawIncome : list Income.row;
  _rawBalance : list Balance.row;
  _rawCashFlow : list CashFlow.row;
  _rawDividends : list Dividend.row;
  fundamentals : FundamentalData.t;
  businessSummary : option string
}.
(** [{ ...x, fundamentals: f }]. *)
Definition with_fundamentals (f : FundamentalData.t) (x : t) : t :=
  {| ticker := ticker x;
     price := price x;
     currency := currency x;
     sharesOutstanding := sharesOutstanding x;
     beta := beta x;
     wacc := wacc x;
     growthRate := growthRate x;
     roe := roe x;
     payoutRatio := payoutRatio x;
     revenue := revenue x;
     ebit := ebit x;
     netIncome := netIncome x;
     interestExpenses := interestExpenses x;
     taxRate := taxRate x;
     equity := equity x;
     debt := debt x;
     cashAndEquivalents := cashAndEquivalents x;
     investedCapital := investedCapital x;
     freeCashFlow := freeCashFlow x;
     depreciation := depreciation x;
     volatility := volatility x;
     sectorPE := sectorPE x;
     sectorEVEBITDA := sectorEVEBITDA x;
     currentPE := currentPE x;
     currentEVEBITDA := currentEVEBITDA x;
     currentEPS := currentEPS x;
     _rawIncome := _rawIncome x;
     _rawBalance := _rawBalance x;
     _rawCashFlow := _rawCashFlow x;
     _rawDividends := _rawDividends x;
     fundamentals := f;
     businessSummary := businessSummary x |}.
End FinancialData.

(* ================================================================== *)
(** ** [getFinancialData] (source lines 59-176) *)
(* ================================================================== *)

(** [r?.f] on an optional row. *)
Definition opt_get {R A : Type} (r : option R) (f : R -> option A) : option A :=
  match r with
  | Some x => f x
  | None => None
  end.

Definition is_empty {T : Type} (l : list T) : bool :=
  match l with [] => true | _ => false end.

Definition is_none {T : Type} (o : option T) : bool :=
  match o with None => true | Some _ => false end.

(** The quote row (source line 69): [find] by the exact symbol, else
    [find] by the prefix left after the share class is removed. *)
Definition find_tickerBrapi (rawBrapi : list Brapi.row) (t : string) : option Brapi.row :=
  match find (fun b => String.eqb (symbol b) t) rawBrapi with
  | Some b => Some b
  | None => find (fun b => startsWith (symbol b) (ticker_root t)) rawBrapi
  end.

(** [if (c) missing.push(s)]. *)
Definition push_if (c : bool) (s : string) (missing : list string) : list string :=
  if c then missing ++ [s] else missing.

(** The [missing] array of source lines 72-76. *)
Definition missing_of (tickerBrapi : option Brapi.row)
    (tickerIncome : list Income.row) (tickerBalance : list Balance.row)
    (tickerCashFlow : list CashFlow.row) : list string :=
  push_if (is_empty tickerCashFlow) "fluxo de caixa"
    (push_if (is_empty tickerBalance) "balanço"
       (push_if (is_empty tickerIncome) "DRE"
          (push_if (is_none tickerBrapi) "cotação" []))).

Definition incomplete_message (t : string) (missing : list string) : string :=
  "Dados incompletos para " ++ t ++ " (faltando: " ++ join ", " missing ++ ")".

Definition yearly_sorted {T : Type} `{HasEndDate T} (h : Host)
    (period_of : T -> string) (rows : list T) : list T :=
  Array_sort (by_end_date_desc h)
    (filter (fun d => String.eqb (classifyPeriod (period_of d)) "yearly") rows).

(** [first || getLatest(rows)]: [getLatest] runs, and sorts [rows] in
    place, only when [first] is absent. *)
Definition or_latest {T : Type} `{HasEndDate T} (h : Host)
    (first : option T) (rows : list T) : option T * list T :=
  match first with
  | Some r => (Some r, rows)
  | None => getLatest h rows
  end.

Definition zero : number := dec 0.

(** Source lines 80-175: the snapshot, once the four categories are known
    to be present.  [now] is the clock reading of [new Date()]. *)
Definition build_snapshot (h : Host) (now : number) (t : string)
    (tickerBrapi : Brapi.row)
    (tickerIncome0 : list Income.row) (tickerBalance0 : list Balance.row)
    (tickerCashFlow0 : list CashFlow.row) (rawDividends : list Dividend.row)
    : FinancialData.t :=
  let betaFromBrapi := pickPos (Brapi.beta5y tickerBrapi) in
  let revGrowth := normPercent (Brapi.revenueGrowth tickerBrapi) in
  let defaultBeta := nullish betaFromBrapi (preset_beta SCENARIO_PRESETS.BASE) in
  let defaultRevGrowth :=
    nullish revGrowth (preset_projectedRevenueGrowth SCENARIO_PRESETS.BASE) in

  let yearlyIncome := yearly_sorted h Income.period tickerIncome0 in
  let yearlyCF := yearly_sorted h CashFlow.period tickerCashFlow0 in
  let yearlyBal := yearly_sorted h Balance.period tickerBalance0 in

  let '(baseIncome, tickerIncome) :=
    or_latest h (nth_error yearlyIncome 0) tickerIncome0 in
  let baseDate := option_map Income.end_date baseIncome in
  let same_date (d : string) : bool :=
    match baseDate with Some bd => String.eqb d bd | None => false end in
  let '(baseBalance, tickerBalance) :=
    or_latest h (find (fun b => same_date (Balance.end_date b)) yearlyBal)
      tickerBalance0 in
  let '(baseCF, tickerCashFlow) :=
    or_latest h (find (fun c => same_date (CashFlow.end_date c)) yearlyCF)
      tickerCashFlow0 in

  let price := or_num (Brapi.regularMarketPrice tickerBrapi) (dec 10) in
  let mCap := or_num (Brapi.marketCap tickerBrapi) zero in
  let shares0 :=
    if (mCap >? zero)%js && (price >? zero)%js then (mCap / price)%js
    else or_num (Brapi.sharesOutstanding tickerBrapi) zero in
  let shares1 :=
    if negb (truthy shares0)
       && truthy_opt (opt_get baseIncome Income.net_income)
       && truthy_opt (Brapi.earningsPerShare tickerBrapi)
    then (nullish (opt_get baseIncome Income.net_income) NaN
          / nullish (Brapi.earningsPerShare tickerBrapi) NaN)%js
    else shares0 in
  let shares := if negb (truthy shares1) then dec 1000000 else shares1 in

  let grossDebt :=
    (or_num (opt_get baseBalance Balance.long_term_debt) zero
     + or_num (opt_get baseBalance Balance.short_long_term_debt) zero)%js in
  let cash :=
    (or_num (opt_get baseBalance Balance.cash) zero
     + or_num (opt_get baseBalance Balance.short_term_investments) zero)%js in
  let netDebt := (grossDebt - cash)%js in
  let depreciation := or_num (opt_get baseCF CashFlow.depreciation) zero in
  let ebit := or_num (opt_get baseIncome Income.ebit) zero in
  let ebitda := (ebit + depreciation)%js in
  let equity :=
    or_num (opt_get baseBalance Balance.total_stockholder_equity)
      (if_truthy (Brapi.bookValue tickerBrapi) (fun bv => bv * shares)%js zero) in
  let investedCapital := (equity + netDebt)%js in
  let ocf :=
    or_num (opt_get baseCF CashFlow.total_cash_from_operating_activities) zero in
  let capex := or_num (opt_get baseCF CashFlow.capital_expenditures) zero in
  let freeCashFlow := (ocf + capex)%js in
  let netIncome := or_num (opt_get baseIncome Income.net_income) zero in
  let revenue := or_num (opt_get baseIncome Income.total_revenue) zero in

  let pl :=
    or_num (Brapi.pl tickerBrapi)
      (or_num (Brapi.priceEarnings tickerBrapi)
         (if (netIncome >? zero)%js then mCap / netIncome else zero)%js) in
  let pvp :=
    or_num (Brapi.pvp tickerBrapi)
      (or_num (Brapi.priceToBook tickerBrapi)
         (if (equity >? zero)%js then mCap / equity else zero)%js) in
  let lpa :=
    or_num (Brapi.lpa tickerBrapi)
      (or_num (Brapi.earningsPerShare tickerBrapi) (netIncome / shares)%js) in
  let vpa :=
    or_num (Brapi.vpa tickerBrapi)
      (or_num (Brapi.bookValue tickerBrapi) (equity / shares)%js) in
  let roe :=
    if_truthy (Brapi.roe tickerBrapi) (fun v => v / dec 100)%js
      (if (equity >? zero)%js then netIncome / equity else zero)%js in
  let roic :=
    if_truthy (Brapi.roic tickerBrapi) (fun v => v / dec 100)%js
      (if (equity + netDebt >? zero)%js
       then (ebit * dec 0.66) / (equity + netDebt) else zero)%js in
  let netMargin :=
    if_truthy (Brapi.net_margin tickerBrapi) (fun v => v / dec 100)%js
      (if (revenue >? zero)%js then netIncome / revenue else zero)%js in
  let ebitdaMargin :=
    if_truthy (Brapi.ebitda_margin tickerBrapi) (fun v => v / dec 100)%js
      (if (revenue >? zero)%js then ebitda / revenue else zero)%js in
  let evEbitda :=
    or_num (Brapi.enterpriseToEbitda tickerBrapi)
      (if (ebitda >? zero)%js then (mCap + netDebt) / ebitda else zero)%js in
  let evEbit :=
    or_num (Brapi.ev_ebit tickerBrapi)
      (if (ebit >? zero)%js then (mCap + netDebt) / ebit else zero)%js in
  let debtEbitda :=
    or_num (Brapi.debt_ebitda tickerBrapi)
      (if (ebitda >? zero)%js then netDebt / ebitda else zero)%js in
  let changeDay :=
    if_truthy (Brapi.regularMarketChangePercent tickerBrapi)
      (fun v => v / dec 100)%js zero in
  let change12m :=
    if_truthy (Brapi.fiftyTwoWeekChange tickerBrapi)
      (fun v => v / dec 100)%js zero in
  let currentAssets :=
    or_num (opt_get baseBalance Balance.total_current_assets) zero in
  let currentLiab :=
    or_num (opt_get baseBalance Balance.total_current_liabilities) zero in

  let fundamentals : FundamentalData.t :=
    {| FundamentalData.symbol := t;
       FundamentalData.name :=
         or_str (Brapi.longName tickerBrapi) (or_str (Brapi.shortName tickerBrapi) t);
       FundamentalData.sector := or_str (Brapi.sector tickerBrapi) "-";
       FundamentalData.subSector := or_str (Brapi.industry tickerBrapi) "-";
       FundamentalData.type := getTypeFromTicker t;
       FundamentalData.price := price;
       FundamentalData.date := toLocaleDateString_ptBR h now;
       FundamentalData.min52Week := or_num (Brapi.fiftyTwoWeekLow tickerBrapi) zero;
       FundamentalData.max52Week := or_num (Brapi.fiftyTwoWeekHigh tickerBrapi) zero;
       FundamentalData.volMed2m :=
         or_num (Brapi.averageDailyVolume3Month tickerBrapi) zero;
       FundamentalData.marketCap := mCap;
       FundamentalData.firmValue :=
         or_num (Brapi.enterpriseValue tickerBrapi) (mCap + netDebt)%js;
       FundamentalData.lastBalanceDate :=
         match baseDate with
         | Some EmptyString | None => "-"
         | Some bd => toLocaleDateString_ptBR h (Date_parse h bd)
         end;
       FundamentalData.sharesOutstanding := shares;
       FundamentalData.changeDay := changeDay;
       FundamentalData.change12m := change12m;
       FundamentalData.pl := pl;
       FundamentalData.pvp := pvp;
       FundamentalData.pebit := (if (ebit >? zero)%js then mCap / ebit else zero)%js;
       FundamentalData.psr :=
         (if (revenue >? zero)%js then mCap / revenue else zero)%js;
       FundamentalData.divYield := or_num (Brapi.dividendYield tickerBrapi) zero;
       FundamentalData.evEbitda := evEbitda;
       FundamentalData.evEbit := evEbit;
       FundamentalData.lpa := lpa;
       FundamentalData.vpa := vpa;
       FundamentalData.grossMargin :=
         (if (revenue >? zero)%js
          then or_num (opt_get baseIncome Income.gross_profit) zero / revenue
          else zero)%js;
       FundamentalData.ebitMargin :=
         (if (revenue >? zero)%js then ebit / revenue else zero)%js;
       FundamentalData.ebitdaMargin := ebitdaMargin;
       FundamentalData.netMargin := netMargin;
       FundamentalData.roic := roic;
       FundamentalData.roe := roe;
       FundamentalData.currentLiquidity :=
         (if (currentLiab >? zero)%js then currentAssets / currentLiab else zero)%js;
       FundamentalData.debtEquity :=
         (if (equity >? zero)%js then grossDebt / equity else zero)%js;
       FundamentalData.debtEbitda := debtEbitda |} in

  {| FinancialData.ticker := t;
     FinancialData.price := price;
     FinancialData.currency := "BRL";
     FinancialData.sharesOutstanding := shares;
     FinancialData.beta := defaultBeta;
     FinancialData.wacc := dec 0.12;
     FinancialData.growthRate := defaultRevGrowth;
     FinancialData.roe := roe;
     FinancialData.payoutRatio := dec 0.25;
     FinancialData.revenue := revenue;
     FinancialData.ebit := ebit;
     FinancialData.netIncome := netIncome;
     FinancialData.interestExpenses :=
       Math_abs (or_num (opt_get baseIncome Income.interest_expense) zero);
     FinancialData.taxRate := dec 0.34;
     FinancialData.equity := equity;
     FinancialData.debt := grossDebt;
     FinancialData.cashAndEquivalents := cash;
     FinancialData.investedCapital := investedCapital;
     FinancialData.freeCashFlow := freeCashFlow;
     FinancialData.depreciation := depreciation;
     FinancialData.volatility := dec 0.30;
     FinancialData.sectorPE := dec 8.0;
     FinancialData.sectorEVEBITDA := dec 6.0;
     FinancialData.currentPE := pl;
     FinancialData.currentEVEBITDA := evEbitda;
     FinancialData.currentEPS := lpa;
     FinancialData._rawIncome :=
       map (fun i => Income.with_type
                       (normalizeType (Income.type i) (Some (Income.period i))) i)
           tickerIncome;
     FinancialData._rawBalance :=
       map (fun b => Balance.with_type
                       (normalizeType (Balance.type b) (Some (Balance.period b))) b)
           tickerBalance;
     FinancialData._rawCashFlow :=
       map (fun c => CashFlow.with_type
                       (normalizeType (CashFlow.type c) (Some (CashFlow.period c))) c)
           tickerCashFlow;
     FinancialData._rawDividends := rawDividends;
     FinancialData.fundamentals := fundamentals;
     FinancialData.businessSummary :=
       match option_map trim (Brapi.longBusinessSummary tickerBrapi) with
       | Some EmptyString | None => None
       | Some s => Some s
       end |}.

(** Source lines 64-78 and the call of the builder: the rows are matched
    to the ticker, and the snapshot is built unless a category is
    missing.  [inl] carries the message of the thrown [Error]. *)
Definition snapshot_of_rows (h : Host) (now : number) (t : string)
    (supa : SupabaseFinancials) : string + FinancialData.t :=
  let tickerIncome := filterByTicker (income supa) t in
  let tickerBalance := filterByTicker (balance supa) t in
  let tickerCashFlow := filterByTicker (cashFlow supa) t in
  let tickerBrapi := find_tickerBrapi (brapi supa) t in
  let missing := missing_of tickerBrapi tickerIncome tickerBalance tickerCashFlow in
  match tickerBrapi with
  | None => inl (incomplete_message t missing)
  | Some q =>
      if is_empty tickerIncome || is_empty tickerBalance || is_empty tickerCashFlow
      then inl (incomplete_message t missing)
      else inr (build_snapshot h now t q tickerIncome tickerBalance tickerCashFlow
                  (dividends supa))
  end.

(** [getFinancialData]; [fetchFinancials] is the fetch layer of
    [supabase.ts], [null] when it has nothing for the ticker. *)
Definition getFinancialData (h : Host) (now : number)
    (fetchFinancials : string -> option SupabaseFinancials) (ticker : string)
    : string + FinancialData.t :=
  let t := strip_SA (trim (toUpperCase ticker)) in
  match fetchFinancials t with
  | None => inl ("Sem dados para " ++ t)%string
  | Some supa => snapshot_of_rows h now t supa
  end.

(* ================================================================== *)
(** ** WACC (source lines 180-194) *)
(* ================================================================== *)

(** [ValuationAssumptions] of [types.ts]. *)
Record ValuationAssumptions : Type := {
  riskFreeRate : number;
  equityRiskPremium : number;
  beta : number;
  costOfDebt : number;
  perpetualGrowth : number;
  projectedRevenueGrowth : number;
  taxRate : number
}.

(** [calculateWacc]; the result object [{ wacc, ke }] is the pair
    [(wacc, ke)]. *)
Definition calculateWacc (data : FinancialData.t) (a : ValuationAssumptions)
    : number * number :=
  let ke := (riskFreeRate a + beta a * equityRiskPremium a)%js in
  let rawKd :=
    if (FinancialData.debt data >? zero)%js
       && (FinancialData.interestExpenses data >? zero)%js
    then
      let implied := (FinancialData.interestExpenses data / FinancialData.debt data)%js in
      if (implied >=? dec 0.01)%js && (implied <=? dec 0.60)%js then implied
      else costOfDebt a
    else costOfDebt a in
  let kdNet := (rawKd * (dec 1 - dec 0.34))%js in
  let E := (FinancialData.price data * FinancialData.sharesOutstanding data)%js in
  let D := FinancialData.debt data in
  let V := (E + D)%js in
  if (V === zero)%js then (ke, ke)
  else
    let wacc := ((ke * E / V) + (kdNet * D / V))%js in
    (wacc, ke).

(* ================================================================== *)
(** ** Valuation methods (source lines 198-242) *)
(* ================================================================== *)

(** One turn of the loop of [calcDCF]: the state is
    [(currentFCF, pvCF)]. *)
Definition dcf_step (wacc gRev : number) (st : number * number) (i : nat)
    : number * number :=
  let '(currentFCF, pvCF) := st in
  let currentFCF' := (currentFCF * (dec 1 + gRev))%js in
  (currentFCF', (pvCF + currentFCF' / Math_pow (dec 1 + wacc) i)%js).

Definition calcDCF (data : FinancialData.t) (wacc gPerp gRev : number) : number :=
  let baseFCF := FinancialData.freeCashFlow data in
  let '(currentFCF, pvCF) :=
    fold_left (dcf_step wacc gRev) (seq 1 5) ((baseFCF * (dec 1 + gRev))%js, zero) in
  let termFCF := (currentFCF * (dec 1 + gPerp))%js in
  let termVal := (termFCF / (wacc - gPerp))%js in
  let pvTerm := (termVal / Math_pow (dec 1 + wacc) 5)%js in
  let ev := (pvCF + pvTerm)%js in
  let eqVal :=
    (ev + FinancialData.cashAndEquivalents data - FinancialData.debt data)%js in
  Math_max [zero; (eqVal / FinancialData.sharesOutstanding data)%js].

Definition calcGordon (data : FinancialData.t) (ke g : number) : number :=
  let d1 := (FinancialData.currentEPS data * (dec 1 + g))%js in
  if (ke <=? g)%js then zero
  else (d1 / (ke - g))%js.

Definition calcGraham (data : FinancialData.t) : number :=
  let lpa := FinancialData.currentEPS data in
  let vpa :=
    if (FinancialData.sharesOutstanding data >? zero)%js
    then (FinancialData.equity data / FinancialData.sharesOutstanding data)%js
    else zero in
  if (lpa <=? zero)%js || (vpa <=? zero)%js then zero
  else Math_sqrt (dec 22.5 * lpa * vpa)%js.

Definition calcEVA (data : FinancialData.t) (wacc gRev : number) : number :=
  let year1Ebit :=
    (FinancialData.ebit data * (dec 1 + gRev) * (dec 1 + gRev))%js in
  let nopat := (year1Ebit * dec 0.66)%js in
  let capCharge := (FinancialData.investedCapital data * wacc)%js in
  let eva := (nopat - capCharge)%js in
  let mva := (eva / wacc)%js in
  let eqVal :=
    (FinancialData.investedCapital data + mva - FinancialData.debt data
     + FinancialData.cashAndEquivalents data)%js in
  Math_max [zero; (eqVal / FinancialData.sharesOutstanding data)%js].

Definition calcMultiples (data : FinancialData.t) : number :=
  let byPE :=
    ((FinancialData.netIncome data * FinancialData.sectorPE data)
     / FinancialData.sharesOutstanding data)%js in
  let impliedEV := (FinancialData.ebit data * FinancialData.sectorEVEBITDA data)%js in
  let byEBITDA :=
    ((impliedEV - FinancialData.debt data + FinancialData.cashAndEquivalents data)
     / FinancialData.sharesOutstanding data)%js in
  ((byPE + byEBITDA) / dec 2)%js.

(* ================================================================== *)
(** ** [performValuation] (source lines 246-297) *)
(* ================================================================== *)

(** The result types of [types.ts]: [ValuationMethodType],
    [CalculationTrace], [ValuationResult], [SensitivityCell], the price
    range and [ComprehensiveValuation]. *)
Module ValuationMethodType.
Inductive t : Type := DCF | GORDON | EVA | MULTIPLES | GRAHAM.
End ValuationMethodType.

Record CalculationTrace : Type := {
  formula : string;
  inputs : list (string * string);
  steps : list string;
  finalResult : number
}.

Module ValuationResult.
Record t : Type := {
  method : ValuationMethodType.t;
  fairValue : number;
  weight : number;
  upside : number;
  details : string;
  trace : CalculationTrace
}.
End ValuationResult.

Module SensitivityCell.
Record t : Type := {
  wacc : number;
  growth : number;
  fairValue : number
}.
End SensitivityCell.

Module PriceRange.
Record t : Type := {
  min : number;
  max : number
}.
End PriceRange.

Module ComprehensiveValuation.
Record t : Type := {
  ticker : string;
  currentPrice : number;
  weightedFairValue : number;
  calculatedWacc : number;
  totalUpside : number;
  results : list ValuationResult.t;
  priceRange : PriceRange.t;
  sensitivityMatrix : list (list SensitivityCell.t)
}.
End ComprehensiveValuation.

(** The local [trace] of source lines 261-263. *)
Definition trace (formula : string) (val : number) : CalculationTrace :=
  {| formula := formula; inputs := []; steps := []; finalResult := val |}.

(** The step indices of both loops of the sensitivity matrix. *)
Definition sensitivity_steps : list number :=
  [dec (-2); dec (-1); dec 0; dec 1; dec 2].

(** Source lines 276-285: each loop pushes onto its array. *)
Definition sensitivity_matrix (data : FinancialData.t) (wacc gPerp gRev : number)
    : list (list SensitivityCell.t) :=
  fold_left
    (fun matrix wStep =>
       let simW := (wacc + wStep * dec 0.005)%js in
       let row :=
         fold_left
           (fun row gStep =>
              let simG := (gPerp + gStep * dec 0.005)%js in
              row ++ [ {| SensitivityCell.wacc := simW;
                          SensitivityCell.growth := simG;
                          SensitivityCell.fairValue := calcDCF data simW simG gRev |} ])
           sensitivity_steps [] in
       matrix ++ [row])
    sensitivity_steps [].

Definition performValuation (data : FinancialData.t) (assumptions : ValuationAssumptions)
    (customWeights : option ValuationWeights) : ComprehensiveValuation.t :=
  let '(wacc, ke) := calculateWacc data assumptions in
  let gPerp := perpetualGrowth assumptions in
  let gRev := projectedRevenueGrowth assumptions in

  let dcf := calcDCF data wacc gPerp gRev in
  let gordon := calcGordon data ke gPerp in
  let graham := calcGraham data in
  let eva := calcEVA data wacc gRev in
  let multiples := calcMultiples data in

  let w := nullish customWeights DEFAULT_WEIGHTS.MATURE in
  let totalW := (DCF w + GORDON w + EVA w + MULTIPLES w + GRAHAM w)%js in
  let weighted :=
    ((dcf * DCF w + gordon * GORDON w + eva * EVA w + multiples * MULTIPLES w
      + graham * GRAHAM w) / totalW)%js in

  let price := FinancialData.price data in
  let results : list ValuationResult.t :=
    [ {| ValuationResult.method := ValuationMethodType.DCF;
         ValuationResult.fairValue := dcf;
         ValuationResult.weight := (DCF w / totalW)%js;
         ValuationResult.upside := (dcf / price - dec 1)%js;
         ValuationResult.details := "FCD";
         ValuationResult.trace := trace "DCF" dcf |};
      {| ValuationResult.method := ValuationMethodType.GORDON;
         ValuationResult.fairValue := gordon;
         ValuationResult.weight := (GORDON w / totalW)%js;
         ValuationResult.upside := (gordon / price - dec 1)%js;
         ValuationResult.details := "Gordon";
         ValuationResult.trace := trace "Gordon" gordon |};
      {| ValuationResult.method := ValuationMethodType.EVA;
         ValuationResult.fairValue := eva;
         ValuationResult.weight := (EVA w / totalW)%js;
         ValuationResult.upside := (eva / price - dec 1)%js;
         ValuationResult.details := "EVA";
         ValuationResult.trace := trace "EVA" eva |};
      {| ValuationResult.method := ValuationMethodType.MULTIPLES;
         ValuationResult.fairValue := multiples;
         ValuationResult.weight := (MULTIPLES w / totalW)%js;
         ValuationResult.upside := (multiples / price - dec 1)%js;
         ValuationResult.details := "Múltiplos";
         ValuationResult.trace := trace "Múltiplos" multiples |};
      {| ValuationResult.method := ValuationMethodType.GRAHAM;
         ValuationResult.fairValue := graham;
         ValuationResult.weight := (GRAHAM w / totalW)%js;
         ValuationResult.upside := (graham / price - dec 1)%js;
         ValuationResult.details := "Graham";
         ValuationResult.trace := trace "Graham" graham |} ] in

  let values :=
    filter (fun v => (v >? zero)%js) (map ValuationResult.fairValue results) in

  let matrix := sensitivity_matrix data wacc gPerp gRev in

  {| ComprehensiveValuation.ticker := FinancialData.ticker data;
     ComprehensiveValuation.currentPrice := price;
     ComprehensiveValuation.weightedFairValue := weighted;
     ComprehensiveValuation.calculatedWacc := wacc;
     ComprehensiveValuation.totalUpside := (weighted / price - dec 1)%js;
     ComprehensiveValuation.results := results;
     ComprehensiveValuation.priceRange :=
       {| PriceRange.min := Math_min values; PriceRange.max := Math_max values |};
     ComprehensiveValuation.sensitivityMatrix := matrix |}.

(** The assumptions [generate-pages.ts] passes: a preset completed with
    the default cost of debt and the tax rate. *)
Definition assumptions_of (p : ScenarioPreset) : ValuationAssumptions :=
  {| riskFreeRate := preset_riskFreeRate p;
     equityRiskPremium := preset_equityRiskPremium p;
     beta := preset_beta p;
     costOfDebt := DEFAULT_COST_OF_DEBT;
     perpetualGrowth := preset_perpetualGrowth p;
     projectedRevenueGrowth := preset_projectedRevenueGrowth p;
     taxRate := dec 0.34 |}.

(* ================================================================== *)
(** ** Vocabulary of the properties *)
(* ================================================================== *)

(** *** Discounted cash flow, as a closed formula on rationals

    [dcf_formula lead] projects the base free cash flow [lead + i] periods
    forward for year [i = 1..5], discounts each year at WACC, adds the
    Gordon terminal value on the year-5 flow discounted 5 periods, then
    cash less debt, per share. *)
Definition projected_fcf (lead : nat) (fcf gRev : Qc) (i : nat) : Qc :=
  (fcf * (1 + gRev) ^ (lead + i))%Qc.

Definition discounted_fcf (lead : nat) (fcf gRev wacc : Qc) (i : nat) : Qc :=
  (projected_fcf lead fcf gRev i / (1 + wacc) ^ i)%Qc.

Definition dcf_formula (lead : nat) (fcf cash debt shares wacc gPerp gRev : Qc) : Qc :=
  let pv := discounted_fcf lead fcf gRev wacc in
  let flows : Qc := (pv 1%nat + pv 2%nat + pv 3%nat + pv 4%nat + pv 5%nat)%Qc in
  let terminal : Qc :=
    (projected_fcf lead fcf gRev 5 * (1 + gPerp) / (wacc - gPerp))%Qc in
  ((flows + terminal / (1 + wacc) ^ 5 + cash - debt) / shares)%Qc.

(** The recurrence in the words of the specification: year [i] is the
    base flow compounded [i] times. *)
Definition DCF_reference : Qc -> Qc -> Qc -> Qc -> Qc -> Qc -> Qc -> Qc :=
  dcf_formula 0.

Definition Qcmax (a b : Qc) : Qc :=
  match (a ?= b)%Qc with Lt => b | _ => a end.

Definition Qcabs (a : Qc) : Qc :=
  match (a ?= Q2Qc 0)%Qc with Lt => (- a)%Qc | _ => a end.

(** *** Orders on numbers *)
Definition nle (x y : number) : Prop := (x <=? y)%js = true.
Definition nlt (x y : number) : Prop := (x <? y)%js = true.

Definition is_minimum (m : number) (l : list number) : Prop :=
  In m l /\ forall x, In x l -> nle m x.

Definition is_maximum (m : number) (l : list number) : Prop :=
  In m l /\ forall x, In x l -> nle x m.

(** The per-method fair values of a valuation, in the order of its
    results, and the strictly positive ones among them. *)
Definition fair_values (v : ComprehensiveValuation.t) : list number :=
  map ValuationResult.fairValue (ComprehensiveValuation.results v).

Definition positive_fair_values (v : ComprehensiveValuation.t) : list number :=
  filter (fun x => (x >? zero)%js) (fair_values v).

(** *** Weights *)
Definition weights_of (d g e m gr : Qc) : ValuationWeights :=
  {| DCF := Fin d; GORDON := Fin g; EVA := Fin e; MULTIPLES := Fin m; GRAHAM := Fin gr |}.

(** Every weight of the profile multiplied by [c]. *)
Definition scale_weights (c : number) (w : ValuationWeights) : ValuationWeights :=
  {| DCF := (DCF w * c)%js; GORDON := (GORDON w * c)%js; EVA := (EVA w * c)%js;
     MULTIPLES := (MULTIPLES w * c)%js; GRAHAM := (GRAHAM w * c)%js |}.

(** *** The sensitivity grid *)
Definition cell_at (m : list (list SensitivityCell.t)) (r c : nat)
    : option SensitivityCell.t :=
  match nth_error m r with
  | Some row => nth_error row c
  | None => None
  end.

(** Step index [-2..+2] of row or column [0..4]. *)
Definition step_of (i : nat) : number := Fin (Q2Qc (inject_Z (Z.of_nat i - 2))).

(** *** Categories of rows *)
Inductive Category : Type := Quote | IncomeStatement | BalanceSheet | CashFlowStatement.

Definition category_name (c : Category) : string :=
  match c with
  | Quote => "cotação"
  | IncomeStatement => "DRE"
  | BalanceSheet => "balanço"
  | CashFlowStatement => "fluxo de caixa"
  end.

(** Whether a category has a row for the resolved ticker [t]. *)
Definition has_rows (rawBrapi : list Brapi.row) (rawIncome : list Income.row)
    (rawBalance : list Balance.row) (rawCashFlow : list CashFlow.row)
    (t : string) (c : Category) : bool :=
  match c with
  | Quote => negb (is_none (find_tickerBrapi rawBrapi t))
  | IncomeStatement => negb (is_empty (filterByTicker rawIncome t))
  | BalanceSheet => negb (is_empty (filterByTicker rawBalance t))
  | CashFlowStatement => negb (is_empty (filterByTicker rawCashFlow t))
  end.

Definition missing_categories (rawBrapi : list Brapi.row) (rawIncome : list Income.row)
    (rawBalance : list Balance.row) (rawCashFlow : list CashFlow.row)
    (t : string) : list Category :=
  filter (fun c => negb (has_rows rawBrapi rawIncome rawBalance rawCashFlow t c))
    [Quote; IncomeStatement; BalanceSheet; CashFlowStatement].

(** The ticker as [getFinancialData] resolves it (source line 60). *)
Definition resolve_ticker (ticker : string) : string :=
  strip_SA (trim (toUpperCase ticker)).

(** *** The snapshot without its date stamp *)
Definition erase_date (fd : FinancialData.t) : FinancialData.t :=
  FinancialData.with_fundamentals
    (FundamentalData.with_date "" (FinancialData.fundamentals fd)) fd.

Definition erase_date_result (r : string + FinancialData.t) : string + FinancialData.t :=
  match r with
  | inl msg => inl msg
  | inr fd => inr (erase_date fd)
  end.

(** *** Equality of numbers by value

    Decides [x = y]: two finite numbers are equal when their fractions
    are. *)
Definition same_value (x y : number) : bool :=
  match x, y with
  | Fin a, Fin b => Qeq_bool (this a) (this b)
  | PInf, PInf | NInf, NInf | NaN, NaN => true
  | _, _ => false
  end.

Definition same_values (l l' : list number) : bool :=
  Nat.eqb (List.length l) (List.length l')
  && forallb (fun p => same_value (fst p) (snd p)) (combine l l').

(* ================================================================== *)
(** ** Concrete inputs *)
(* ================================================================== *)

Definition blank_fundamentals : FundamentalData.t :=
  {| FundamentalData.symbol := ""; FundamentalData.name := "";
     FundamentalData.sector := "-"; FundamentalData.subSector := "-";
     FundamentalData.type := "ON"; FundamentalData.price := zero;
     FundamentalData.date := ""; FundamentalData.min52Week := zero;
     FundamentalData.max52Week := zero; FundamentalData.volMed2m := zero;
     FundamentalData.marketCap := zero; FundamentalData.firmValue := zero;
     FundamentalData.lastBalanceDate := "-";
     FundamentalData.sharesOutstanding := zero;
     FundamentalData.changeDay := zero; FundamentalData.change12m := zero;
     FundamentalData.pl := zero; FundamentalData.pvp := zero;
     FundamentalData.pebit := zero; FundamentalData.psr := zero;
     FundamentalData.divYield := zero; FundamentalData.evEbitda := zero;
     FundamentalData.evEbit := zero; FundamentalData.lpa := zero;
     FundamentalData.vpa := zero; FundamentalData.grossMargin := zero;
     FundamentalData.ebitMargin := zero; FundamentalData.ebitdaMargin := zero;
     FundamentalData.netMargin := zero; FundamentalData.roic := zero;
     FundamentalData.roe := zero; FundamentalData.currentLiquidity := zero;
     FundamentalData.debtEquity := zero; FundamentalData.debtEbitda := zero |}.

(** A snapshot from the figures the pricing functions read; the sector
    multiples are the constants [getFinancialData] assigns. *)
Definition snapshot_of (price shares fcf cash debt ebit netIncome equity eps interest : Q)
    : FinancialData.t :=
  {| FinancialData.ticker := "TEST3";
     FinancialData.price := dec price;
     FinancialData.currency := "BRL";
     FinancialData.sharesOutstanding := dec shares;
     FinancialData.beta := dec 1.0;
     FinancialData.wacc := dec 0.12;
     FinancialData.growthRate := dec 0.05;
     FinancialData.roe := zero;
     FinancialData.payoutRatio := dec 0.25;
     FinancialData.revenue := zero;
     FinancialData.ebit := dec ebit;
     FinancialData.netIncome := dec netIncome;
     FinancialData.interestExpenses := dec interest;
     FinancialData.taxRate := dec 0.34;
     FinancialData.equity := dec equity;
     FinancialData.debt := dec debt;
     FinancialData.cashAndEquivalents := dec cash;
     FinancialData.investedCapital := (dec equity + (dec debt - dec cash))%js;
     FinancialData.freeCashFlow := dec fcf;
     FinancialData.depreciation := zero;
     FinancialData.volatility := dec 0.30;
     FinancialData.sectorPE := dec 8.0;
     FinancialData.sectorEVEBITDA := dec 6.0;
     FinancialData.currentPE := zero;
     FinancialData.currentEVEBITDA := zero;
     FinancialData.currentEPS := dec eps;
     FinancialData._rawIncome := [];
     FinancialData._rawBalance := [];
     FinancialData._rawCashFlow := [];
     FinancialData._rawDividends := [];
     FinancialData.fundamentals := blank_fundamentals;
     FinancialData.businessSummary := None |}.

(** The worked example of the specification: free cash flow 1,000,000,
    100,000 shares, no cash and no debt. *)
Definition dcf_example : FinancialData.t :=
  snapshot_of 10 100000 1000000 0 0 0 0 0 0 0.

(** A loss-making company: 100 shares, net income -1000 (so -10 per
    share), equity 500. *)
Definition loss_maker : FinancialData.t :=
  snapshot_of 10 100 0 0 0 0 (-1000) 500 (-10) 0.

(** A company with no flows, no earnings and no capital. *)
Definition idle_company : FinancialData.t :=
  snapshot_of 10 100 0 0 0 0 0 0 0 0.

(** A profitable company with some debt. *)
Definition going_concern : FinancialData.t :=
  snapshot_of 10 100 5000 100 200 800 600 3000 6 20.

(** The same, with earnings per share at zero: Gordon and Graham price
    it at 0. *)
Definition no_earnings_per_share : FinancialData.t :=
  snapshot_of 10 100 5000 100 200 800 600 3000 0 20.

Definition BASE_assumptions : ValuationAssumptions :=
  assumptions_of SCENARIO_PRESETS.BASE.

(** Rows of one annual period for a symbol. *)
Definition income_row (sym : string) (netIncome : Q) : Income.row :=
  {| Income.symbol := sym; Income.end_date := "2024-12-31";
     Income.period := "2024"; Income.type := Some "yearly";
     Income.total_revenue := Some (dec 10000);
     Income.gross_profit := Some (dec 4000);
     Income.ebit := Some (dec 800);
     Income.net_income := Some (dec netIncome);
     Income.interest_expense := Some (dec (-20)) |}.

Definition balance_row (sym : string) : Balance.row :=
  {| Balance.symbol := sym; Balance.end_date := "2024-12-31";
     Balance.period := "2024"; Balance.type := Some "yearly";
     Balance.total_assets := Some (dec 5000);
     Balance.total_current_assets := Some (dec 1500);
     Balance.total_current_liabilities := Some (dec 1000);
     Balance.cash := Some (dec 100);
     Balance.short_term_investments := None;
     Balance.long_term_debt := Some (dec 200);
     Balance.short_long_term_debt := None;
     Balance.total_stockholder_equity := Some (dec 3000) |}.

Definition cashflow_row (sym : string) : CashFlow.row :=
  {| CashFlow.symbol := sym; CashFlow.end_date := "2024-12-31";
     CashFlow.period := "2024"; CashFlow.type := Some "yearly";
     CashFlow.total_cash_from_operating_activities := Some (dec 900);
     CashFlow.capital_expenditures := Some (dec (-400));
     CashFlow.depreciation := Some (dec 150) |}.

Definition quote_row (sym : string) (marketCap shares eps : option number) : Brapi.row :=
  {| Brapi.symbol := sym;
     Brapi.longName := Some "Companhia Exemplo S.A.";
     Brapi.shortName := None;
     Brapi.sector := Some "Materiais";
     Brapi.industry := None;
     Brapi.longBusinessSummary := None;
     Brapi.regularMarketPrice := Some (dec 10);
     Brapi.regularMarketChangePercent := None;
     Brapi.fiftyTwoWeekChange := None;
     Brapi.fiftyTwoWeekLow := None;
     Brapi.fiftyTwoWeekHigh := None;
     Brapi.averageDailyVolume3Month := None;
     Brapi.marketCap := marketCap;
     Brapi.enterpriseValue := None;
     Brapi.sharesOutstanding := shares;
     Brapi.earningsPerShare := eps;
     Brapi.bookValue := None;
     Brapi.beta5y := None;
     Brapi.revenueGrowth := None;
     Brapi.dividendYield := None;
     Brapi.pl := None;
     Brapi.priceEarnings := None;
     Brapi.pvp := None;
     Brapi.priceToBook := None;
     Brapi.lpa := None;
     Brapi.vpa := None;
     Brapi.roe := None;
     Brapi.roic := None;
     Brapi.net_margin := None;
     Brapi.ebitda_margin := None;
     Brapi.enterpriseToEbitda := None;
     Brapi.ev_ebit := None;
     Brapi.debt_ebitda := None |}.

(** All four categories keyed by one symbol; no dividend history. *)
Definition rows_keyed (sym : string) (netIncome : Q)
    (marketCap shares eps : option number) : SupabaseFinancials :=
  {| income := [income_row sym netIncome];
     balance := [balance_row sym];
     cashFlow := [cashflow_row sym];
     brapi := [quote_row sym marketCap shares eps];
     dividends := [] |}.

(** Rows keyed [VALE3], with a market capitalisation of 1000. *)
Definition vale_rows : SupabaseFinancials :=
  rows_keyed "VALE3" 600 (Some (dec 1000)) None None.

(** The same rows keyed [vale3.sa]. *)
Definition vale_rows_lowercase : SupabaseFinancials :=
  rows_keyed "vale3.sa" 600 (Some (dec 1000)) None None.

(** A quote without market capitalisation or share count, earnings per
    share 2, beside a net loss of 500. *)
Definition loss_rows : SupabaseFinancials :=
  rows_keyed "LOSS3" (-500) None None (Some (dec 2)).

(** Two clock readings a day apart: 1 and 2 November 2026, 00:00 UTC. *)
Definition clock_day1 : number := dec 1793491200000.
Definition clock_day2 : number := dec 1793577600000.

(* ================================================================== *)
(** ** The page generator ([generate-pages.ts]) *)
(* ================================================================== *)

(** [generatePage] (source lines 16-43) up to the rendering: the snapshot
    and the valuation handed to [generateTickerHTML], or [None] where the
    source returns [false] before rendering (a failure of
    [getFinancialData] caught at line 39, or the validity test of line
    26).  The assumptions are the BASE preset completed at lines 19-23. *)
Definition generatePage (h : Host) (now : number)
    (fetchFinancials : string -> option SupabaseFinancials) (ticker : string)
    : option (FinancialData.t * ComprehensiveValuation.t) :=
  match getFinancialData h now fetchFinancials ticker with
  | inl _ => None
  | inr data =>
      let val := performValuation data BASE_assumptions None in
      if negb (truthy (ComprehensiveValuation.weightedFairValue val))
         || negb (Number_isFinite (ComprehensiveValuation.weightedFairValue val))
      then None
      else Some (data, val)
  end.

Definition BATCH_SIZE : nat := 5.

(** [arr.slice(i, j)] for [0 <= i]. *)
Definition slice {T : Type} (i j : nat) (l : list T) : list T :=
  firstn (j - i) (skipn i l).

(** The counters of [main] (source lines 67-69), and the number of
    [sleep] calls between batches. *)
Record Progress : Type := {
  success : nat;
  failed : nat;
  generated : list string;
  sleeps : nat
}.

Definition no_progress : Progress :=
  {| success := 0; failed := 0; generated := []; sleeps := 0 |}.

(** The body of [results.forEach] (source lines 75-82): [entry] is
    [(batch[j], results[j])]. *)
Definition record_result (st : Progress) (entry : string * bool) : Progress :=
  if snd entry
  then {| success := S (success st); failed := failed st;
          generated := generated st ++ [fst entry]; sleeps := sleeps st |}
  else {| success := success st; failed := S (failed st);
          generated := generated st; sleeps := sleeps st |}.

Definition sleep (st : Progress) : Progress :=
  {| success := success st; failed := failed st;
     generated := generated st; sleeps := S (sleeps st) |}.

(** The batch loop of [main] (source lines 72-84) from index [i];
    [page_ok] is the outcome of [generatePage] on a ticker.  [None] when
    the fuel runs out before the loop ends. *)
Fixpoint batch_loop (fuel : nat) (page_ok : string -> bool) (tickers : list string)
    (i : nat) (st : Progress) : option Progress :=
  if Nat.ltb i (List.length tickers) then
    match fuel with
    | O => None
    | S fuel' =>
        let batch := slice i (i + BATCH_SIZE) tickers in
        let results := map page_ok batch in
        let st1 := fold_left record_result (combine batch results) st in
        let st2 :=
          if Nat.ltb (i + BATCH_SIZE) (List.length tickers) then sleep st1 else st1 in
        batch_loop fuel' page_ok tickers (i + BATCH_SIZE) st2
    end
  else Some st.

Definition run_batches (page_ok : string -> bool) (tickers : list string)
    : option Progress :=
  batch_loop (List.length tickers) page_ok tickers 0 no_progress.

(* ================================================================== *)
(** ** Statement tables ([template.ts], source lines 51-67) *)
(* ================================================================== *)

(** The bound [T extends { type?: string; period: string }] of
    [getYearlyData]. *)
Class HasPeriod (T : Type) := {
  row_type : T -> option string;
  row_period : T -> string
}.

#[export] Instance Income_period : HasPeriod Income.row :=
  {| row_type := Income.type; row_period := Income.period |}.
#[export] Instance Balance_period : HasPeriod Balance.row :=
  {| row_type := Balance.type; row_period := Balance.period |}.
#[export] Instance CashFlow_period : HasPeriod CashFlow.row :=
  {| row_type := CashFlow.type; row_period := CashFlow.period |}.

(** [/^\d{4}$/.test(p)]. *)
Definition is_four_digits (p : string) : bool :=
  Nat.eqb (String.length p) 4 && forallb (in_range 48 57) (list_ascii_of_string p).

(** The filter of source lines 52-56. *)
Definition is_yearly_row {T : Type} `{HasPeriod T} (d : T) : bool :=
  let t := toLowerCase (nullish (row_type d) "") in
  let p := toUpperCase (row_period d) in
  String.eqb t "yearly" || String.eqb t "annual" || startsWith p "FY"
  || (Nat.eqb (String.length p) 4 && is_four_digits p).

(** [new Date(s).getFullYear().toString()] belongs to the host, as a
    function of the time value: the year in the host's time zone, ["NaN"]
    for an invalid date. *)
Record Calendar : Type := {
  getFullYear_toString : number -> string
}.

Definition year_of {T : Type} `{HasEndDate T} (h : Host) (cal : Calendar) (d : T) : string :=
  getFullYear_toString cal (Date_parse h (end_date d)).

(** The stateful filter of source lines 60-66: [seen] is the set of the
    years met so far. *)
Fixpoint dedupe_by_year {T : Type} (year : T -> string) (seen : list string)
    (l : list T) : list T :=
  match l with
  | [] => []
  | d :: r =>
      if includes seen (year d) then dedupe_by_year year seen r
      else d :: dedupe_by_year year (year d :: seen) r
  end.

(** [getYearlyData].  The source sorts in place the array it picks: the
    second component is the argument array after the call, sorted when no
    row is yearly. *)
Definition getYearlyData {T : Type} `{HasPeriod T} `{HasEndDate T}
    (h : Host) (cal : Calendar) (data : list T) : list T * list T :=
  let yearly := filter is_yearly_row data in
  let '(sorted, data') :=
    if Nat.ltb 0 (List.length yearly)
    then (Array_sort (by_end_date_desc h) yearly, data)
    else let s := Array_sort (by_end_date_desc h) data in (s, s) in
  (firstn 10 (dedupe_by_year (year_of h cal) [] sorted), data').

(** The calendar of the reference host (UTC). *)
Definition utc_year (t : number) : string :=
  match t with
  | Fin q =>
      let '(y, _, _) := civil_from_days (Qfloor (this q) / ms_per_day)%Z in
      NilZero.string_of_int (Z.to_int y)
  | _ => "NaN"
  end.

Definition utc_calendar : Calendar := {| getFullYear_toString := utc_year |}.

(* ================================================================== *)
(** ** Vocabulary of the further properties *)
(* ================================================================== *)

(** The time value of a row's end date. *)
Definition time_of {T : Type} `{HasEndDate T} (h : Host) (d : T) : number :=
  Date_parse h (end_date d).

Definition dates_finite {T : Type} `{HasEndDate T} (h : Host) (l : list T) : Prop :=
  Forall (fun d => Number_isFinite (time_of h d) = true) l.

(** Latest first: every row is at least as late as the rows after it. *)
Definition latest_first {T : Type} `{HasEndDate T} (h : Host) (l : list T) : Prop :=
  StronglySorted (fun a b => nle (time_of h b) (time_of h a)) l.

(** Sum of numbers, from the left. *)
Definition nsum (l : list number) : number := fold_left nadd l zero.

(** A type that [normalizeType] produces. *)
Definition is_normal_type (ty : option string) : Prop :=
  ty = Some "yearly" \/ ty = Some "quarterly".

(** The rows of a statement once [normalizeType] has set their type. *)
Definition normalize_income (i : Income.row) : Income.row :=
  Income.with_type (normalizeType (Income.type i) (Some (Income.period i))) i.
Definition normalize_balance (b : Balance.row) : Balance.row :=
  Balance.with_type (normalizeType (Balance.type b) (Some (Balance.period b))) b.
Definition normalize_cashflow (c : CashFlow.row) : CashFlow.row :=
  CashFlow.with_type (normalizeType (CashFlow.type c) (Some (CashFlow.period c))) c.

(** Whether some row of a list is yearly for [classifyPeriod]. *)
Definition has_yearly_income (rows : list Income.row) : bool :=
  existsb (fun d => String.eqb (classifyPeriod (Income.period d)) "yearly") rows.

(** Income rows of several periods for one symbol: three quarters and no
    annual row, out of date order. *)
Definition quarterly_income_row (sym date period : string) (netIncome : Q) : Income.row :=
  {| Income.symbol := sym; Income.end_date := date;
     Income.period := period; Income.type := None;
     Income.total_revenue := Some (dec 2500);
     Income.gross_profit := None;
     Income.ebit := Some (dec 200);
     Income.net_income := Some (dec netIncome);
     Income.interest_expense := None |}.

Definition quarterly_rows : SupabaseFinancials :=
  {| income := [quarterly_income_row "VALE3" "2024-06-30" "2T2024" 150;
                quarterly_income_row "VALE3" "2024-09-30" "3T2024" 160;
                quarterly_income_row "VALE3" "2024-03-31" "1T2024" 140];
     balance := balance vale_rows;
     cashFlow := cashFlow vale_rows;
     brapi := brapi vale_rows;
     dividends := [] |}.
(** A snapshot and assumptions whose figures for the cost of capital are
    finite. *)
Definition wacc_inputs (data : FinancialData.t) (a : ValuationAssumptions)
    (price shares debt interest rf erp b kd0 : Qc) : Prop :=
  FinancialData.price data = Fin price
  /\ FinancialData.sharesOutstanding data = Fin shares
  /\ FinancialData.debt data = Fin debt
  /\ FinancialData.interestExpenses data = Fin interest
  /\ riskFreeRate a = Fin rf
  /\ equityRiskPremium a = Fin erp
  /\ beta a = Fin b
  /\ costOfDebt a = Fin kd0.


(** Rows of a company with a market capitalisation of 1000 and a net
    loss of 5000. *)
Definition deep_loss_rows : SupabaseFinancials :=
  rows_keyed "LOSS3" (-5000) (Some (dec 1000)) None None.

(** *** The share count before its default *)

(** The income row the snapshot is based on (source line 89): the latest
    yearly row, else the latest row. *)
Definition base_income (h : Host) (tickerIncome : list Income.row) : option Income.row :=
  fst (or_latest h (nth_error (yearly_sorted h Income.period tickerIncome) 0)
         tickerIncome).

(** The share count of source lines 94-97, as it stands before the
    default of line 98: market capitalisation over price when both are
    positive, else the share count of the quote, else (when that is
    falsy and net income and earnings per share are not) net income over
    earnings per share. *)
Definition derived_shares (tickerBrapi : Brapi.row) (baseIncome : option Income.row)
    : number :=
  let price := or_num (Brapi.regularMarketPrice tickerBrapi) (dec 10) in
  let mCap := or_num (Brapi.marketCap tickerBrapi) zero in
  let shares0 :=
    if (mCap >? zero)%js && (price >? zero)%js then (mCap / price)%js
    else or_num (Brapi.sharesOutstanding tickerBrapi) zero in
  if negb (truthy shares0)
     && truthy_opt (opt_get baseIncome Income.net_income)
     && truthy_opt (Brapi.earningsPerShare tickerBrapi)
  then (nullish (opt_get baseIncome Income.net_income) NaN
        / nullish (Brapi.earningsPerShare tickerBrapi) NaN)%js
  else shares0.

(** Rows keyed [VALE3] whose quote has no market capitalisation, no
    share count and no earnings per share. *)
Definition undetermined_rows : SupabaseFinancials :=
  rows_keyed "VALE3" 600 None None None.

(** The smallest positive double, [2^-1074] (written [5e-324]). *)
Definition smallest_double : number := dec (1 # 2 ^ 1074).

(* ================================================================== *)
(** * The arithmetic of the program: IEEE 754 binary64 *)
(* ================================================================== *)

(** A JavaScript number is a binary64 value, and every operator of the
    pricing functions rounds its result to the nearest one, ties to
    even.  [number] above computes without rounding; this module is the
    arithmetic as the program has it, over the executable specification
    of floating-point numbers of the standard library ([SpecFloat], with
    53 bits of precision and [emax = 1024]), and the pricing functions
    written over it, for the properties that rounding decides. *)
Module Binary64.

Definition prec : Z := 53.
Definition emax : Z := 1024.

Definition double : Type := spec_float.

Definition add (x y : double) : double := SFadd prec emax x y.
Definition sub (x y : double) : double := SFsub prec emax x y.
Definition mul (x y : double) : double := SFmul prec emax x y.
Definition div (x y : double) : double := SFdiv prec emax x y.

(** [x < y], [x <= y], [x > y], [x >= y], [x === y]: all false on
    [NaN]; the two zeros are equal. *)
Definition ltb (x y : double) : bool := SFltb x y.
Definition leb (x y : double) : bool := SFleb x y.
Definition gtb (x y : double) : bool := SFltb y x.
Definition geb (x y : double) : bool := SFleb y x.
Definition eqb (x y : double) : bool := SFeqb x y.

Declare Scope b64_scope.
Delimit Scope b64_scope with b64.
Bind Scope b64_scope with double.
Notation "x + y" := (add x y) : b64_scope.
Notation "x - y" := (sub x y) : b64_scope.
Notation "x * y" := (mul x y) : b64_scope.
Notation "x / y" := (div x y) : b64_scope.
Notation "x <? y" := (ltb x y) : b64_scope.
Notation "x <=? y" := (leb x y) : b64_scope.
Notation "x >? y" := (gtb x y) : b64_scope.
Notation "x >=? y" := (geb x y) : b64_scope.
Notation "x === y" := (eqb x y) : b64_scope.

(** The double nearest to the ratio [n / d] of two positive integers,
    with the sign [s]: the division of [SFdiv] on integer mantissas. *)
Definition round_ratio (s : bool) (n d : positive) : double :=
  let '(mz, ez, lz) := SFdiv_core_binary prec emax (Zpos n) 0 (Zpos d) 0 in
  binary_round_aux prec emax s mz ez lz.

(** A decimal literal of the source, or a figure read from the data:
    the double nearest to the rational it writes. *)
Definition lit (q : Q) : double :=
  match Qnum q with
  | Z0 => S754_zero false
  | Zpos n => round_ratio false n (Qden q)
  | Zneg n => round_ratio true n (Qden q)
  end.

(** A figure of the snapshot, of the assumptions or of the weights, as
    the program holds it: the double nearest to it. *)
Definition of_number (x : number) : double :=
  match x with
  | Fin q => lit (this q)
  | PInf => S754_infinity false
  | NInf => S754_infinity true
  | NaN => S754_nan
  end.

(** The rational a finite double stands for. *)
Definition to_Q (x : double) : option Q :=
  match x with
  | S754_zero _ => Some 0%Q
  | S754_finite s m e => Some (inject_Z (cond_Zopp s (Zpos m)) * Qpower 2 e)%Q
  | S754_infinity _ | S754_nan => None
  end.

(** [x] is finite and within the relative tolerance [tol] of [ref]. *)
Definition within (tol : Q) (x : double) (ref : Q) : Prop :=
  match to_Q x with
  | Some q => (Qabs (q - ref) <= tol * Qabs ref)%Q
  | None => False
  end.

(** [Math.max] of two arguments: [NaN] if either is, [+0] above [-0]. *)
Definition max2 (x y : double) : double :=
  match SFcompare x y with
  | None => S754_nan
  | Some Lt => y
  | Some Gt => x
  | Some Eq =>
      match x, y with
      | S754_zero true, S754_zero false => y
      | _, _ => x
      end
  end.

Definition Math_max (l : list double) : double :=
  fold_left max2 l (S754_infinity true).

Definition Math_sqrt (x : double) : double := SFsqrt prec emax x.

(** [Math.pow(x, n)] for the integer exponents 1 to 5 of [calcDCF].
    The language leaves the precision of [Math.pow] to the host; it is
    taken here as correctly rounded: the exact power, rounded once. *)
Definition Math_pow (x : double) (n : nat) : double :=
  match n with
  | O => lit 1
  | S _ =>
      match x with
      | S754_nan => S754_nan
      | S754_infinity s => S754_infinity (s && Nat.odd n)
      | S754_zero s => S754_zero (s && Nat.odd n)
      | S754_finite s m e =>
          binary_round prec emax (s && Nat.odd n)
            (Pos.pow m (Pos.of_nat n)) (e * Z.of_nat n)
      end
  end.

(** [calculateWacc] (source lines 180-194). *)
Definition calculateWacc (data : FinancialData.t) (a : ValuationAssumptions)
    : double * double :=
  let debt := of_number (FinancialData.debt data) in
  let interestExpenses := of_number (FinancialData.interestExpenses data) in
  let ke :=
    (of_number (riskFreeRate a)
     + of_number (beta a) * of_number (equityRiskPremium a))%b64 in
  let rawKd :=
    if (debt >? lit 0)%b64 && (interestExpenses >? lit 0)%b64
    then
      let implied := (interestExpenses / debt)%b64 in
      if (implied >=? lit 0.01)%b64 && (implied <=? lit 0.60)%b64 then implied
      else of_number (costOfDebt a)
    else of_number (costOfDebt a) in
  let kdNet := (rawKd * (lit 1 - lit 0.34))%b64 in
  let E :=
    (of_number (FinancialData.price data)
     * of_number (FinancialData.sharesOutstanding data))%b64 in
  let D := debt in
  let V := (E + D)%b64 in
  if (V === lit 0)%b64 then (ke, ke)
  else
    let wacc := ((ke * E / V) + (kdNet * D / V))%b64 in
    (wacc, ke).

(** One turn of the loop of [calcDCF]. *)
Definition dcf_step (wacc gRev : double) (st : double * double) (i : nat)
    : double * double :=
  let '(currentFCF, pvCF) := st in
  let currentFCF' := (currentFCF * (lit 1 + gRev))%b64 in
  (currentFCF', (pvCF + currentFCF' / Math_pow (lit 1 + wacc) i)%b64).

(** [calcDCF] (source lines 198-212). *)
Definition calcDCF (data : FinancialData.t) (wacc gPerp gRev : double) : double :=
  let baseFCF := of_number (FinancialData.freeCashFlow data) in
  let '(currentFCF, pvCF) :=
    fold_left (dcf_step wacc gRev) (seq 1 5) ((baseFCF * (lit 1 + gRev))%b64, lit 0) in
  let termFCF := (currentFCF * (lit 1 + gPerp))%b64 in
  let termVal := (termFCF / (wacc - gPerp))%b64 in
  let pvTerm := (termVal / Math_pow (lit 1 + wacc) 5)%b64 in
  let ev := (pvCF + pvTerm)%b64 in
  let eqVal :=
    (ev + of_number (FinancialData.cashAndEquivalents data)
     - of_number (FinancialData.debt data))%b64 in
  Math_max [lit 0; (eqVal / of_number (FinancialData.sharesOutstanding data))%b64].

(** [calcGordon] (source lines 214-218). *)
Definition calcGordon (data : FinancialData.t) (ke g : double) : double :=
  let d1 := (of_number (FinancialData.currentEPS data) * (lit 1 + g))%b64 in
  if (ke <=? g)%b64 then lit 0
  else (d1 / (ke - g))%b64.

(** [calcGraham] (source lines 220-225). *)
Definition calcGraham (data : FinancialData.t) : double :=
  let lpa := of_number (FinancialData.currentEPS data) in
  let shares := of_number (FinancialData.sharesOutstanding data) in
  let vpa :=
    if (shares >? lit 0)%b64
    then (of_number (FinancialData.equity data) / shares)%b64
    else lit 0 in
  if (lpa <=? lit 0)%b64 || (vpa <=? lit 0)%b64 then lit 0
  else Math_sqrt (lit 22.5 * lpa * vpa)%b64.

(** [calcEVA] (source lines 227-235). *)
Definition calcEVA (data : FinancialData.t) (wacc gRev : double) : double :=
  let investedCapital := of_number (FinancialData.investedCapital data) in
  let year1Ebit :=
    (of_number (FinancialData.ebit data) * (lit 1 + gRev) * (lit 1 + gRev))%b64 in
  let nopat := (year1Ebit * lit 0.66)%b64 in
  let capCharge := (investedCapital * wacc)%b64 in
  let eva := (nopat - capCharge)%b64 in
  let mva := (eva / wacc)%b64 in
  let eqVal :=
    (investedCapital + mva - of_number (FinancialData.debt data)
     + of_number (FinancialData.cashAndEquivalents data))%b64 in
  Math_max [lit 0; (eqVal / of_number (FinancialData.sharesOutstanding data))%b64].

(** [calcMultiples] (source lines 237-242). *)
Definition calcMultiples (data : FinancialData.t) : double :=
  let shares := of_number (FinancialData.sharesOutstanding data) in
  let byPE :=
    ((of_number (FinancialData.netIncome data)
      * of_number (FinancialData.sectorPE data)) / shares)%b64 in
  let impliedEV :=
    (of_number (FinancialData.ebit data)
     * of_number (FinancialData.sectorEVEBITDA data))%b64 in
  let byEBITDA :=
    ((impliedEV - of_number (FinancialData.debt data)
      + of_number (FinancialData.cashAndEquivalents data)) / shares)%b64 in
  ((byPE + byEBITDA) / lit 2)%b64.

(** The figures of [performValuation] that the weights decide (source
    lines 247-259 and the [weight] fields of lines 262-266): the five
    fair values, the normalized weights and the weighted fair value. *)
Record Valuation : Type := {
  calculatedWacc : double;
  fairValues : list double;
  weights : list double;
  weightedFairValue : double
}.

Definition performValuation (data : FinancialData.t) (assumptions : ValuationAssumptions)
    (customWeights : option ValuationWeights) : Valuation :=
  let '(wacc, ke) := calculateWacc data assumptions in
  let gPerp := of_number (perpetualGrowth assumptions) in
  let gRev := of_number (projectedRevenueGrowth assumptions) in
  let dcf := calcDCF data wacc gPerp gRev in
  let gordon := calcGordon data ke gPerp in
  let graham := calcGraham data in
  let eva := calcEVA data wacc gRev in
  let multiples := calcMultiples data in
  let w := nullish customWeights DEFAULT_WEIGHTS.MATURE in
  let wDCF := of_number (DCF w) in
  let wGORDON := of_number (GORDON w) in
  let wEVA := of_number (EVA w) in
  let wMULTIPLES := of_number (MULTIPLES w) in
  let wGRAHAM := of_number (GRAHAM w) in
  let totalW := (wDCF + wGORDON + wEVA + wMULTIPLES + wGRAHAM)%b64 in
  let weighted :=
    ((dcf * wDCF + gordon * wGORDON + eva * wEVA + multiples * wMULTIPLES
      + graham * wGRAHAM) / totalW)%b64 in
  {| calculatedWacc := wacc;
     fairValues := [dcf; gordon; eva; multiples; graham];
     weights := [(wDCF / totalW)%b64; (wGORDON / totalW)%b64; (wEVA / totalW)%b64;
                 (wMULTIPLES / totalW)%b64; (wGRAHAM / totalW)%b64];
     weightedFairValue := weighted |}.

End Binary64.

(* ================================================================== *)
(** * Properties *)
(* ================================================================== *)

(** ** Arithmetic on finite numbers *)

Lemma nmul_Fin (a b : Qc) : (Fin a * Fin b)%js = Fin (a * b).
Proof. reflexivity. Qed.

Lemma nadd_Fin (a b : Qc) : (Fin a + Fin b)%js = Fin (a + b).
Proof. reflexivity. Qed.

Lemma nsub_Fin (a b : Qc) : (Fin a - Fin b)%js = Fin (a - b).
Proof. reflexivity. Qed.

Lemma Math_pow_Fin (a : Qc) (n : nat) : Math_pow (Fin a) n = Fin (a ^ n).
Proof. reflexivity. Qed.

Lemma sgn_Gt (q : Qc) : sgn q = Gt <-> (Q2Qc 0 < q)%Qc.
Proof. unfold sgn. rewrite <- Qcgt_alt. reflexivity. Qed.

Lemma sgn_Lt (q : Qc) : sgn q = Lt <-> (q < Q2Qc 0)%Qc.
Proof. unfold sgn. rewrite <- Qclt_alt. reflexivity. Qed.

Lemma sgn_Eq (q : Qc) : sgn q = Eq <-> q = Q2Qc 0.
Proof. unfold sgn. rewrite <- Qceq_alt. reflexivity. Qed.

Lemma pos_neq_0 (c : Qc) : (Q2Qc 0 < c)%Qc -> c <> Q2Qc 0.
Proof. intros H E. subst c. now apply Qclt_not_eq in H. Qed.

Lemma ndiv_Fin (a b : Qc) : b <> Q2Qc 0 -> (Fin a / Fin b)%js = Fin (a / b).
Proof.
  intros Hb. unfold ndiv. destruct (sgn b) eqn:E; try reflexivity.
  apply sgn_Eq in E. contradiction.
Qed.

Lemma Qcpower_neq_0 (q : Qc) (n : nat) : q <> Q2Qc 0 -> (q ^ n)%Qc <> Q2Qc 0.
Proof.
  intros Hq. induction n as [| n IH]; simpl.
  - discriminate.
  - intros E. apply Qcmult_integral in E. tauto.
Qed.

Lemma Math_max_zero_Fin (x : Qc) : Math_max [zero; Fin x] = Fin (Qcmax (Q2Qc 0) x).
Proof.
  unfold Math_max, zero, dec, Qcmax. simpl. unfold max2 at 1. simpl.
  destruct (Q2Qc 0 ?= x)%Qc; reflexivity.
Qed.

Lemma nadd_zero_r (x : number) : (x + zero)%js = x.
Proof.
  destruct x; try reflexivity.
  unfold zero, dec. simpl. f_equal. apply Qcplus_0_r.
Qed.

Lemma nmul_zero_Fin (q : Qc) : (zero * Fin q)%js = zero.
Proof. unfold zero, dec. simpl. f_equal. apply Qcmult_0_l. Qed.

(** The step of index 0 leaves the base value as it is. *)
Lemma zero_step (x : number) : (x + dec 0 * dec 0.005)%js = x.
Proof. fold zero. unfold dec at 1. rewrite nmul_zero_Fin. apply nadd_zero_r. Qed.

(** ** Equality by value *)

Lemma same_value_eq (x y : number) : same_value x y = true -> x = y.
Proof.
  destruct x, y; simpl; try discriminate; try reflexivity.
  intros H. f_equal. apply Qc_is_canon. now apply Qeq_bool_iff.
Qed.

Lemma same_values_eq (l l' : list number) : same_values l l' = true -> l = l'.
Proof.
  unfold same_values. revert l'.
  induction l as [| x l IH]; intros [| y l']; simpl; try discriminate; auto.
  intros H. apply andb_prop in H as [Hlen H]. apply andb_prop in H as [Hxy Hl].
  f_equal; [now apply same_value_eq | apply IH; now rewrite Hlen, Hl].
Qed.

Lemma Qc_neq_by_value (a b : Qc) : Qeq_bool (this a) (this b) = false -> a <> b.
Proof.
  intros H E. subst b. rewrite (proj2 (Qeq_bool_iff _ _) (Qeq_refl _)) in H.
  discriminate H.
Qed.

Lemma truthy_spec (x : number) : truthy x = true <-> x <> zero /\ x <> NaN.
Proof.
  destruct x as [q | | |]; simpl.
  - split.
    + intros H. split; [| discriminate]. intros E. injection E as E.
      assert (Es : sgn q = Eq) by now apply sgn_Eq.
      rewrite Es in H. discriminate H.
    + intros [H _]. destruct (sgn q) eqn:Es; try reflexivity.
      exfalso. apply H. unfold zero, dec. f_equal. now apply sgn_Eq.
  - split; [intros _; split; discriminate | reflexivity].
  - split; [intros _; split; discriminate | reflexivity].
  - split; [discriminate | intros [_ H]; congruence].
Qed.

(** ** Multiplying by a positive constant *)

Lemma sgn_mul_pos_r (a c : Qc) : (Q2Qc 0 < c)%Qc -> sgn (a * c) = sgn a.
Proof.
  intros Hc.
  destruct (Qc_dec a (Q2Qc 0)) as [[Hlt | Hgt] | Heq].
  - assert (H : (a * c < Q2Qc 0)%Qc).
    { apply (Qcmult_lt_compat_r _ _ _ Hc) in Hlt. now rewrite Qcmult_0_l in Hlt. }
    apply sgn_Lt in H. apply sgn_Lt in Hlt. congruence.
  - assert (H : (Q2Qc 0 < a * c)%Qc).
    { apply (Qcmult_lt_compat_r _ _ _ Hc) in Hgt. now rewrite Qcmult_0_l in Hgt. }
    apply sgn_Gt in H. apply sgn_Gt in Hgt. congruence.
  - subst a. rewrite Qcmult_0_l. reflexivity.
Qed.

Lemma nmul_scale (v : number) (w c : Qc) :
  (Q2Qc 0 < c)%Qc -> (v * Fin (w * c))%js = (v * Fin w * Fin c)%js.
Proof.
  intros Hc. pose proof (proj2 (sgn_Gt c) Hc) as Hs.
  destruct v as [q | | | ]; simpl.
  - f_equal. ring.
  - rewrite (sgn_mul_pos_r _ _ Hc). destruct (sgn w); simpl; rewrite ?Hs; reflexivity.
  - rewrite (sgn_mul_pos_r _ _ Hc). destruct (sgn w); simpl; rewrite ?Hs; reflexivity.
  - reflexivity.
Qed.

Lemma nadd_scale (x y : number) (c : Qc) :
  (Q2Qc 0 < c)%Qc -> (x * Fin c + y * Fin c)%js = ((x + y) * Fin c)%js.
Proof.
  intros Hc. pose proof (proj2 (sgn_Gt c) Hc) as Hs.
  destruct x, y; simpl; rewrite ?Hs; simpl; try reflexivity.
  f_equal. ring.
Qed.

Lemma ndiv_scale (n : number) (W c : Qc) :
  (Q2Qc 0 < c)%Qc -> (Q2Qc 0 < W)%Qc ->
  (n * Fin c / Fin (W * c))%js = (n / Fin W)%js.
Proof.
  intros Hc HW. pose proof (proj2 (sgn_Gt c) Hc) as Hs.
  pose proof (proj2 (sgn_Gt W) HW) as HsW.
  assert (HsWc : sgn (W * c) = Gt) by (rewrite sgn_mul_pos_r; assumption).
  destruct n; simpl; rewrite ?Hs; simpl; rewrite ?HsWc, ?HsW; try reflexivity.
  f_equal. field. split; apply pos_neq_0; assumption.
Qed.

Lemma total_weight_scale (d g e m gr c : Qc) :
  (Fin (d * c) + Fin (g * c) + Fin (e * c) + Fin (m * c) + Fin (gr * c))%js
  = Fin ((d + g + e + m + gr) * c).
Proof. rewrite !nadd_Fin. f_equal. ring. Qed.

Lemma weighted_sum_scale (v1 v2 v3 v4 v5 : number) (d g e m gr c : Qc) :
  (Q2Qc 0 < c)%Qc ->
  (v1 * Fin (d * c) + v2 * Fin (g * c) + v3 * Fin (e * c) + v4 * Fin (m * c)
   + v5 * Fin (gr * c))%js
  = ((v1 * Fin d + v2 * Fin g + v3 * Fin e + v4 * Fin m + v5 * Fin gr) * Fin c)%js.
Proof.
  intros Hc. rewrite !(nmul_scale _ _ _ Hc), !(nadd_scale _ _ _ Hc). reflexivity.
Qed.

(** ** The order on numbers *)

Lemma nle_Fin (a b : Qc) : nle (Fin a) (Fin b) <-> (a <= b)%Qc.
Proof.
  unfold nle, nleb, ncompare. rewrite Qcle_alt.
  destruct (a ?= b)%Qc; split; congruence.
Qed.

Lemma nlt_Fin (a b : Qc) : nlt (Fin a) (Fin b) <-> (a < b)%Qc.
Proof.
  unfold nlt, nltb, ncompare. rewrite Qclt_alt.
  destruct (a ?= b)%Qc; split; congruence.
Qed.

Lemma nle_refl (x : number) : x <> NaN -> nle x x.
Proof.
  destruct x; intros H; try reflexivity; [| congruence].
  apply nle_Fin, Qcle_refl.
Qed.

Lemma nle_trans (x y z : number) : nle x y -> nle y z -> nle x z.
Proof.
  destruct x, y, z; try reflexivity; try discriminate.
  rewrite !nle_Fin. apply Qcle_trans.
Qed.

Lemma nle_PInf_l (x : number) : nle PInf x -> x = PInf.
Proof. destruct x; try discriminate; reflexivity. Qed.

Lemma nle_NInf_r (x : number) : nle x NInf -> x = NInf.
Proof. destruct x; try discriminate; reflexivity. Qed.

Lemma ncompare_Some (x y : number) :
  x <> NaN -> y <> NaN -> exists c, ncompare x y = Some c.
Proof. destruct x, y; intros; try congruence; eexists; reflexivity. Qed.

Lemma ncompare_Lt_nle (x y : number) : ncompare x y = Some Lt -> nle x y.
Proof. unfold nle, nleb. now intros ->. Qed.

Lemma ncompare_Eq_eq (x y : number) : ncompare x y = Some Eq -> x = y.
Proof.
  destruct x, y; try discriminate; try reflexivity.
  simpl. intros H. injection H as H. apply Qceq_alt in H. now subst.
Qed.

Lemma ncompare_Gt_nle (x y : number) : ncompare x y = Some Gt -> nle y x.
Proof.
  destruct x, y; try discriminate; try reflexivity.
  simpl. intros H. injection H as H.
  apply nle_Fin, Qclt_le_weak, Qcgt_alt. exact H.
Qed.

Lemma positive_not_NaN (x : number) : (x >? zero)%js = true -> x <> NaN.
Proof. intros H E. subst x. discriminate. Qed.

Lemma nle_zero_not_positive (x : number) : nle x zero -> (x >? zero)%js = false.
Proof.
  destruct x as [q | | |]; try discriminate; try reflexivity.
  unfold zero, dec. rewrite nle_Fin. intros Hle.
  unfold ngtb, nltb, ncompare.
  destruct (Q2Qc 0 ?= q)%Qc eqn:E; try reflexivity.
  apply Qclt_alt in E. now apply Qcle_not_lt in Hle.
Qed.

Lemma Q2Qc_lt (a b : Q) : (a < b)%Q -> (Q2Qc a < Q2Qc b)%Qc.
Proof. intros H. unfold Qclt. simpl. now rewrite !Qred_correct. Qed.

Lemma Qcplus_lt_l (q a b : Qc) : (a < b)%Qc -> (q + a < q + b)%Qc.
Proof.
  intros H. apply (proj2 (Qclt_minus_iff _ _)).
  replace (q + b + - (q + a))%Qc with (b + - a)%Qc by ring.
  apply (proj1 (Qclt_minus_iff _ _)). exact H.
Qed.

(** A later step index gives a larger coordinate. *)
Lemma step_of_lt (q : Qc) (r r' : nat) :
  (r < r')%nat ->
  nlt (Fin q + step_of r * dec 0.005)%js (Fin q + step_of r' * dec 0.005)%js.
Proof.
  intros Hr. unfold step_of, dec.
  change (nlt (Fin (q + Q2Qc (inject_Z (Z.of_nat r - 2)) * Q2Qc 0.005))
              (Fin (q + Q2Qc (inject_Z (Z.of_nat r' - 2)) * Q2Qc 0.005))).
  apply nlt_Fin, Qcplus_lt_l, Qcmult_lt_compat_r; [reflexivity |].
  apply Q2Qc_lt. unfold Qlt, inject_Z, Qnum, Qden. lia.
Qed.

(** ** [Math.min] and [Math.max] over a list without [NaN] *)

Lemma min2_spec (x y : number) :
  x <> NaN -> y <> NaN ->
  (min2 x y = x \/ min2 x y = y) /\ nle (min2 x y) x /\ nle (min2 x y) y.
Proof.
  intros Hx Hy. unfold min2.
  destruct (ncompare_Some x y Hx Hy) as [c Hc]. rewrite Hc.
  destruct c.
  - apply ncompare_Eq_eq in Hc. subst y. auto using nle_refl.
  - auto using nle_refl, ncompare_Lt_nle.
  - auto using nle_refl, ncompare_Gt_nle.
Qed.

Lemma max2_spec (x y : number) :
  x <> NaN -> y <> NaN ->
  (max2 x y = x \/ max2 x y = y) /\ nle x (max2 x y) /\ nle y (max2 x y).
Proof.
  intros Hx Hy. unfold max2.
  destruct (ncompare_Some x y Hx Hy) as [c Hc]. rewrite Hc.
  destruct c.
  - apply ncompare_Eq_eq in Hc. subst y. auto using nle_refl.
  - auto using nle_refl, ncompare_Lt_nle.
  - auto using nle_refl, ncompare_Gt_nle.
Qed.

Lemma fold_min2_spec (l : list number) :
  forall acc, acc <> NaN -> Forall (fun x => x <> NaN) l ->
  let r := fold_left min2 l acc in
  (r = acc \/ In r l) /\ nle r acc /\ (forall x, In x l -> nle r x).
Proof.
  induction l as [| y l IH]; intros acc Hacc Hl; simpl.
  - split; [now left | split; [now apply nle_refl | intros x []]].
  - inversion Hl as [| ? ? Hy Hl']; subst.
    destruct (min2_spec acc y Hacc Hy) as (Hsel & Hle1 & Hle2).
    assert (Hm : min2 acc y <> NaN) by (destruct Hsel as [-> | ->]; assumption).
    destruct (IH (min2 acc y) Hm Hl') as (Hin & Hle & Hall).
    split; [| split].
    + destruct Hin as [-> | Hin]; [destruct Hsel as [-> | ->] |]; auto.
    + eapply nle_trans; eassumption.
    + intros x [<- | Hx]; [eapply nle_trans; eassumption | now apply Hall].
Qed.

Lemma fold_max2_spec (l : list number) :
  forall acc, acc <> NaN -> Forall (fun x => x <> NaN) l ->
  let r := fold_left max2 l acc in
  (r = acc \/ In r l) /\ nle acc r /\ (forall x, In x l -> nle x r).
Proof.
  induction l as [| y l IH]; intros acc Hacc Hl; simpl.
  - split; [now left | split; [now apply nle_refl | intros x []]].
  - inversion Hl as [| ? ? Hy Hl']; subst.
    destruct (max2_spec acc y Hacc Hy) as (Hsel & Hle1 & Hle2).
    assert (Hm : max2 acc y <> NaN) by (destruct Hsel as [-> | ->]; assumption).
    destruct (IH (max2 acc y) Hm Hl') as (Hin & Hle & Hall).
    split; [| split].
    + destruct Hin as [-> | Hin]; [destruct Hsel as [-> | ->] |]; auto.
    + eapply nle_trans; eassumption.
    + intros x [<- | Hx]; [eapply nle_trans; eassumption | now apply Hall].
Qed.

Lemma Math_min_is_minimum (l : list number) :
  Forall (fun x => x <> NaN) l -> l <> [] -> is_minimum (Math_min l) l.
Proof.
  intros Hl Hne. unfold Math_min.
  destruct (fold_min2_spec l PInf ltac:(discriminate) Hl) as (Hin & _ & Hall).
  split; [| exact Hall].
  destruct Hin as [E | Hin]; [| exact Hin].
  destruct l as [| y l]; [congruence |].
  assert (Hy : y = PInf).
  { apply nle_PInf_l. rewrite <- E. apply Hall. now left. }
  rewrite E, <- Hy. now left.
Qed.

Lemma Math_max_is_maximum (l : list number) :
  Forall (fun x => x <> NaN) l -> l <> [] -> is_maximum (Math_max l) l.
Proof.
  intros Hl Hne. unfold Math_max.
  destruct (fold_max2_spec l NInf ltac:(discriminate) Hl) as (Hin & _ & Hall).
  split; [| exact Hall].
  destruct Hin as [E | Hin]; [| exact Hin].
  destruct l as [| y l]; [congruence |].
  assert (Hy : y = NInf).
  { apply nle_NInf_r. rewrite <- E. apply Hall. now left. }
  rewrite E, <- Hy. now left.
Qed.

Lemma positive_values_not_NaN (l : list number) :
  Forall (fun x => x <> NaN) (filter (fun x => (x >? zero)%js) l).
Proof.
  apply Forall_forall. intros x Hx. apply filter_In in Hx.
  apply positive_not_NaN, Hx.
Qed.

(** ** The shape of a valuation *)

Lemma performValuation_fair_values (data : FinancialData.t) (a : ValuationAssumptions)
    (w : option ValuationWeights) :
  fair_values (performValuation data a w)
  = [ calcDCF data (fst (calculateWacc data a)) (perpetualGrowth a)
        (projectedRevenueGrowth a);
      calcGordon data (snd (calculateWacc data a)) (perpetualGrowth a);
      calcEVA data (fst (calculateWacc data a)) (projectedRevenueGrowth a);
      calcMultiples data;
      calcGraham data ].
Proof.
  unfold fair_values, performValuation.
  destruct (calculateWacc data a) as [wacc ke]. reflexivity.
Qed.

Lemma performValuation_priceRange (data : FinancialData.t) (a : ValuationAssumptions)
    (w : option ValuationWeights) :
  ComprehensiveValuation.priceRange (performValuation data a w)
  = {| PriceRange.min := Math_min (positive_fair_values (performValuation data a w));
       PriceRange.max := Math_max (positive_fair_values (performValuation data a w)) |}.
Proof.
  unfold positive_fair_values, fair_values, performValuation.
  destruct (calculateWacc data a) as [wacc ke]. reflexivity.
Qed.

Lemma performValuation_matrix (data : FinancialData.t) (a : ValuationAssumptions)
    (w : option ValuationWeights) :
  ComprehensiveValuation.sensitivityMatrix (performValuation data a w)
  = sensitivity_matrix data (fst (calculateWacc data a)) (perpetualGrowth a)
      (projectedRevenueGrowth a).
Proof.
  unfold performValuation. destruct (calculateWacc data a) as [wacc ke]. reflexivity.
Qed.

(** Every cell of the grid, by its row and column. *)
Lemma sensitivity_matrix_cell (data : FinancialData.t) (wacc gPerp gRev : number)
    (r c : nat) :
  (r < 5)%nat -> (c < 5)%nat ->
  cell_at (sensitivity_matrix data wacc gPerp gRev) r c
  = Some {| SensitivityCell.wacc := (wacc + step_of r * dec 0.005)%js;
            SensitivityCell.growth := (gPerp + step_of c * dec 0.005)%js;
            SensitivityCell.fairValue :=
              calcDCF data (wacc + step_of r * dec 0.005)%js
                (gPerp + step_of c * dec 0.005)%js gRev |}.
Proof.
  intros Hr Hc.
  cbv [sensitivity_matrix sensitivity_steps fold_left app].
  do 5 (destruct r as [| r];
        [do 5 (destruct c as [| c]; [reflexivity |]); exfalso; lia |]).
  exfalso; lia.
Qed.

(* ================================================================== *)
(** ** Checks of the embedding on small inputs *)
(* ================================================================== *)

Example ticker_root_PETR4 : ticker_root "PETR4" = "PETR".
Proof. reflexivity. Qed.

Example ticker_root_unit : ticker_root "TAEE11F" = "TAEE".
Proof. reflexivity. Qed.

Example resolve_ticker_suffix : resolve_ticker " vale3.sa " = "VALE3".
Proof. reflexivity. Qed.

Example classifyPeriod_year : classifyPeriod "2024" = "yearly".
Proof. reflexivity. Qed.

Example classifyPeriod_quarter : classifyPeriod "3T2024" = "quarterly".
Proof. reflexivity. Qed.

Example normalizeType_annual : normalizeType (Some "Annual") (Some "3T2024") = "yearly".
Proof. reflexivity. Qed.

Example utc_host_round_trip :
  toLocaleDateString_ptBR utc_host (Date_parse utc_host "2024-12-31") = "31/12/2024".
Proof. reflexivity. Qed.

(** Graham with earnings per share -1 and book value per share 10. *)
Example graham_negative_eps :
  calcGraham (snapshot_of 10 100 0 0 0 0 (-100) 1000 (-1) 0) = zero.
Proof. reflexivity. Qed.

(** Gordon with Ke = 0.05 below g = 0.08. *)
Example gordon_growth_above_ke :
  calcGordon going_concern (dec 0.05) (dec 0.08) = zero.
Proof. reflexivity. Qed.

(** Equity 1000 against debt 200 at an implied cost of debt of 10 %:
    Ke = 0.20 and WACC = 0.2 * 1000 / 1200 + 0.066 * 200 / 1200. *)
Example wacc_going_concern :
  same_value (fst (calculateWacc going_concern BASE_assumptions)) (dec (533 # 3000))
  && same_value (snd (calculateWacc going_concern BASE_assumptions)) (dec 0.20)
  = true.
Proof. vm_compute. reflexivity. Qed.

(** The snapshot of the VALE3 rows: 1000 / 10 = 100 shares, free cash
    flow 900 - 400, interest expense in absolute value. *)
Example vale_snapshot :
  match getFinancialData utc_host clock_day1 (fun _ => Some vale_rows) "vale3.sa" with
  | inr fd =>
      same_values
        [FinancialData.sharesOutstanding fd; FinancialData.freeCashFlow fd;
         FinancialData.interestExpenses fd; FinancialData.debt fd;
         FinancialData.cashAndEquivalents fd; FinancialData.currentEPS fd]
        [dec 100; dec 500; dec 20; dec 200; dec 100; dec 6]
      && String.eqb (FundamentalData.lastBalanceDate (FinancialData.fundamentals fd))
           "31/12/2024"
  | inl _ => false
  end = true.
Proof. vm_compute. reflexivity. Qed.

(* ================================================================== *)
(** ** Discounted cash flow *)
(* ================================================================== *)

(** C1, at the worked example.  With free cash flow 1,000,000, revenue
    growth 0.05, perpetual growth 0.05, WACC 0.12, 100,000 shares, no
    cash and no debt, the program returns the double
    [5541538603991037 * 2^-45], printed 157.49999999999991, while the
    recurrence of the specification (year [i] compounded [i] times) gives
    150: the result is not within 1e-6 of the reference, it is 5 % above
    it.  Without rounding [calcDCF] gives 157.5. *)
Lemma dcf_worked_example_off_reference :
  let code :=
    Binary64.calcDCF dcf_example (Binary64.lit 0.12) (Binary64.lit 0.05)
      (Binary64.lit 0.05) in
  let reference :=
    DCF_reference (Q2Qc 1000000) (Q2Qc 0) (Q2Qc 0) (Q2Qc 100000)
      (Q2Qc 0.12) (Q2Qc 0.05) (Q2Qc 0.05) in
  code = S754_finite false 5541538603991037 (-45)
  /\ reference = Q2Qc 150
  /\ ~ Binary64.within 0.000001 code (this reference)
  /\ calcDCF dcf_example (dec 0.12) (dec 0.05) (dec 0.05) = dec 157.5.
Proof.
  cbv zeta. split; [| split; [| split]].
  - vm_compute. reflexivity.
  - apply Qc_is_canon. vm_compute. reflexivity.
  - vm_compute. intros H. apply H. reflexivity.
  - apply same_value_eq. vm_compute. reflexivity.
Qed.

(** C1, as the code computes it.  Without rounding, for finite inputs
    with WACC above perpetual growth (and [1 + WACC] and the share count
    not zero), [calcDCF] is the closed formula in which the flow of year
    [i] is the base free cash flow compounded [i + 1] times at the
    revenue-growth rate, for [i = 1..5], each discounted at WACC, plus
    the Gordon terminal value on the year-5 flow discounted 5 periods,
    plus cash less debt, per share, floored at 0.  At the worked example
    the program, in binary64, is within the relative tolerance 1e-6 of
    that formula, whose value there is 157.5. *)
Theorem calcDCF_closed_form :
  (forall (data : FinancialData.t) (fcf cash debt shares wacc gPerp gRev : Qc),
      FinancialData.freeCashFlow data = Fin fcf ->
      FinancialData.cashAndEquivalents data = Fin cash ->
      FinancialData.debt data = Fin debt ->
      FinancialData.sharesOutstanding data = Fin shares ->
      shares <> Q2Qc 0 ->
      (1 + wacc)%Qc <> Q2Qc 0 ->
      (gPerp < wacc)%Qc ->
      calcDCF data (Fin wacc) (Fin gPerp) (Fin gRev)
      = Fin (Qcmax (Q2Qc 0) (dcf_formula 1 fcf cash debt shares wacc gPerp gRev)))
  /\ Qcmax (Q2Qc 0)
       (dcf_formula 1 (Q2Qc 1000000) (Q2Qc 0) (Q2Qc 0) (Q2Qc 100000)
          (Q2Qc 0.12) (Q2Qc 0.05) (Q2Qc 0.05)) = Q2Qc 157.5
  /\ Binary64.within 0.000001
       (Binary64.calcDCF dcf_example (Binary64.lit 0.12) (Binary64.lit 0.05)
          (Binary64.lit 0.05))
       157.5.
Proof.
  split; [| split].
  - intros data fcf cash debt shares wacc gPerp gRev Hf Hc Hd Hs Hs0 Hw Hg.
    assert (Hwg : (wacc - gPerp)%Qc <> Q2Qc 0).
    { intros E. apply (proj1 (Qclt_minus_iff _ _)) in Hg.
      unfold Qcminus in E. rewrite E in Hg. now apply Qclt_not_eq in Hg. }
    assert (Hp : forall n, ((1 + wacc) ^ n)%Qc <> Q2Qc 0)
      by (intros; now apply Qcpower_neq_0).
    unfold calcDCF. rewrite Hf, Hc, Hd, Hs.
    cbn [fold_left seq dcf_step]. unfold zero, dec.
    repeat (rewrite ?nmul_Fin, ?nadd_Fin, ?nsub_Fin, ?Math_pow_Fin;
            rewrite ?ndiv_Fin by auto).
    rewrite Math_max_zero_Fin. do 2 f_equal.
    unfold dcf_formula, discounted_fcf, projected_fcf.
    pose proof (Hp 1%nat); pose proof (Hp 2%nat); pose proof (Hp 3%nat);
      pose proof (Hp 4%nat); pose proof (Hp 5%nat).
    cbn [Qcpower Nat.add] in *.
    field. repeat split; auto.
  - apply Qc_is_canon. vm_compute. reflexivity.
  - vm_compute. discriminate.
Qed.

Lemma calcDCF_closed_form_witness :
  (Q2Qc 0.05 < Q2Qc 0.12)%Qc
  /\ calcDCF dcf_example (Fin (Q2Qc 0.12)) (Fin (Q2Qc 0.05)) (Fin (Q2Qc 0.05))
     = Fin (Qcmax (Q2Qc 0)
              (dcf_formula 1 (Q2Qc 1000000) (Q2Qc 0) (Q2Qc 0) (Q2Qc 100000)
                 (Q2Qc 0.12) (Q2Qc 0.05) (Q2Qc 0.05))).
Proof.
  split; [reflexivity |].
  apply (proj1 calcDCF_closed_form dcf_example);
    [ reflexivity | reflexivity | reflexivity | reflexivity
    | apply Qc_neq_by_value; reflexivity
    | apply Qc_neq_by_value; reflexivity
    | reflexivity ].
Defined.

(* ================================================================== *)
(** ** Sign of the fair values *)
(* ================================================================== *)

(** [Math.max(0, x)] is never negative. *)
Lemma floor_at_zero (x : number) :
  Math_max [zero; x] = NaN \/ nle zero (Math_max [zero; x]).
Proof.
  unfold Math_max. cbn [fold_left].
  change (max2 NInf zero) with zero.
  destruct x as [q | | |].
  - right. unfold max2. cbn [ncompare zero dec].
    destruct (Q2Qc 0 ?= q)%Qc eqn:E.
    + reflexivity.
    + apply nle_Fin. apply Qclt_le_weak. now apply Qclt_alt.
    + reflexivity.
  - right. reflexivity.
  - right. reflexivity.
  - left. reflexivity.
Qed.

(** The three pricing functions that floor or guard: their value is
    [NaN] or at least 0. *)
Lemma calcDCF_floor (data : FinancialData.t) (wacc gPerp gRev : number) :
  calcDCF data wacc gPerp gRev = NaN \/ nle zero (calcDCF data wacc gPerp gRev).
Proof.
  unfold calcDCF.
  destruct (fold_left _ _ _) as [currentFCF pvCF]. apply floor_at_zero.
Qed.

Lemma calcEVA_floor (data : FinancialData.t) (wacc gRev : number) :
  calcEVA data wacc gRev = NaN \/ nle zero (calcEVA data wacc gRev).
Proof. unfold calcEVA. apply floor_at_zero. Qed.

Lemma Qsqrt_nonneg (q : Q) : (0 <= Qsqrt q)%Q.
Proof.
  unfold Qsqrt, Qle. cbn [Qnum Qden].
  pose proof (Z.sqrt_nonneg (Qnum q * Z.pos (Qden q) * sqrt_scale * sqrt_scale)).
  lia.
Qed.

Lemma Math_sqrt_nonneg (x : number) : Math_sqrt x = NaN \/ nle zero (Math_sqrt x).
Proof.
  destruct x as [q | | |]; cbn [Math_sqrt]; auto.
  - assert (H : nle zero (Fin (Q2Qc (Qsqrt (this q))))).
    { unfold zero, dec. apply nle_Fin. unfold Qcle. cbn [this Q2Qc].
      rewrite !Qred_correct. apply Qsqrt_nonneg. }
    destruct (sgn q); auto.
  - right. reflexivity.
Qed.

Lemma calcGraham_floor (data : FinancialData.t) :
  calcGraham data = NaN \/ nle zero (calcGraham data).
Proof.
  unfold calcGraham.
  destruct (_ || _); [right; reflexivity | apply Math_sqrt_nonneg].
Qed.

(** C2, at a loss-making company (100 shares, net income -1000, earnings
    per share -10, equity 500) under the BASE assumptions and the default
    weights.  The five fair values are, in order DCF, Gordon, EVA,
    multiples, Graham: 0, -70, 0, -40, 0.  [calcGordon] and
    [calcMultiples] return negative values where [calcDCF] and [calcEVA]
    floor at 0. *)
Theorem loss_maker_fair_values :
  fair_values (performValuation loss_maker BASE_assumptions None)
  = [zero; dec (-70); zero; dec (-40); zero].
Proof. apply same_values_eq. vm_compute. reflexivity. Qed.

(* ================================================================== *)
(** ** The sensitivity matrix *)
(* ================================================================== *)

(** C3.  The sensitivity matrix has 5 rows of 5 cells; the cell of row
    [r] and column [c] carries the WACC [base + (r - 2) * 0.005], the
    growth [gPerp + (c - 2) * 0.005] and the DCF fair value at these two
    with the revenue growth unchanged; the centre cell (2, 2) carries the
    base WACC and growth and its fair value is the fair value of the DCF
    result; for a finite base, the WACC grows along the rows and the
    growth along the columns. *)
Theorem sensitivity_grid (data : FinancialData.t) (a : ValuationAssumptions)
    (w : option ValuationWeights) :
  let v := performValuation data a w in
  let base := fst (calculateWacc data a) in
  let gPerp := perpetualGrowth a in
  let gRev := projectedRevenueGrowth a in
  let m := ComprehensiveValuation.sensitivityMatrix v in
  (List.length m = 5%nat /\ Forall (fun row => List.length row = 5%nat) m)
  /\ (forall r c, (r < 5)%nat -> (c < 5)%nat ->
      exists cell, cell_at m r c = Some cell
        /\ SensitivityCell.wacc cell = (base + step_of r * dec 0.005)%js
        /\ SensitivityCell.growth cell = (gPerp + step_of c * dec 0.005)%js
        /\ SensitivityCell.fairValue cell
           = calcDCF data (SensitivityCell.wacc cell) (SensitivityCell.growth cell) gRev)
  /\ (exists center dcf_result,
        cell_at m 2 2 = Some center
        /\ nth_error (ComprehensiveValuation.results v) 0 = Some dcf_result
        /\ ValuationResult.method dcf_result = ValuationMethodType.DCF
        /\ SensitivityCell.wacc center = base
        /\ SensitivityCell.growth center = gPerp
        /\ SensitivityCell.fairValue center = calcDCF data base gPerp gRev
        /\ SensitivityCell.fairValue center = ValuationResult.fairValue dcf_result)
  /\ (forall q r r' c x y,
        base = Fin q -> (r < r')%nat -> (r' < 5)%nat -> (c < 5)%nat ->
        cell_at m r c = Some x -> cell_at m r' c = Some y ->
        nlt (SensitivityCell.wacc x) (SensitivityCell.wacc y))
  /\ (forall q r c c' x y,
        gPerp = Fin q -> (c < c')%nat -> (c' < 5)%nat -> (r < 5)%nat ->
        cell_at m r c = Some x -> cell_at m r c' = Some y ->
        nlt (SensitivityCell.growth x) (SensitivityCell.growth y)).
Proof.
  intros v base gPerp gRev m. subst v base gPerp gRev m.
  unfold performValuation. destruct (calculateWacc data a) as [wacc ke].
  cbn [ComprehensiveValuation.sensitivityMatrix ComprehensiveValuation.results fst].
  split; [| split; [| split; [| split]]].
  - split; [reflexivity | repeat constructor].
  - intros r c Hr Hc. rewrite sensitivity_matrix_cell by assumption.
    eexists. repeat split; reflexivity.
  - rewrite sensitivity_matrix_cell by lia.
    do 2 eexists. repeat split;
      cbn [SensitivityCell.wacc SensitivityCell.growth SensitivityCell.fairValue
           ValuationResult.fairValue];
      change (step_of 2) with (dec 0); rewrite ?zero_step; reflexivity.
  - intros q r r' c x y Hq Hlt Hr' Hc Hx Hy.
    rewrite sensitivity_matrix_cell in Hx, Hy by lia.
    injection Hx as <-. injection Hy as <-. cbn [SensitivityCell.wacc].
    rewrite Hq. now apply step_of_lt.
  - intros q r c c' x y Hq Hlt Hc' Hr Hx Hy.
    rewrite sensitivity_matrix_cell in Hx, Hy by lia.
    injection Hx as <-. injection Hy as <-. cbn [SensitivityCell.growth].
    rewrite Hq. now apply step_of_lt.
Qed.

(* ================================================================== *)
(** ** Weights *)
(* ================================================================== *)

(** C4, in binary64, at a profitable company under the BASE
    assumptions.  With the MATURE weights (0.40, 0.10, 0.15, 0.15, 0.20)
    the program's weighted fair value is the double printed
    201.13303595434257; with the weights 40, 10, 15, 15, 20 it is the
    next double below, 201.13303595434255.  With the weights 1.2, 0.3,
    0.45, 0.45, 0.6 the normalized weights differ from those of MATURE
    (the first is 0.39999999999999997).  With the weights multiplied by
    [2^-1074] every weight rounds to 0 and the weighted fair value is
    [NaN]. *)
Lemma weight_scaling_rounds :
  let run w := Binary64.performValuation going_concern BASE_assumptions (Some w) in
  let v := run DEFAULT_WEIGHTS.MATURE in
  let scaled c := run (scale_weights c DEFAULT_WEIGHTS.MATURE) in
  Binary64.weightedFairValue v = S754_finite false 7076739576374014 (-45)
  /\ Binary64.weightedFairValue (scaled (dec 100))
     = S754_finite false 7076739576374013 (-45)
  /\ Binary64.weightedFairValue (scaled (dec 100)) <> Binary64.weightedFairValue v
  /\ nth_error (Binary64.weights v) 0 = Some (Binary64.lit 0.4)
  /\ nth_error (Binary64.weights (scaled (dec 3))) 0
     = Some (S754_finite false 7205759403792793 (-54))
  /\ Binary64.weights (scaled (dec 3)) <> Binary64.weights v
  /\ Binary64.weightedFairValue (scaled smallest_double) = S754_nan.
Proof.
  cbv zeta.
  repeat split; vm_compute; (reflexivity || (intros H; discriminate H)).
Qed.

(** C4, without rounding.  For finite weights of positive sum and a
    positive constant [c], the formulas of [performValuation] give the
    valuation run with every weight multiplied by [c] the same weighted
    fair value and the same normalized weights as the run with the
    weights as they are. *)
Theorem weight_scaling (data : FinancialData.t) (a : ValuationAssumptions)
    (d g e m gr c : Qc) :
  (Q2Qc 0 < c)%Qc ->
  (Q2Qc 0 < d + g + e + m + gr)%Qc ->
  let w := weights_of d g e m gr in
  let v := performValuation data a (Some w) in
  let v' := performValuation data a (Some (scale_weights (Fin c) w)) in
  ComprehensiveValuation.weightedFairValue v' = ComprehensiveValuation.weightedFairValue v
  /\ map ValuationResult.weight (ComprehensiveValuation.results v')
     = map ValuationResult.weight (ComprehensiveValuation.results v).
Proof.
  intros Hc HW w v v'. subst w v v'.
  unfold performValuation. destruct (calculateWacc data a) as [wacc ke].
  cbn [ComprehensiveValuation.weightedFairValue ComprehensiveValuation.results
       nullish scale_weights weights_of DCF GORDON EVA MULTIPLES GRAHAM
       map ValuationResult.weight].
  rewrite !nmul_Fin, total_weight_scale, (weighted_sum_scale _ _ _ _ _ _ _ _ _ _ _ Hc).
  rewrite !nadd_Fin.
  split.
  - apply ndiv_scale; assumption.
  - rewrite <- !nmul_Fin, !(ndiv_scale _ _ _ Hc HW). reflexivity.
Qed.

Lemma weight_scaling_witness :
  (Q2Qc 0 < Q2Qc 100)%Qc
  /\ (Q2Qc 0 < Q2Qc 0.40 + Q2Qc 0.10 + Q2Qc 0.15 + Q2Qc 0.15 + Q2Qc 0.20)%Qc
  /\ ComprehensiveValuation.weightedFairValue
       (performValuation going_concern BASE_assumptions
          (Some (scale_weights (Fin (Q2Qc 100))
                   (weights_of (Q2Qc 0.40) (Q2Qc 0.10) (Q2Qc 0.15) (Q2Qc 0.15)
                      (Q2Qc 0.20)))))
     = ComprehensiveValuation.weightedFairValue
         (performValuation going_concern BASE_assumptions
            (Some (weights_of (Q2Qc 0.40) (Q2Qc 0.10) (Q2Qc 0.15) (Q2Qc 0.15)
                     (Q2Qc 0.20)))).
Proof.
  split; [reflexivity | split; [reflexivity |]].
  apply (weight_scaling going_concern BASE_assumptions
           (Q2Qc 0.40) (Q2Qc 0.10) (Q2Qc 0.15) (Q2Qc 0.15) (Q2Qc 0.20) (Q2Qc 100));
    reflexivity.
Defined.

(* ================================================================== *)
(** ** Ticker matching *)
(* ================================================================== *)

(** Statement rows keyed [vale3.sa] are all kept by a lookup for
    [VALE3]: no symbol equals the ticker, every symbol starts with the
    root [VALE]. *)
Lemma filterByTicker_suffix_variant {T : Type} `{HasSymbol T} (rows : list T) :
  Forall (fun d => symbol d = "vale3.sa") rows ->
  filterByTicker rows "VALE3" = rows.
Proof.
  intros Hall. unfold filterByTicker.
  assert (Hexact : String.eqb (toUpperCase "vale3.sa") (toUpperCase "VALE3") = false)
    by reflexivity.
  assert (Hroot : startsWith (toUpperCase "vale3.sa")
                    (ticker_root (toUpperCase "VALE3")) = true)
    by reflexivity.
  assert (E2 : filter (fun d => startsWith (toUpperCase (symbol d))
                                  (ticker_root (toUpperCase "VALE3"))) rows = rows).
  { induction Hall as [| d l Hd Hl IH]; [reflexivity |].
    cbn [filter]. rewrite Hd, Hroot. now rewrite IH. }
  assert (E1 : filter (fun d => String.eqb (toUpperCase (symbol d)) (toUpperCase "VALE3"))
                 rows = []).
  { clear E2. induction Hall as [| d l Hd Hl IH]; [reflexivity |].
    cbn [filter]. rewrite Hd, Hexact. exact IH. }
  rewrite E1. cbn [List.length Nat.ltb Nat.leb]. exact E2.
Qed.

(** C5, at rows keyed [vale3.sa] in all four categories and the ticker
    [VALE3].  The income, balance and cash-flow rows are resolved by
    [filterByTicker], which compares in upper case; the quote row is not:
    line 69 compares the symbol as it is stored, finds no row, and
    [getFinancialData] fails naming the quote as missing. *)
Theorem lowercase_quote_unresolved :
  filterByTicker (income vale_rows_lowercase) "VALE3" = income vale_rows_lowercase
  /\ filterByTicker (balance vale_rows_lowercase) "VALE3" = balance vale_rows_lowercase
  /\ filterByTicker (cashFlow vale_rows_lowercase) "VALE3" = cashFlow vale_rows_lowercase
  /\ find_tickerBrapi (brapi vale_rows_lowercase) "VALE3" = None
  /\ getFinancialData utc_host clock_day1 (fun _ => Some vale_rows_lowercase) "VALE3"
     = inl "Dados incompletos para VALE3 (faltando: cotação)".
Proof. repeat split; vm_compute; reflexivity. Qed.

(* ================================================================== *)
(** ** The snapshot and the clock *)
(* ================================================================== *)

(** C6, at the rows of VALE3 read on two consecutive days: the two
    snapshots differ (in [fundamentals.date], "01/11/2026" against
    "02/11/2026"). *)
Lemma date_stamp_differs :
  getFinancialData utc_host clock_day1 (fun _ => Some vale_rows) "VALE3"
  <> getFinancialData utc_host clock_day2 (fun _ => Some vale_rows) "VALE3".
Proof.
  intros H.
  apply (f_equal (fun r => match r with
                           | inr fd => FundamentalData.date (FinancialData.fundamentals fd)
                           | inl msg => msg
                           end)) in H.
  vm_compute in H. discriminate H.
Qed.

Lemma build_snapshot_erase_date (h : Host) (now1 now2 : number) (t : string)
    (q : Brapi.row) (inc : list Income.row) (bal : list Balance.row)
    (cf : list CashFlow.row) (divs : list Dividend.row) :
  erase_date (build_snapshot h now1 t q inc bal cf divs)
  = erase_date (build_snapshot h now2 t q inc bal cf divs).
Proof.
  unfold build_snapshot.
  destruct (or_latest h (nth_error (yearly_sorted h Income.period inc) 0) inc)
    as [baseIncome inc'].
  destruct (or_latest h _ bal) as [baseBalance bal'].
  destruct (or_latest h _ cf) as [baseCF cf'].
  reflexivity.
Qed.

(** The date stamp of a snapshot is the clock reading, formatted. *)
Lemma build_snapshot_date (h : Host) (now : number) (t : string)
    (q : Brapi.row) (inc : list Income.row) (bal : list Balance.row)
    (cf : list CashFlow.row) (divs : list Dividend.row) :
  FundamentalData.date (FinancialData.fundamentals (build_snapshot h now t q inc bal cf divs))
  = toLocaleDateString_ptBR h now.
Proof.
  unfold build_snapshot.
  destruct (or_latest h (nth_error (yearly_sorted h Income.period inc) 0) inc)
    as [baseIncome inc'].
  destruct (or_latest h _ bal) as [baseBalance bal'].
  destruct (or_latest h _ cf) as [baseCF cf'].
  reflexivity.
Qed.

(** C6, as the code behaves.  For the same host, fetch layer and
    ticker, two runs at any two clock readings fail with the same message
    or produce snapshots that agree on every field but
    [fundamentals.date]. *)
Theorem snapshot_deterministic_up_to_date (h : Host) (now1 now2 : number)
    (fetchFinancials : string -> option SupabaseFinancials) (ticker : string) :
  erase_date_result (getFinancialData h now1 fetchFinancials ticker)
  = erase_date_result (getFinancialData h now2 fetchFinancials ticker).
Proof.
  unfold getFinancialData.
  destruct (fetchFinancials _) as [supa |]; [| reflexivity].
  unfold snapshot_of_rows.
  destruct (find_tickerBrapi _ _) as [q |]; [| reflexivity].
  destruct (_ || _); [reflexivity |].
  simpl. f_equal. apply build_snapshot_erase_date.
Qed.

(* ================================================================== *)
(** ** Shares outstanding *)
(* ================================================================== *)

(** C7, at a quote without market capitalisation or share count whose
    earnings per share are 2 while the annual net income is -500: the
    snapshot is built with -250 shares outstanding, which is not greater
    than 0. *)
Lemma negative_shares :
  exists fd,
    getFinancialData utc_host clock_day1 (fun _ => Some loss_rows) "LOSS3" = inr fd
    /\ FinancialData.sharesOutstanding fd = dec (-250)
    /\ (FinancialData.sharesOutstanding fd >? zero)%js = false.
Proof.
  eexists. split; [vm_compute; reflexivity |]. split.
  - apply same_value_eq. vm_compute. reflexivity.
  - vm_compute. reflexivity.
Qed.

Lemma build_snapshot_shares_truthy (h : Host) (now : number) (t : string)
    (q : Brapi.row) (inc : list Income.row) (bal : list Balance.row)
    (cf : list CashFlow.row) (divs : list Dividend.row) :
  truthy (FinancialData.sharesOutstanding (build_snapshot h now t q inc bal cf divs)) = true.
Proof.
  unfold build_snapshot.
  destruct (or_latest h (nth_error (yearly_sorted h Income.period inc) 0) inc)
    as [baseIncome inc'].
  destruct (or_latest h _ bal) as [baseBalance bal'].
  destruct (or_latest h _ cf) as [baseCF cf'].
  cbn [FinancialData.sharesOutstanding].
  match goal with
  | |- truthy (if negb (truthy ?s) then _ else _) = true =>
      destruct (truthy s) eqn:E; [exact E | reflexivity]
  end.
Qed.

Lemma build_snapshot_shares (h : Host) (now : number) (t : string)
    (q : Brapi.row) (inc : list Income.row) (bal : list Balance.row)
    (cf : list CashFlow.row) (divs : list Dividend.row) :
  let s := derived_shares q (base_income h inc) in
  FinancialData.sharesOutstanding (build_snapshot h now t q inc bal cf divs)
  = if truthy s then s else dec 1000000.
Proof.
  unfold build_snapshot, derived_shares, base_income.
  destruct (or_latest h (nth_error (yearly_sorted h Income.period inc) 0) inc)
    as [baseIncome inc'].
  destruct (or_latest h _ bal) as [baseBalance bal'].
  destruct (or_latest h _ cf) as [baseCF cf'].
  cbn [FinancialData.sharesOutstanding fst].
  match goal with
  | |- (if negb (truthy ?s) then _ else _) = _ => destruct (truthy s); reflexivity
  end.
Qed.

(** C7, as the code behaves.  The share count of a snapshot is the count
    derived from the quote and the base income row (market cap / price,
    else the quote's share count, else net income / earnings per share)
    when that is neither 0 nor [NaN], and 1,000,000 when it is 0 or
    [NaN]; so it is never 0 and never [NaN].  A negative derived count
    is kept. *)
Theorem shares_never_zero (h : Host) (now : number)
    (fetchFinancials : string -> option SupabaseFinancials) (ticker : string)
    (fd : FinancialData.t) :
  getFinancialData h now fetchFinancials ticker = inr fd ->
  (FinancialData.sharesOutstanding fd <> zero
   /\ FinancialData.sharesOutstanding fd <> NaN)
  /\ exists supa q,
       fetchFinancials (resolve_ticker ticker) = Some supa
       /\ find_tickerBrapi (brapi supa) (resolve_ticker ticker) = Some q
       /\ let s :=
            derived_shares q
              (base_income h (filterByTicker (income supa) (resolve_ticker ticker))) in
          (s <> zero /\ s <> NaN /\ FinancialData.sharesOutstanding fd = s)
          \/ ((s = zero \/ s = NaN)
              /\ FinancialData.sharesOutstanding fd = dec 1000000).
Proof.
  unfold getFinancialData. fold (resolve_ticker ticker). intros H.
  destruct (fetchFinancials _) as [supa |] eqn:Efetch; [| discriminate].
  unfold snapshot_of_rows in H.
  destruct (find_tickerBrapi _ _) as [q |] eqn:Equote; [| discriminate].
  destruct (_ || _); [discriminate |].
  injection H as <-. split.
  - apply truthy_spec. apply build_snapshot_shares_truthy.
  - exists supa, q. split; [reflexivity |]. split; [exact Equote |].
    cbv zeta. rewrite build_snapshot_shares. cbv zeta.
    destruct (truthy _) eqn:Es.
    + left. apply truthy_spec in Es. destruct Es. repeat split; assumption.
    + right. split; [| reflexivity].
      match type of Es with
      | truthy ?s = false => destruct s as [x | | |]; try discriminate
      end.
      * left. unfold zero, dec. f_equal. apply sgn_Eq.
        unfold truthy in Es. destruct (sgn x); [reflexivity | discriminate ..].
      * right. reflexivity.
Qed.

Lemma shares_never_zero_witness :
  let fd :=
    build_snapshot utc_host clock_day1 "VALE3" (quote_row "VALE3" None None None)
      (income undetermined_rows) (balance undetermined_rows)
      (cashFlow undetermined_rows) [] in
  getFinancialData utc_host clock_day1 (fun _ => Some undetermined_rows) "VALE3" = inr fd
  /\ FinancialData.sharesOutstanding fd = dec 1000000
  /\ FinancialData.sharesOutstanding fd <> zero
  /\ FinancialData.sharesOutstanding fd <> NaN.
Proof.
  intros fd.
  assert (H : getFinancialData utc_host clock_day1 (fun _ => Some undetermined_rows)
                "VALE3" = inr fd) by (vm_compute; reflexivity).
  split; [exact H |].
  destruct (shares_never_zero utc_host clock_day1 (fun _ => Some undetermined_rows)
              "VALE3" fd H) as [Hnz (supa & q & Hs & Hq & Hd)].
  split; [| exact Hnz].
  injection Hs as <-.
  assert (Eq : q = quote_row "VALE3" None None None).
  { assert (Hf : find_tickerBrapi (brapi undetermined_rows) (resolve_ticker "VALE3")
                 = Some (quote_row "VALE3" None None None)) by reflexivity.
    rewrite Hf in Hq. injection Hq as <-. reflexivity. }
  subst q. cbv zeta in Hd.
  destruct Hd as [(Hs0 & _ & _) | (_ & Hd)]; [| exact Hd].
  exfalso. apply Hs0. apply same_value_eq. vm_compute. reflexivity.
Defined.

(* ================================================================== *)
(** ** Missing data *)
(* ================================================================== *)

(** C8, when the fetch layer has nothing for the ticker.  No category
    has a row, and [getFinancialData] fails with [Sem dados para VALE3],
    which is not the message that lists the four categories. *)
Lemma no_rows_names_no_category :
  getFinancialData utc_host clock_day1 (fun _ => None) "vale3.sa"
  = inl "Sem dados para VALE3"
  /\ getFinancialData utc_host clock_day1 (fun _ => None) "vale3.sa"
     <> inl (incomplete_message "VALE3"
               (map category_name
                  [Quote; IncomeStatement; BalanceSheet; CashFlowStatement])).
Proof.
  split; [reflexivity | vm_compute; discriminate].
Qed.

(** C8, as the code behaves.  When the fetch layer has nothing for the
    resolved ticker, [getFinancialData] fails with [Sem dados para]
    followed by the ticker.  When it hands over rows, a snapshot is
    produced exactly when each of the four categories (quote, income
    statement, balance sheet, cash flow) has a row for the ticker;
    otherwise the failure message lists the categories without rows, all
    of them and no other, in that order.  The dividend rows play no
    part. *)
Theorem missing_data_failure (h : Host) (now : number)
    (fetchFinancials : string -> option SupabaseFinancials) (ticker : string) :
  let t := resolve_ticker ticker in
  match fetchFinancials t with
  | None =>
      getFinancialData h now fetchFinancials ticker = inl ("Sem dados para " ++ t)%string
  | Some supa =>
      let missing :=
        missing_categories (brapi supa) (income supa) (balance supa) (cashFlow supa) t in
      (missing = [] <-> exists fd, getFinancialData h now fetchFinancials ticker = inr fd)
      /\ (missing <> [] ->
          getFinancialData h now fetchFinancials ticker
          = inl ("Dados incompletos para " ++ t ++ " (faltando: "
                 ++ join ", " (map category_name missing) ++ ")")%string)
  end.
Proof.
  intros t.
  unfold getFinancialData. fold (resolve_ticker ticker). fold t.
  destruct (fetchFinancials t) as [supa |]; [| reflexivity].
  cbv zeta.
  unfold snapshot_of_rows, missing_categories, has_rows, incomplete_message, missing_of.
  destruct (find_tickerBrapi (brapi supa) t) as [q |];
    destruct (filterByTicker (income supa) t) as [| i inc];
    destruct (filterByTicker (balance supa) t) as [| b bal];
    destruct (filterByTicker (cashFlow supa) t) as [| c cf];
    cbn [is_none is_empty negb filter orb push_if app map category_name];
    (split; [split; [try discriminate; intros _; eexists; reflexivity
                    | try reflexivity; intros [fd Hfd]; discriminate Hfd]
            | try congruence; intros _; reflexivity]).
Qed.

(** Rows keyed [VALE3] whose balance sheet and cash flow are absent. *)
Lemma missing_data_failure_witness :
  let supa :=
    {| income := income vale_rows; balance := []; cashFlow := [];
       brapi := brapi vale_rows; dividends := [] |} in
  missing_categories (brapi supa) (income supa) (balance supa) (cashFlow supa)
    (resolve_ticker "vale3.sa") <> []
  /\ getFinancialData utc_host clock_day1 (fun _ => Some supa) "vale3.sa"
     = inl "Dados incompletos para VALE3 (faltando: balanço, fluxo de caixa)".
Proof.
  intros supa.
  assert (H : missing_categories (brapi supa) (income supa) (balance supa)
                (cashFlow supa) (resolve_ticker "vale3.sa") <> [])
    by (vm_compute; discriminate).
  split; [exact H |].
  exact (proj2 (missing_data_failure utc_host clock_day1 (fun _ => Some supa)
                  "vale3.sa") H).
Defined.

(* ================================================================== *)
(** ** The price range *)
(* ================================================================== *)

(** C9.  The price range of a valuation is [Math.min] and [Math.max] of
    the strictly positive fair values among the five; whenever one of the
    five is positive, [min] is the least and [max] the greatest of the
    positive ones, so a method priced at 0 takes no part in the range. *)
Theorem price_range_over_positive (data : FinancialData.t) (a : ValuationAssumptions)
    (w : option ValuationWeights) :
  let v := performValuation data a w in
  let range := ComprehensiveValuation.priceRange v in
  List.length (fair_values v) = 5%nat
  /\ (forall x, In x (positive_fair_values v)
                <-> In x (fair_values v) /\ (x >? zero)%js = true)
  /\ PriceRange.min range = Math_min (positive_fair_values v)
  /\ PriceRange.max range = Math_max (positive_fair_values v)
  /\ (positive_fair_values v <> [] ->
      is_minimum (PriceRange.min range) (positive_fair_values v)
      /\ is_maximum (PriceRange.max range) (positive_fair_values v)).
Proof.
  intros v range. subst range v.
  rewrite performValuation_priceRange. cbn [PriceRange.min PriceRange.max].
  split; [now rewrite performValuation_fair_values |].
  split; [intros x; unfold positive_fair_values; rewrite filter_In; reflexivity |].
  split; [reflexivity | split; [reflexivity |]].
  intros Hne. split.
  - apply Math_min_is_minimum; [apply positive_values_not_NaN | exact Hne].
  - apply Math_max_is_maximum; [apply positive_values_not_NaN | exact Hne].
Qed.

(** A company that Gordon and Graham price at 0: the range is taken over
    the other three fair values. *)
Lemma price_range_over_positive_witness :
  let v := performValuation no_earnings_per_share BASE_assumptions None in
  positive_fair_values v <> []
  /\ List.length (positive_fair_values v) = 3%nat
  /\ is_minimum (PriceRange.min (ComprehensiveValuation.priceRange v))
       (positive_fair_values v)
  /\ is_maximum (PriceRange.max (ComprehensiveValuation.priceRange v))
       (positive_fair_values v).
Proof.
  intros v.
  assert (Hne : positive_fair_values v <> []) by (vm_compute; discriminate).
  split; [exact Hne |]. split; [vm_compute; reflexivity |].
  exact (proj2 (proj2 (proj2 (proj2
           (price_range_over_positive no_earnings_per_share BASE_assumptions None))))
           Hne).
Defined.

(** C10.  When every one of the five fair values is at most 0, the
    valuation is returned whole: the ticker and the price of the
    snapshot, the WACC, the weighted fair value over the weights, the
    upside, the five results in the order DCF, Gordon, EVA, multiples,
    Graham with the values of the five pricing functions, and the 5 x 5
    sensitivity grid; its price range is [min = +Infinity],
    [max = -Infinity], neither of them finite. *)
Theorem empty_price_range (data : FinancialData.t) (a : ValuationAssumptions)
    (w : option ValuationWeights) :
  let v := performValuation data a w in
  let wacc := fst (calculateWacc data a) in
  let ke := snd (calculateWacc data a) in
  Forall (fun x => nle x zero) (fair_values v) ->
  (ComprehensiveValuation.ticker v = FinancialData.ticker data
   /\ ComprehensiveValuation.currentPrice v = FinancialData.price data
   /\ ComprehensiveValuation.calculatedWacc v = wacc
   /\ ComprehensiveValuation.totalUpside v
      = (ComprehensiveValuation.weightedFairValue v / FinancialData.price data
         - dec 1)%js
   /\ map ValuationResult.method (ComprehensiveValuation.results v)
      = [ValuationMethodType.DCF; ValuationMethodType.GORDON; ValuationMethodType.EVA;
         ValuationMethodType.MULTIPLES; ValuationMethodType.GRAHAM]
   /\ fair_values v
      = [calcDCF data wacc (perpetualGrowth a) (projectedRevenueGrowth a);
         calcGordon data ke (perpetualGrowth a);
         calcEVA data wacc (projectedRevenueGrowth a);
         calcMultiples data;
         calcGraham data]
   /\ List.length (ComprehensiveValuation.sensitivityMatrix v) = 5%nat
   /\ Forall (fun row => List.length row = 5%nat)
        (ComprehensiveValuation.sensitivityMatrix v))
  /\ ComprehensiveValuation.priceRange v
     = {| PriceRange.min := PInf; PriceRange.max := NInf |}
  /\ Number_isFinite (PriceRange.min (ComprehensiveValuation.priceRange v)) = false
  /\ Number_isFinite (PriceRange.max (ComprehensiveValuation.priceRange v)) = false.
Proof.
  intros v wacc ke H. subst v wacc ke. split.
  - clear H. rewrite performValuation_fair_values.
    unfold performValuation. destruct (calculateWacc data a) as [wacc ke].
    cbn [ComprehensiveValuation.ticker ComprehensiveValuation.currentPrice
         ComprehensiveValuation.calculatedWacc ComprehensiveValuation.totalUpside
         ComprehensiveValuation.weightedFairValue ComprehensiveValuation.results
         ComprehensiveValuation.sensitivityMatrix map ValuationResult.method fst snd].
    repeat split; try reflexivity. repeat constructor.
  - rewrite performValuation_priceRange.
    unfold positive_fair_values.
    replace (filter _ _) with (@nil number); [repeat split |].
    symmetry. induction H as [| x l Hx Hl IH]; [reflexivity |].
    simpl. rewrite (nle_zero_not_positive x Hx). exact IH.
Qed.

Lemma empty_price_range_witness :
  let v := performValuation idle_company BASE_assumptions None in
  Forall (fun x => nle x zero) (fair_values v)
  /\ List.length (fair_values v) = 5%nat
  /\ ComprehensiveValuation.priceRange v
     = {| PriceRange.min := PInf; PriceRange.max := NInf |}.
Proof.
  intros v.
  assert (H : Forall (fun x => nle x zero) (fair_values v)).
  { apply Forall_forall. apply forallb_forall. vm_compute. reflexivity. }
  split; [exact H |]. split.
  - pose proof (proj1 (empty_price_range idle_company BASE_assumptions None H))
      as (_ & _ & _ & _ & _ & Hv & _).
    fold v in Hv. rewrite Hv. reflexivity.
  - exact (proj1 (proj2 (empty_price_range idle_company BASE_assumptions None H))).
Defined.

(* ================================================================== *)
(** * Further properties *)
(* ================================================================== *)

(** ** Rationals under the canonical form *)

Lemma this_plus (a b : Qc) : (this (a + b)%Qc == this a + this b)%Q.
Proof. unfold Qcplus, Q2Qc. cbn [this]. apply Qred_correct. Qed.

Lemma this_mult (a b : Qc) : (this (a * b)%Qc == this a * this b)%Q.
Proof. unfold Qcmult, Q2Qc. cbn [this]. apply Qred_correct. Qed.

Lemma this_opp (a : Qc) : (this (- a)%Qc == - this a)%Q.
Proof. unfold Qcopp, Q2Qc. cbn [this]. apply Qred_correct. Qed.

Lemma this_minus (a b : Qc) : (this (a - b)%Qc == this a - this b)%Q.
Proof. unfold Qcminus. rewrite this_plus, this_opp. reflexivity. Qed.

Lemma this_inv (a : Qc) : (this (/ a)%Qc == / this a)%Q.
Proof. unfold Qcinv, Q2Qc. cbn [this]. apply Qred_correct. Qed.

Lemma this_div (a b : Qc) : (this (a / b)%Qc == this a / this b)%Q.
Proof. unfold Qcdiv. rewrite this_mult, this_inv. reflexivity. Qed.

Lemma this_Q2Qc (q : Q) : (this (Q2Qc q) == q)%Q.
Proof. unfold Q2Qc. cbn [this]. apply Qred_correct. Qed.

Lemma Qc_eq_iff (a b : Qc) : a = b <-> (this a == this b)%Q.
Proof. split; [intros ->; reflexivity | apply Qc_is_canon]. Qed.

(** Statements on [Qc] are moved to [Q], where [lra] applies. *)
Ltac qc_to_q :=
  repeat match goal with
  | H : @eq Qc _ _ |- _ => apply Qc_eq_iff in H
  | H : ~ @eq Qc _ _ |- _ => rewrite Qc_eq_iff in H
  | |- @eq Qc _ _ => apply Qc_eq_iff
  | |- ~ @eq Qc _ _ => rewrite Qc_eq_iff
  end;
  unfold Qclt, Qcle in *;
  repeat (rewrite ?this_plus, ?this_mult, ?this_minus, ?this_opp, ?this_div,
            ?this_inv, ?this_Q2Qc in * ).

(** ** Sorting by end date *)

Lemma sort_insert_perm {T : Type} (cmp : T -> T -> number) (x : T) (l : list T) :
  Permutation (sort_insert cmp x l) (x :: l).
Proof.
  induction l as [| y l IH]; simpl; [reflexivity |].
  destruct (cmp x y >? Fin (Q2Qc 0))%js; [| reflexivity].
  rewrite IH. apply perm_swap.
Qed.

Lemma Array_sort_perm {T : Type} (cmp : T -> T -> number) (l : list T) :
  Permutation (Array_sort cmp l) l.
Proof.
  induction l as [| x l IH]; simpl; [reflexivity |].
  unfold Array_sort in *. simpl. rewrite sort_insert_perm. now constructor.
Qed.

Lemma Array_sort_nil_iff {T : Type} (cmp : T -> T -> number) (l : list T) :
  Array_sort cmp l = [] <-> l = [].
Proof.
  split; [| intros ->; reflexivity].
  intros E. pose proof (Array_sort_perm cmp l) as P. rewrite E in P.
  now apply Permutation_nil in P.
Qed.

(** The comparator on two rows with finite time values. *)
Lemma by_end_date_desc_positive {T : Type} `{HasEndDate T} (h : Host) (a b : T)
    (ta tb : Qc) :
  time_of h a = Fin ta -> time_of h b = Fin tb ->
  (by_end_date_desc h a b >? Fin (Q2Qc 0))%js = true <-> (ta < tb)%Qc.
Proof.
  unfold time_of, by_end_date_desc. intros -> ->.
  rewrite nsub_Fin. unfold ngtb. change (nltb ?x ?y = true) with (nlt x y).
  rewrite nlt_Fin. split; intros Hlt; qc_to_q; lra.
Qed.

Lemma finite_time {T : Type} `{HasEndDate T} (h : Host) (d : T) :
  Number_isFinite (time_of h d) = true -> exists t, time_of h d = Fin t.
Proof. destruct (time_of h d) eqn:E; try discriminate. eauto. Qed.

Lemma sort_insert_latest_first {T : Type} `{HasEndDate T} (h : Host) (x : T) (l : list T) :
  Number_isFinite (time_of h x) = true -> dates_finite h l ->
  latest_first h l -> latest_first h (sort_insert (by_end_date_desc h) x l).
Proof.
  intros Hx Hfin Hs. destruct (finite_time h x Hx) as [tx Etx].
  induction l as [| y l IH]; simpl.
  - repeat constructor.
  - inversion Hfin as [| ? ? Hy Hfin']; subst.
    inversion Hs as [| ? ? Hs' Hall]; subst.
    destruct (finite_time h y Hy) as [ty Ety].
    destruct (by_end_date_desc h x y >? Fin (Q2Qc 0))%js eqn:E.
    + apply (by_end_date_desc_positive h x y tx ty Etx Ety) in E.
      constructor; [now apply IH |].
      apply Forall_forall. intros z Hz.
      apply (Permutation_in _ (sort_insert_perm _ x l)) in Hz.
      destruct Hz as [<- | Hz].
      * rewrite Etx, Ety. apply nle_Fin. now apply Qclt_le_weak.
      * rewrite Forall_forall in Hall. now apply Hall.
    + assert (Hle : (ty <= tx)%Qc).
      { apply Qcnot_lt_le. intros Hlt.
        apply (by_end_date_desc_positive h x y tx ty Etx Ety) in Hlt. congruence. }
      constructor; [exact Hs |].
      constructor; [rewrite Etx, Ety; now apply nle_Fin |].
      apply Forall_forall. intros z Hz. rewrite Forall_forall in Hall.
      eapply nle_trans; [apply Hall, Hz |]. rewrite Etx, Ety. now apply nle_Fin.
Qed.

Lemma Array_sort_latest_first {T : Type} `{HasEndDate T} (h : Host) (l : list T) :
  dates_finite h l -> latest_first h (Array_sort (by_end_date_desc h) l).
Proof.
  induction l as [| x l IH]; intros Hfin; [constructor |].
  inversion Hfin as [| ? ? Hx Hfin']; subst.
  change (latest_first h
            (sort_insert (by_end_date_desc h) x (Array_sort (by_end_date_desc h) l))).
  apply sort_insert_latest_first; [exact Hx | | now apply IH].
  unfold dates_finite. apply Forall_forall. intros z Hz.
  apply (Permutation_in _ (Array_sort_perm _ l)) in Hz.
  unfold dates_finite in Hfin'. rewrite Forall_forall in Hfin'. now apply Hfin'.
Qed.

(** X1.  [arr.sort] with whatever comparator keeps every row, each as
    many times as it occurs; with the end-date comparator and dates that
    all parse, the result runs from the latest row to the earliest. *)
Theorem sort_by_end_date {T : Type} `{HasEndDate T} (h : Host)
    (cmp : T -> T -> number) (l : list T) :
  Permutation (Array_sort cmp l) l
  /\ (dates_finite h l -> latest_first h (Array_sort (by_end_date_desc h) l)).
Proof. split; [apply Array_sort_perm | apply Array_sort_latest_first]. Qed.

(** X2.  [getLatest] answers [null] exactly on the empty array;
    otherwise, when every end date parses, it answers a row of the array
    whose end date no other row exceeds.  The array it leaves behind holds
    the same rows. *)
Theorem getLatest_latest {T : Type} `{HasEndDate T} (h : Host) (data : list T) :
  Permutation (snd (getLatest h data)) data
  /\ (fst (getLatest h data) = None <-> data = [])
  /\ (dates_finite h data ->
      forall r, fst (getLatest h data) = Some r ->
        In r data /\ forall d, In d data -> nle (time_of h d) (time_of h r)).
Proof.
  unfold getLatest. destruct data as [| x data]; cbn [fst snd].
  - repeat split; try reflexivity; try discriminate. 
  - set (l := x :: data).
    pose proof (Array_sort_perm (by_end_date_desc h) l) as P.
    split; [exact P |]. split.
    + split; [| discriminate].
      destruct (Array_sort (by_end_date_desc h) l) eqn:E; [| discriminate].
      apply Array_sort_nil_iff in E. discriminate.
    + intros Hfin r Hr.
      pose proof (Array_sort_latest_first h l Hfin) as Hs.
      destruct (Array_sort (by_end_date_desc h) l) as [| y s] eqn:E; [discriminate |].
      injection Hr as ->.
      split; [apply (Permutation_in _ P); now left |].
      intros d Hd. apply (Permutation_in _ (Permutation_sym P)) in Hd.
      inversion Hs as [| ? ? _ Hall]; subst.
      destruct Hd as [<- | Hd].
      * apply nle_refl. unfold dates_finite in Hfin. rewrite Forall_forall in Hfin.
        assert (Hin : In r l) by (apply (Permutation_in _ P); now left).
        apply Hfin in Hin. destruct (time_of h r); discriminate || congruence.
      * rewrite Forall_forall in Hall. now apply Hall.
Qed.

(** ** Strings: prefixes and the share-class root *)

Lemma prefix_app (p s : string) : String.prefix p (p ++ s) = true.
Proof.
  induction p as [| c p IH]; simpl; [now destruct s |].
  destruct (ascii_dec c c); [exact IH | congruence].
Qed.

Lemma string_of_list_app (l l' : list ascii) :
  string_of_list_ascii (l ++ l')
  = (string_of_list_ascii l ++ string_of_list_ascii l')%string.
Proof. induction l as [| c l IH]; simpl; [reflexivity | now rewrite IH]. Qed.

Lemma drop_while_suffix (f : ascii -> bool) (s : string) :
  exists taken,
    list_ascii_of_string s = taken ++ list_ascii_of_string (drop_while f s).
Proof.
  induction s as [| c s [taken IH]]; simpl.
  - now exists [].
  - destruct (f c).
    + exists (c :: taken). simpl. now rewrite IH.
    + now exists [].
Qed.

(** What [replace(/[cls]+$/, '')] leaves is a prefix of the string. *)
Lemma strip_trailing_prefix (cls : ascii -> bool) (s : string) :
  String.prefix (strip_trailing cls s) s = true.
Proof.
  unfold strip_trailing, string_rev.
  destruct (drop_while_suffix cls (string_of_list_ascii (rev (list_ascii_of_string s))))
    as [taken E].
  rewrite list_ascii_of_string_of_list_ascii in E.
  apply (f_equal (@rev ascii)) in E. rewrite rev_involutive, rev_app_distr in E.
  apply (f_equal string_of_list_ascii) in E.
  rewrite string_of_list_ascii_of_string, string_of_list_app in E.
  rewrite E at 2. apply prefix_app.
Qed.

Lemma startsWith_ticker_root (t : string) : startsWith t (ticker_root t) = true.
Proof. apply strip_trailing_prefix. Qed.

(** ** [filterByTicker] *)

(** X3.  Every row [filterByTicker] returns is a row of the data whose
    symbol, in upper case, starts with the ticker in upper case stripped
    of its trailing digits and [F]s, whether it was matched exactly or by
    the prefix. *)
Theorem filterByTicker_sound {T : Type} `{HasSymbol T} (data : list T)
    (ticker : string) (d : T) :
  In d (filterByTicker data ticker) ->
  In d data
  /\ startsWith (toUpperCase (symbol d)) (ticker_root (toUpperCase ticker)) = true.
Proof.
  unfold filterByTicker.
  destruct (Nat.ltb 0 _); intros Hin; apply filter_In in Hin as [Hd Hm].
  - split; [exact Hd |]. apply String.eqb_eq in Hm. rewrite Hm.
    apply startsWith_ticker_root.
  - split; assumption.
Qed.

Lemma filterByTicker_sound_witness :
  In (income_row "vale3.sa" 600) (filterByTicker (income vale_rows_lowercase) "VALE3")
  /\ startsWith (toUpperCase "vale3.sa") (ticker_root (toUpperCase "VALE3")) = true.
Proof.
  assert (H : In (income_row "vale3.sa" 600)
                (filterByTicker (income vale_rows_lowercase) "VALE3"))
    by (vm_compute; left; reflexivity).
  split; [exact H |].
  exact (proj2 (filterByTicker_sound (income vale_rows_lowercase) "VALE3" _ H)).
Defined.

Lemma filter_filter_comm {A : Type} (f g : A -> bool) (l : list A) :
  filter f (filter g l) = filter g (filter f l).
Proof.
  induction l as [| x l IH]; simpl; [reflexivity |].
  destruct (f x) eqn:Ef, (g x) eqn:Eg; simpl; rewrite ?Ef, ?Eg, IH; reflexivity.
Qed.

Lemma filter_idem {A : Type} (f : A -> bool) (l : list A) :
  filter f (filter f l) = filter f l.
Proof.
  induction l as [| x l IH]; simpl; [reflexivity |].
  destruct (f x) eqn:Ef; simpl; rewrite ?Ef, IH; reflexivity.
Qed.

(** X4.  Looking the ticker up again in the rows already matched changes
    nothing. *)
Theorem filterByTicker_idempotent {T : Type} `{HasSymbol T} (data : list T)
    (ticker : string) :
  filterByTicker (filterByTicker data ticker) ticker = filterByTicker data ticker.
Proof.
  unfold filterByTicker.
  set (ex := fun d : T => String.eqb (toUpperCase (symbol d)) (toUpperCase ticker)).
  set (pre := fun d : T =>
                startsWith (toUpperCase (symbol d)) (ticker_root (toUpperCase ticker))).
  destruct (filter ex data) as [| x l] eqn:E; cbn [List.length Nat.ltb Nat.leb].
  - rewrite filter_filter_comm, E. cbn [filter List.length Nat.ltb Nat.leb].
    apply filter_idem.
  - rewrite <- E, filter_idem, E. reflexivity.
Qed.

(** ** Period types *)

Lemma classifyPeriod_range (period : string) :
  classifyPeriod period = "yearly" \/ classifyPeriod period = "quarterly".
Proof.
  unfold classifyPeriod.
  destruct (String.eqb period ""); [now right |].
  destruct (_ || _); [now left | now right].
Qed.

(** X5.  [normalizeType] answers ['yearly'] or ['quarterly'] and nothing
    else, and a type it has produced is kept when it is normalized again,
    whatever the period label. *)
Theorem normalizeType_stable (rawType period period' : option string) :
  (normalizeType rawType period = "yearly" \/ normalizeType rawType period = "quarterly")
  /\ normalizeType (Some (normalizeType rawType period)) period'
     = normalizeType rawType period.
Proof.
  assert (Hr : normalizeType rawType period = "yearly"
               \/ normalizeType rawType period = "quarterly").
  { unfold normalizeType.
    destruct (includes _ _); [now left |].
    destruct (_ || _); [now right |]. apply classifyPeriod_range. }
  split; [exact Hr |].
  destruct Hr as [-> | ->]; reflexivity.
Qed.

(** ** The raw rows of a snapshot *)

Lemma or_latest_rows {T : Type} `{HasEndDate T} (h : Host) (first : option T)
    (rows : list T) :
  snd (or_latest h first rows)
  = match first with
    | Some _ => rows
    | None => Array_sort (by_end_date_desc h) rows
    end.
Proof.
  unfold or_latest, getLatest.
  destruct first; [reflexivity |]. destruct rows; reflexivity.
Qed.

Lemma or_latest_perm {T : Type} `{HasEndDate T} (h : Host) (first : option T)
    (rows : list T) :
  Permutation (snd (or_latest h first rows)) rows.
Proof.
  rewrite or_latest_rows. destruct first; [reflexivity | apply Array_sort_perm].
Qed.

Lemma build_snapshot_raw (h : Host) (now : number) (t : string)
    (q : Brapi.row) (inc : list Income.row) (bal : list Balance.row)
    (cf : list CashFlow.row) (divs : list Dividend.row) :
  let fd := build_snapshot h now t q inc bal cf divs in
  FinancialData._rawIncome fd
  = map normalize_income
      (snd (or_latest h (nth_error (yearly_sorted h Income.period inc) 0) inc))
  /\ Permutation (FinancialData._rawBalance fd) (map normalize_balance bal)
  /\ Permutation (FinancialData._rawCashFlow fd) (map normalize_cashflow cf)
  /\ FinancialData._rawDividends fd = divs.
Proof.
  unfold build_snapshot.
  destruct (or_latest h (nth_error (yearly_sorted h Income.period inc) 0) inc)
    as [baseIncome inc'] eqn:Ei.
  destruct (or_latest h _ bal) as [baseBalance bal'] eqn:Eb.
  destruct (or_latest h _ cf) as [baseCF cf'] eqn:Ec.
  cbn [FinancialData._rawIncome FinancialData._rawBalance FinancialData._rawCashFlow
       FinancialData._rawDividends snd].
  split; [reflexivity |]. split; [| split; [| reflexivity]].
  - apply Permutation_map.
    match type of Eb with
    | or_latest ?h ?x ?l = _ => pose proof (or_latest_perm h x l) as P; now rewrite Eb in P
    end.
  - apply Permutation_map.
    match type of Ec with
    | or_latest ?h ?x ?l = _ => pose proof (or_latest_perm h x l) as P; now rewrite Ec in P
    end.
Qed.

Lemma yearly_head_none (h : Host) (inc : list Income.row) :
  nth_error (yearly_sorted h Income.period inc) 0 = None
  <-> has_yearly_income inc = false.
Proof.
  unfold yearly_sorted, has_yearly_income.
  set (f := fun d : Income.row => String.eqb (classifyPeriod (Income.period d)) "yearly").
  assert (Hf : filter f inc = [] <-> existsb f inc = false).
  { induction inc as [| x l IH]; simpl; [tauto |].
    destruct (f x); simpl; [split; discriminate | exact IH]. }
  rewrite <- Hf, <- (Array_sort_nil_iff (by_end_date_desc h)).
  destruct (Array_sort _ _); simpl; split; congruence.
Qed.

Lemma snapshot_of_rows_inr (h : Host) (now : number) (t : string)
    (supa : SupabaseFinancials) (fd : FinancialData.t) :
  snapshot_of_rows h now t supa = inr fd ->
  exists q,
    find_tickerBrapi (brapi supa) t = Some q
    /\ fd = build_snapshot h now t q (filterByTicker (income supa) t)
              (filterByTicker (balance supa) t) (filterByTicker (cashFlow supa) t)
              (dividends supa).
Proof.
  unfold snapshot_of_rows.
  destruct (find_tickerBrapi _ _) as [q |]; [| discriminate].
  destruct (_ || _); [discriminate |].
  intros E. injection E as <-. eauto.
Qed.

(** X6.  In a snapshot the income rows are the rows matched to the
    ticker with their type normalized: in the order of the fetch when one
    of them is yearly, sorted by end date (latest first, by the sort of
    [getLatest] on the shared array) when none is.  The balance and
    cash-flow rows are the matched rows with their type normalized, in
    some order, and the dividend rows are the fetched ones. *)
Theorem snapshot_raw_rows (h : Host) (now : number) (t : string)
    (supa : SupabaseFinancials) (fd : FinancialData.t) :
  snapshot_of_rows h now t supa = inr fd ->
  let matched := filterByTicker (income supa) t in
  FinancialData._rawIncome fd
  = map normalize_income
      (if has_yearly_income matched then matched
       else Array_sort (by_end_date_desc h) matched)
  /\ Permutation (FinancialData._rawBalance fd)
       (map normalize_balance (filterByTicker (balance supa) t))
  /\ Permutation (FinancialData._rawCashFlow fd)
       (map normalize_cashflow (filterByTicker (cashFlow supa) t))
  /\ FinancialData._rawDividends fd = dividends supa.
Proof.
  intros Hfd matched. apply snapshot_of_rows_inr in Hfd as (q & _ & ->).
  subst matched. set (matched := filterByTicker (income supa) t).
  destruct (build_snapshot_raw h now t q matched (filterByTicker (balance supa) t)
              (filterByTicker (cashFlow supa) t) (dividends supa))
    as (Hi & Hb & Hc & Hd).
  split; [| auto].
  rewrite Hi, or_latest_rows.
  destruct (nth_error (yearly_sorted h Income.period matched) 0) eqn:E.
  - destruct (has_yearly_income matched) eqn:Ey; [reflexivity |].
    apply (proj2 (yearly_head_none h matched)) in Ey. congruence.
  - apply (proj1 (yearly_head_none h matched)) in E. now rewrite E.
Qed.

Lemma snapshot_raw_rows_witness :
  exists fd,
    snapshot_of_rows utc_host clock_day1 "VALE3" quarterly_rows = inr fd
    /\ map Income.period (FinancialData._rawIncome fd) = ["3T2024"; "2T2024"; "1T2024"]
    /\ map Income.type (FinancialData._rawIncome fd)
       = [Some "quarterly"; Some "quarterly"; Some "quarterly"].
Proof.
  eexists. split; [vm_compute; reflexivity |].
  match goal with
  | |- context [FinancialData._rawIncome ?fd] =>
      assert (H : snapshot_of_rows utc_host clock_day1 "VALE3" quarterly_rows = inr fd)
        by (vm_compute; reflexivity);
      rewrite (proj1 (snapshot_raw_rows utc_host clock_day1 "VALE3" quarterly_rows fd H))
  end.
  split; vm_compute; reflexivity.
Defined.

(** ** Numbers of a snapshot *)

Lemma ngtb_Fin (a b : Qc) : (Fin a >? Fin b)%js = true <-> (b < a)%Qc.
Proof. unfold ngtb. change (nltb ?x ?y = true) with (nlt x y). apply nlt_Fin. Qed.

Lemma ngtb_Fin_false (a b : Qc) : (Fin a >? Fin b)%js = false <-> (a <= b)%Qc.
Proof.
  split; intros H.
  - apply Qcnot_lt_le. intros Hlt. apply ngtb_Fin in Hlt. congruence.
  - destruct (Fin a >? Fin b)%js eqn:E; [| reflexivity].
    apply ngtb_Fin in E. now apply Qcle_not_lt in H.
Qed.

Lemma or_num_truthy (x : option number) (d : number) :
  truthy d = true -> truthy (or_num x d) = true.
Proof.
  intros Hd. unfold or_num. destruct x as [v |]; [| exact Hd].
  destruct (truthy v) eqn:E; assumption.
Qed.

Lemma or_num_zero_not_NaN (x : option number) : or_num x zero <> NaN.
Proof.
  unfold or_num. destruct x as [v |]; [| discriminate].
  destruct (truthy v) eqn:E; [| discriminate].
  intros ->. discriminate E.
Qed.

Lemma Math_abs_nonneg (x : number) : x <> NaN -> nle zero (Math_abs x).
Proof.
  destruct x as [q | | |]; intros Hx; try reflexivity; [| congruence].
  cbn [Math_abs]. unfold zero, dec.
  destruct (sgn q) eqn:E; apply nle_Fin.
  - apply sgn_Eq in E. subst q. apply Qcle_refl.
  - assert (Hlt : (q < Q2Qc 0)%Qc) by (now apply sgn_Lt). clear E. qc_to_q. lra.
  - apply sgn_Gt in E. now apply Qclt_le_weak.
Qed.

Lemma pickPos_Some (v : option number) (n : number) :
  pickPos v = Some n -> exists q, n = Fin q /\ (Q2Qc 0 < q)%Qc.
Proof.
  unfold pickPos. destruct v as [m |]; [| discriminate].
  destruct m as [q | | |]; cbn [Number_isFinite andb]; try discriminate.
  destruct (Fin q >? Fin (Q2Qc 0))%js eqn:E; [| discriminate].
  intros H. injection H as <-. exists q. split; [reflexivity | now apply ngtb_Fin].
Qed.

Lemma normPercent_Some (v : option number) (n : number) :
  normPercent v = Some n -> Number_isFinite n = true.
Proof.
  unfold normPercent. destruct v as [m |]; [| discriminate].
  destruct m as [q | | |]; cbn [Number_isFinite negb]; try discriminate.
  intros H. injection H as <-.
  destruct (_ >? _)%js; [| reflexivity].
  unfold dec. rewrite ?ndiv_Fin by (now apply Qc_neq_by_value). reflexivity.
Qed.

(** X7.  In every snapshot the price is neither 0 nor [NaN] (a missing
    or zero quote price becomes 10), beta is a positive finite number and
    the growth rate is finite (the BASE preset steps in for a quote value
    that is missing, not finite or, for beta, not positive), and the
    interest expense is at least 0. *)
Theorem snapshot_numbers (h : Host) (now : number) (t : string)
    (supa : SupabaseFinancials) (fd : FinancialData.t) :
  snapshot_of_rows h now t supa = inr fd ->
  (FinancialData.price fd <> zero /\ FinancialData.price fd <> NaN)
  /\ (exists b, FinancialData.beta fd = Fin b /\ (Q2Qc 0 < b)%Qc)
  /\ Number_isFinite (FinancialData.growthRate fd) = true
  /\ nle zero (FinancialData.interestExpenses fd).
Proof.
  intros Hfd. apply snapshot_of_rows_inr in Hfd as (q & _ & ->).
  unfold build_snapshot.
  destruct (or_latest h (nth_error (yearly_sorted h Income.period _) 0) _)
    as [baseIncome inc'].
  destruct (or_latest h _ _) as [baseBalance bal'].
  destruct (or_latest h _ _) as [baseCF cf'].
  cbn [FinancialData.price FinancialData.beta FinancialData.growthRate
       FinancialData.interestExpenses].
  split; [| split; [| split]].
  - apply truthy_spec, or_num_truthy. reflexivity.
  - destruct (pickPos (Brapi.beta5y q)) as [n |] eqn:E; cbn [nullish].
    + apply pickPos_Some in E as (b & -> & Hb). eauto.
    + exists (Q2Qc 1.0). split; reflexivity.
  - destruct (normPercent (Brapi.revenueGrowth q)) as [n |] eqn:E; cbn [nullish].
    + now apply normPercent_Some in E.
    + reflexivity.
  - apply Math_abs_nonneg, or_num_zero_not_NaN.
Qed.

Lemma snapshot_numbers_witness :
  exists fd,
    snapshot_of_rows utc_host clock_day1 "VALE3" vale_rows = inr fd
    /\ FinancialData.price fd <> zero
    /\ nle zero (FinancialData.interestExpenses fd).
Proof.
  eexists. split; [vm_compute; reflexivity |].
  match goal with
  | |- context [FinancialData.price ?fd] =>
      assert (H : snapshot_of_rows utc_host clock_day1 "VALE3" vale_rows = inr fd)
        by (vm_compute; reflexivity);
      pose proof (snapshot_numbers utc_host clock_day1 "VALE3" vale_rows fd H)
        as ((Hp & _) & _ & _ & Hi)
  end.
  split; assumption.
Defined.

(** ** Percentages *)

Lemma Math_abs_Fin (q : Qc) : Math_abs (Fin q) = Fin (Qcabs q).
Proof. unfold Math_abs, Qcabs, sgn. destruct (q ?= Q2Qc 0)%Qc; reflexivity. Qed.

Lemma Qcabs_cases (q : Qc) :
  ((Q2Qc 0 <= q)%Qc /\ Qcabs q = q) \/ ((q < Q2Qc 0)%Qc /\ Qcabs q = (- q)%Qc).
Proof.
  unfold Qcabs. destruct (q ?= Q2Qc 0)%Qc eqn:E.
  - left. apply Qceq_alt in E. subst q. split; [apply Qcle_refl | reflexivity].
  - right. split; [now apply Qclt_alt | reflexivity].
  - left. split; [apply Qclt_le_weak; now apply Qcgt_alt | reflexivity].
Qed.

(** X8.  A growth figure of at most 200 in absolute value comes out of
    [normPercent] as a ratio of at most 2 in absolute value: above 2 it is
    read as a percentage and divided by 100, up to 2 it is kept.  The
    result is kept when it is passed through again. *)
Theorem normPercent_ratio (n : Qc) :
  (Qcabs n <= Q2Qc 200)%Qc ->
  exists r,
    normPercent (Some (Fin n)) = Some (Fin r)
    /\ (Qcabs r <= Q2Qc 2)%Qc
    /\ (r = n \/ r = (n / Q2Qc 100)%Qc)
    /\ normPercent (Some (Fin r)) = Some (Fin r).
Proof.
  intros Hn.
  assert (Hfix : forall r, (Qcabs r <= Q2Qc 2)%Qc ->
                           normPercent (Some (Fin r)) = Some (Fin r)).
  { intros r Hr. unfold normPercent. cbn [Number_isFinite negb].
    rewrite Math_abs_Fin. unfold dec.
    rewrite (proj2 (ngtb_Fin_false _ _) Hr). reflexivity. }
  destruct (Qclt_le_dec (Q2Qc 2) (Qcabs n)) as [Hbig | Hsmall].
  - exists (n / Q2Qc 100)%Qc.
    assert (Hr : (Qcabs (n / Q2Qc 100) <= Q2Qc 2)%Qc).
    { destruct (Qcabs_cases n) as [[Hs E] | [Hs E]];
        destruct (Qcabs_cases (n / Q2Qc 100)) as [[Hs' E'] | [Hs' E']];
        rewrite E in *; rewrite E'; clear E E'; qc_to_q;
        unfold Qdiv in *; 
        change (/ 100)%Q with (1 # 100)%Q in *; lra. }
    split; [| split; [exact Hr | split; [now right | now apply Hfix]]].
    unfold normPercent. cbn [Number_isFinite negb].
    rewrite Math_abs_Fin. unfold dec.
    rewrite (proj2 (ngtb_Fin _ _) Hbig).
    rewrite ndiv_Fin; [reflexivity | now apply Qc_neq_by_value].
  - exists n. split; [now apply Hfix | split; [exact Hsmall | split; [now left | now apply Hfix]]].
Qed.

Lemma normPercent_ratio_witness :
  (Qcabs (Q2Qc 12.5) <= Q2Qc 200)%Qc
  /\ exists r,
       normPercent (Some (Fin (Q2Qc 12.5))) = Some (Fin r)
       /\ (Qcabs r <= Q2Qc 2)%Qc.
Proof.
  assert (H : (Qcabs (Q2Qc 12.5) <= Q2Qc 200)%Qc) by (vm_compute; discriminate).
  split; [exact H |].
  destruct (normPercent_ratio (Q2Qc 12.5) H) as (r & E & Hr & _).
  exists r. split; assumption.
Defined.

(** ** The cost of capital *)

Lemma nleb_Fin (a b : Qc) : (Fin a <=? Fin b)%js = true <-> (a <= b)%Qc.
Proof. apply nle_Fin. Qed.

Lemma ngeb_Fin (a b : Qc) : (Fin a >=? Fin b)%js = true <-> (b <= a)%Qc.
Proof. unfold ngeb. apply nle_Fin. Qed.

Lemma neqb_Fin_false (a b : Qc) : a <> b -> (Fin a === Fin b)%js = false.
Proof.
  intros Hne. unfold neqb, ncompare.
  destruct (a ?= b)%Qc eqn:E; try reflexivity.
  apply Qceq_alt in E. contradiction.
Qed.

(** The value pair of [calculateWacc] on finite inputs with a positive
    market value of equity and no negative debt, for the cost of debt
    [kd] that the function retains. *)
Lemma calculateWacc_finite (data : FinancialData.t) (a : ValuationAssumptions)
    (price shares debt interest rf erp b kd0 : Qc) :
  wacc_inputs data a price shares debt interest rf erp b kd0 ->
  (Q2Qc 0 < price * shares)%Qc ->
  (Q2Qc 0 <= debt)%Qc ->
  exists kd,
    (kd = kd0
     \/ ((Q2Qc 0 < debt)%Qc /\ (Q2Qc 0 < interest)%Qc /\ kd = (interest / debt)%Qc
         /\ (Q2Qc 0.01 <= kd)%Qc /\ (kd <= Q2Qc 0.60)%Qc))
    /\ calculateWacc data a
       = (Fin ((rf + b * erp) * (price * shares) / (price * shares + debt)
               + kd * (1 - Q2Qc 0.34) * debt / (price * shares + debt)),
          Fin (rf + b * erp)).
Proof.
  intros (Hp & Hs & Hd & Hi & Hrf & Herp & Hb & Hkd) HE HD.
  assert (HV : (price * shares + debt)%Qc <> Q2Qc 0) by (qc_to_q; lra).
  assert (Htail : forall kd,
    (if ((Fin (price * shares) + Fin debt) === Fin (Q2Qc 0))%js
     then (Fin (rf + b * erp), Fin (rf + b * erp))
     else ((Fin (rf + b * erp) * Fin (price * shares) / (Fin (price * shares) + Fin debt)
            + Fin kd * (Fin (Q2Qc 1) - Fin (Q2Qc 0.34)) * Fin debt
              / (Fin (price * shares) + Fin debt))%js,
           Fin (rf + b * erp)))
    = (Fin ((rf + b * erp) * (price * shares) / (price * shares + debt)
            + kd * (1 - Q2Qc 0.34) * debt / (price * shares + debt)),
       Fin (rf + b * erp))).
  { intros kd.
    rewrite nadd_Fin, (neqb_Fin_false _ _ HV).
    rewrite nsub_Fin, !nmul_Fin, !(ndiv_Fin _ _ HV), nadd_Fin. reflexivity. }
  unfold calculateWacc. rewrite Hp, Hs, Hd, Hi, Hrf, Herp, Hb, Hkd.
  unfold zero, dec. rewrite !nmul_Fin, nadd_Fin.
  destruct (Fin debt >? Fin (Q2Qc 0))%js eqn:Ed; cbn [andb];
    [destruct (Fin interest >? Fin (Q2Qc 0))%js eqn:Ei |].
  - apply ngtb_Fin in Ed, Ei.
    rewrite (ndiv_Fin interest debt (pos_neq_0 _ Ed)).
    destruct ((Fin (interest / debt) >=? Fin (Q2Qc 0.01))%js
              && (Fin (interest / debt) <=? Fin (Q2Qc 0.60))%js) eqn:Eband.
    + apply andb_prop in Eband as [E1 E2].
      apply ngeb_Fin in E1. apply nleb_Fin in E2.
      exists (interest / debt)%Qc. split; [right; auto 10 | apply Htail].
    + exists kd0. split; [now left | apply Htail].
  - exists kd0. split; [now left | apply Htail].
  - exists kd0. split; [now left | apply Htail].
Qed.

Lemma mix_between (ke kn e d : Qc) :
  (Q2Qc 0 < e)%Qc -> (Q2Qc 0 <= d)%Qc -> (kn <= ke)%Qc ->
  (kn <= ke * e / (e + d) + kn * d / (e + d))%Qc
  /\ (ke * e / (e + d) + kn * d / (e + d) <= ke)%Qc.
Proof.
  intros He Hd Hk. qc_to_q.
  set (e' := this e) in *. set (d' := this d) in *.
  set (k := this ke) in *. set (n := this kn) in *.
  assert (Hv : (0 < e' + d')%Q) by lra.
  assert (E1 : (k * e' / (e' + d') + n * d' / (e' + d')
                == n + (k - n) * (e' / (e' + d')))%Q) by (field; lra).
  assert (Hlo : (0 <= e' / (e' + d'))%Q) by (apply Qle_shift_div_l; lra).
  assert (Hhi : (e' / (e' + d') <= 1)%Q) by (apply Qle_shift_div_r; lra).
  rewrite E1. split; nra.
Qed.

Lemma mix_between_swapped (ke kn e d : Qc) :
  (Q2Qc 0 < e)%Qc -> (Q2Qc 0 <= d)%Qc -> (ke <= kn)%Qc ->
  (ke <= ke * e / (e + d) + kn * d / (e + d))%Qc
  /\ (ke * e / (e + d) + kn * d / (e + d) <= kn)%Qc.
Proof.
  intros He Hd Hk. qc_to_q.
  set (e' := this e) in *. set (d' := this d) in *.
  set (k := this ke) in *. set (n := this kn) in *.
  assert (Hv : (0 < e' + d')%Q) by lra.
  assert (E1 : (k * e' / (e' + d') + n * d' / (e' + d')
                == n + (k - n) * (e' / (e' + d')))%Q) by (field; lra).
  assert (Hlo : (0 <= e' / (e' + d'))%Q) by (apply Qle_shift_div_l; lra).
  assert (Hhi : (e' / (e' + d') <= 1)%Q) by (apply Qle_shift_div_r; lra).
  rewrite E1. split; nra.
Qed.

(** X9.  Without rounding: with no debt (and finite inputs, a market
    value of equity that is not zero), the formula of [calculateWacc]
    gives the cost of equity, risk-free rate plus beta times the equity
    risk premium, as the WACC.  The program computes [ke * E / V] with
    two roundings, which can leave its WACC one step away from its cost
    of equity ([binary64_wacc_without_debt]). *)
Theorem wacc_without_debt (data : FinancialData.t) (a : ValuationAssumptions)
    (price shares interest rf erp b kd0 : Qc) :
  wacc_inputs data a price shares (Q2Qc 0) interest rf erp b kd0 ->
  (price * shares)%Qc <> Q2Qc 0 ->
  calculateWacc data a = (Fin (rf + b * erp), Fin (rf + b * erp)).
Proof.
  intros (Hp & Hs & Hd & Hi & Hrf & Herp & Hb & Hkd) HE.
  assert (HV : (price * shares + Q2Qc 0)%Qc <> Q2Qc 0) by (now rewrite Qcplus_0_r).
  unfold calculateWacc. rewrite Hp, Hs, Hd, Hi, Hrf, Herp, Hb, Hkd.
  change (Fin (Q2Qc 0) >? zero)%js with false. cbn [andb].
  unfold zero, dec.
  rewrite !nmul_Fin, !nadd_Fin, (neqb_Fin_false _ _ HV).
  rewrite nsub_Fin, !nmul_Fin, !(ndiv_Fin _ _ HV), nadd_Fin.
  f_equal. f_equal. field.
  split; intros E0; apply HE; rewrite E0; ring.
Qed.

Lemma wacc_without_debt_witness :
  wacc_inputs idle_company BASE_assumptions (Q2Qc 10) (Q2Qc 100) (Q2Qc 0) (Q2Qc 0)
    (Q2Qc 0.15) (Q2Qc 0.05) (Q2Qc 1.0) (Q2Qc 0.16)
  /\ calculateWacc idle_company BASE_assumptions
     = (Fin (Q2Qc 0.15 + Q2Qc 1.0 * Q2Qc 0.05), Fin (Q2Qc 0.15 + Q2Qc 1.0 * Q2Qc 0.05)).
Proof.
  assert (H : wacc_inputs idle_company BASE_assumptions (Q2Qc 10) (Q2Qc 100) (Q2Qc 0)
                (Q2Qc 0) (Q2Qc 0.15) (Q2Qc 0.05) (Q2Qc 1.0) (Q2Qc 0.16))
    by (repeat split; reflexivity).
  split; [exact H |].
  apply (wacc_without_debt idle_company BASE_assumptions _ _ _ _ _ _ _ H).
  apply Qc_neq_by_value. reflexivity.
Defined.

(** X10.  On finite inputs with a positive market value of equity and
    no negative debt, WACC lies between the after-tax cost of debt
    ([kd * (1 - 0.34)]) and the cost of equity.  The cost of debt [kd] is
    the implied rate, interest over debt, only when debt and interest are
    positive and the rate is within [0.01, 0.60]; otherwise it is the
    assumed one. *)
Theorem wacc_between_costs (data : FinancialData.t) (a : ValuationAssumptions)
    (price shares debt interest rf erp b kd0 : Qc) :
  wacc_inputs data a price shares debt interest rf erp b kd0 ->
  (Q2Qc 0 < price * shares)%Qc ->
  (Q2Qc 0 <= debt)%Qc ->
  exists kd w,
    (kd = kd0
     \/ ((Q2Qc 0 < debt)%Qc /\ (Q2Qc 0 < interest)%Qc /\ kd = (interest / debt)%Qc
         /\ (Q2Qc 0.01 <= kd)%Qc /\ (kd <= Q2Qc 0.60)%Qc))
    /\ calculateWacc data a = (Fin w, Fin (rf + b * erp))
    /\ (((kd * (1 - Q2Qc 0.34) <= w)%Qc /\ (w <= rf + b * erp)%Qc)
        \/ ((rf + b * erp <= w)%Qc /\ (w <= kd * (1 - Q2Qc 0.34))%Qc)).
Proof.
  intros Hin HE HD.
  destruct (calculateWacc_finite data a _ _ _ _ _ _ _ _ Hin HE HD) as (kd & Hkd & Hw).
  exists kd. eexists. split; [exact Hkd |]. split; [exact Hw |].
  destruct (Qclt_le_dec (rf + b * erp) (kd * (1 - Q2Qc 0.34))) as [Hlt | Hle].
  - right. apply Qclt_le_weak in Hlt.
    destruct (mix_between_swapped (rf + b * erp) (kd * (1 - Q2Qc 0.34))
                (price * shares) debt HE HD Hlt) as [H1 H2].
    split; assumption.
  - left. apply mix_between; assumption.
Qed.

Lemma wacc_between_costs_witness :
  wacc_inputs going_concern BASE_assumptions (Q2Qc 10) (Q2Qc 100) (Q2Qc 200) (Q2Qc 20)
    (Q2Qc 0.15) (Q2Qc 0.05) (Q2Qc 1.0) (Q2Qc 0.16)
  /\ exists w,
       calculateWacc going_concern BASE_assumptions
       = (Fin w, Fin (Q2Qc 0.15 + Q2Qc 1.0 * Q2Qc 0.05)).
Proof.
  assert (H : wacc_inputs going_concern BASE_assumptions (Q2Qc 10) (Q2Qc 100) (Q2Qc 200)
                (Q2Qc 20) (Q2Qc 0.15) (Q2Qc 0.05) (Q2Qc 1.0) (Q2Qc 0.16))
    by (repeat split; reflexivity).
  split; [exact H |].
  destruct (wacc_between_costs going_concern BASE_assumptions _ _ _ _ _ _ _ _ H)
    as (kd & w & _ & Hw & _); [reflexivity | vm_compute; discriminate |].
  exists w. exact Hw.
Defined.

(** ** The pricing functions on finite inputs *)

(** X11.  On finite inputs with WACC and the share count not zero, the
    EVA fair value does not depend on the invested capital: it is the
    NOPAT of EBIT grown twice, [ebit * (1 + gRev)^2 * 0.66], capitalised
    at WACC, less debt plus cash, per share, floored at 0. *)
Theorem calcEVA_closed_form (data : FinancialData.t)
    (ebit capital debt cash shares wacc gRev : Qc) :
  FinancialData.ebit data = Fin ebit ->
  FinancialData.investedCapital data = Fin capital ->
  FinancialData.debt data = Fin debt ->
  FinancialData.cashAndEquivalents data = Fin cash ->
  FinancialData.sharesOutstanding data = Fin shares ->
  shares <> Q2Qc 0 ->
  wacc <> Q2Qc 0 ->
  calcEVA data (Fin wacc) (Fin gRev)
  = Fin (Qcmax (Q2Qc 0)
           ((ebit * (1 + gRev) * (1 + gRev) * Q2Qc 0.66 / wacc - debt + cash) / shares)).
Proof.
  intros He Hc Hd Hca Hs Hs0 Hw.
  unfold calcEVA. rewrite He, Hc, Hd, Hca, Hs. unfold dec.
  repeat (rewrite ?nmul_Fin, ?nadd_Fin, ?nsub_Fin; rewrite ?ndiv_Fin by assumption).
  rewrite Math_max_zero_Fin. do 2 f_equal. field. split; assumption.
Qed.

Lemma calcEVA_closed_form_witness :
  Q2Qc 100 <> Q2Qc 0
  /\ calcEVA going_concern (Fin (Q2Qc 0.12)) (Fin (Q2Qc 0.05))
     = Fin (Qcmax (Q2Qc 0)
              ((Q2Qc 800 * (1 + Q2Qc 0.05) * (1 + Q2Qc 0.05) * Q2Qc 0.66 / Q2Qc 0.12
                - Q2Qc 200 + Q2Qc 100) / Q2Qc 100)).
Proof.
  assert (H : Q2Qc 100 <> Q2Qc 0) by (apply Qc_neq_by_value; reflexivity).
  split; [exact H |].
  apply (calcEVA_closed_form going_concern (Q2Qc 800) (Q2Qc 3000 + (Q2Qc 200 - Q2Qc 100)));
    [ reflexivity | reflexivity | reflexivity | reflexivity | reflexivity | exact H
    | apply Qc_neq_by_value; reflexivity ].
Defined.

Lemma nleb_Fin_false (a b : Qc) : (Fin a <=? Fin b)%js = false <-> (b < a)%Qc.
Proof.
  split; intros H.
  - apply Qcnot_le_lt. intros Hle. apply nleb_Fin in Hle. congruence.
  - destruct (Fin a <=? Fin b)%js eqn:E; [| reflexivity].
    apply nleb_Fin in E. now apply Qcle_not_lt in E.
Qed.

(** X12.  On finite earnings per share, cost of equity and growth,
    [calcGordon] is finite: 0 when the cost of equity does not exceed the
    growth, otherwise [EPS * (1 + g) / (ke - g)], which has the sign of
    the earnings when [g > -1]. *)
Theorem calcGordon_finite (data : FinancialData.t) (eps ke g : Qc) :
  FinancialData.currentEPS data = Fin eps ->
  ((ke <= g)%Qc /\ calcGordon data (Fin ke) (Fin g) = zero)
  \/ ((g < ke)%Qc
      /\ calcGordon data (Fin ke) (Fin g) = Fin (eps * (1 + g) / (ke - g))
      /\ ((Q2Qc 0 < 1 + g)%Qc -> (eps < Q2Qc 0)%Qc ->
          (eps * (1 + g) / (ke - g) < Q2Qc 0)%Qc)).
Proof.
  intros He. unfold calcGordon. rewrite He.
  destruct (Fin ke <=? Fin g)%js eqn:E.
  - left. split; [now apply nleb_Fin | reflexivity].
  - right. apply nleb_Fin_false in E.
    assert (Hd : (ke - g)%Qc <> Q2Qc 0) by (qc_to_q; lra).
    split; [exact E |]. split.
    + unfold dec. rewrite nadd_Fin, nmul_Fin, nsub_Fin, (ndiv_Fin _ _ Hd). reflexivity.
    + intros Hg Hneg. qc_to_q.
      set (e := this eps) in *. set (k := this ke) in *. set (g' := this g) in *.
      assert (Hnum : (e * (1 + g') < 0)%Q) by nra.
      apply Qlt_shift_div_r; lra.
Qed.

Lemma calcGordon_finite_witness :
  FinancialData.currentEPS loss_maker = Fin (Q2Qc (-10))
  /\ calcGordon loss_maker (Fin (Q2Qc 0.20)) (Fin (Q2Qc 0.05))
     = Fin (Q2Qc (-10) * (1 + Q2Qc 0.05) / (Q2Qc 0.20 - Q2Qc 0.05)).
Proof.
  split; [reflexivity |].
  destruct (calcGordon_finite loss_maker (Q2Qc (-10)) (Q2Qc 0.20) (Q2Qc 0.05) eq_refl)
    as [[Hle _] | [_ [E _]]].
  - exfalso. revert Hle. vm_compute. intros H. apply H. reflexivity.
  - exact E.
Defined.

Lemma Math_sqrt_Fin_nonneg (q : Qc) :
  (Q2Qc 0 <= q)%Qc ->
  exists r, Math_sqrt (Fin q) = Fin r /\ (Q2Qc 0 <= r)%Qc.
Proof.
  intros Hq. cbn [Math_sqrt].
  assert (Hr : (Q2Qc 0 <= Q2Qc (Qsqrt (this q)))%Qc).
  { unfold Qcle. rewrite !this_Q2Qc. apply Qsqrt_nonneg. }
  destruct (sgn q) eqn:E; eauto.
  exfalso. assert (Hlt : (q < Q2Qc 0)%Qc) by (now apply sgn_Lt).
  now apply Qcle_not_lt in Hq.
Qed.

(** X13.  On finite earnings per share, equity and share count,
    [calcGraham] is a finite number, at least 0, and it is 0 whenever the
    earnings per share, the equity or the share count is at most 0. *)
Theorem calcGraham_finite (data : FinancialData.t) (eps equity shares : Qc) :
  FinancialData.currentEPS data = Fin eps ->
  FinancialData.equity data = Fin equity ->
  FinancialData.sharesOutstanding data = Fin shares ->
  (exists r, calcGraham data = Fin r /\ (Q2Qc 0 <= r)%Qc)
  /\ ((eps <= Q2Qc 0)%Qc \/ (equity <= Q2Qc 0)%Qc \/ (shares <= Q2Qc 0)%Qc ->
      calcGraham data = zero).
Proof.
  intros He Hq Hs. unfold calcGraham. rewrite He, Hq, Hs. unfold zero, dec.
  destruct (Fin shares >? Fin (Q2Qc 0))%js eqn:Es.
  - apply ngtb_Fin in Es.
    rewrite (ndiv_Fin _ _ (pos_neq_0 _ Es)).
    destruct (Fin eps <=? Fin (Q2Qc 0))%js eqn:E1; cbn [orb].
    + split; [exists (Q2Qc 0); split; [reflexivity | apply Qcle_refl] | reflexivity].
    + destruct (Fin (equity / shares) <=? Fin (Q2Qc 0))%js eqn:E2.
      * split; [exists (Q2Qc 0); split; [reflexivity | apply Qcle_refl] | reflexivity].
      * apply nleb_Fin_false in E1, E2. split.
        -- rewrite !nmul_Fin. apply Math_sqrt_Fin_nonneg.
           qc_to_q. set (e := this eps) in *. set (v := (this equity / this shares)%Q) in *.
           nra.
        -- intros [H | [H | H]]; exfalso.
           ++ now apply Qcle_not_lt in H.
           ++ assert (Hv : (equity / shares <= Q2Qc 0)%Qc).
              { qc_to_q. apply Qle_shift_div_r; lra. }
              now apply Qcle_not_lt in Hv.
           ++ now apply Qcle_not_lt in H.
  - destruct (Fin eps <=? Fin (Q2Qc 0))%js; cbn [orb];
      (split; [exists (Q2Qc 0); split; [reflexivity | apply Qcle_refl] | reflexivity]).
Qed.

Lemma calcGraham_finite_witness :
  FinancialData.currentEPS loss_maker = Fin (Q2Qc (-10))
  /\ calcGraham loss_maker = zero.
Proof.
  split; [reflexivity |].
  apply (proj2 (calcGraham_finite loss_maker (Q2Qc (-10)) (Q2Qc 500) (Q2Qc 100)
                  eq_refl eq_refl eq_refl)).
  left. vm_compute. discriminate.
Defined.

Lemma not_negative (x : number) : x = NaN \/ nle zero x -> (x <? zero)%js = false.
Proof.
  intros [-> | H]; [reflexivity |].
  destruct x as [q | | |]; try reflexivity; try discriminate.
  unfold zero, dec in *. apply nle_Fin in H.
  destruct (Fin q <? Fin (Q2Qc 0))%js eqn:E; [| reflexivity].
  change (nlt (Fin q) (Fin (Q2Qc 0))) in E. apply nlt_Fin in E.
  now apply Qcle_not_lt in H.
Qed.

(** X14.  Whatever the inputs, the comparison [x < 0] is false for the
    value [x] of [calcDCF], of [calcEVA] and of [calcGraham]: the first
    two are floored by [Math.max(0, ...)], the third is a square root or
    0. *)
Theorem floored_methods_not_negative (data : FinancialData.t)
    (wacc gPerp gRev : number) :
  (calcDCF data wacc gPerp gRev <? zero)%js = false
  /\ (calcEVA data wacc gRev <? zero)%js = false
  /\ (calcGraham data <? zero)%js = false.
Proof.
  repeat split; apply not_negative.
  - apply calcDCF_floor.
  - apply calcEVA_floor.
  - apply calcGraham_floor.
Qed.

(** ** Amounts in another unit *)

Lemma inf_of_sign_scale (s : comparison) (c : Qc) :
  (Q2Qc 0 < c)%Qc -> (inf_of_sign s * Fin c)%js = inf_of_sign s.
Proof.
  intros Hc. pose proof (proj2 (sgn_Gt c) Hc) as Hs.
  destruct s; simpl; rewrite ?Hs; reflexivity.
Qed.

Lemma nmul_scale_l (x y : number) (c : Qc) :
  (Q2Qc 0 < c)%Qc -> (x * Fin c * y)%js = (x * y * Fin c)%js.
Proof.
  intros Hc. pose proof (proj2 (sgn_Gt c) Hc) as Hs.
  destruct x as [a | | |], y as [b | | |]; simpl;
    rewrite ?Hs, ?(sgn_mul_pos_r _ _ Hc); simpl;
    rewrite ?(inf_of_sign_scale _ _ Hc); try reflexivity;
    try (f_equal; ring);
    try (destruct (sgn b); simpl; rewrite ?Hs; reflexivity).
Qed.

Lemma ndiv_scale_l (x y : number) (c : Qc) :
  (Q2Qc 0 < c)%Qc -> (x * Fin c / y)%js = (x / y * Fin c)%js.
Proof.
  intros Hc. pose proof (proj2 (sgn_Gt c) Hc) as Hs.
  destruct x as [a | | |], y as [b | | |]; simpl; rewrite ?Hs; simpl; try reflexivity;
    try (f_equal; ring);
    try (destruct (sgn b); simpl; rewrite ?Hs; reflexivity).
  destruct (sgn b) eqn:Eb; simpl.
  - rewrite (sgn_mul_pos_r _ _ Hc). destruct (sgn a); simpl; rewrite ?Hs; reflexivity.
  - f_equal. field. intros E0. apply sgn_Eq in E0. congruence.
  - f_equal. field. intros E0. apply sgn_Eq in E0. congruence.
Qed.

Lemma nneg_scale (x : number) (c : Qc) :
  (Q2Qc 0 < c)%Qc -> nneg (x * Fin c)%js = (nneg x * Fin c)%js.
Proof.
  intros Hc. pose proof (proj2 (sgn_Gt c) Hc) as Hs.
  destruct x; simpl; rewrite ?Hs; simpl; try reflexivity.
  f_equal. ring.
Qed.

Lemma nsub_scale (x y : number) (c : Qc) :
  (Q2Qc 0 < c)%Qc -> (x * Fin c - y * Fin c)%js = ((x - y) * Fin c)%js.
Proof.
  intros Hc. unfold nsub. rewrite (nneg_scale _ _ Hc). now apply nadd_scale.
Qed.

Lemma zero_compare_scale (a c : Qc) :
  (Q2Qc 0 < c)%Qc -> (Q2Qc 0 ?= a * c)%Qc = (Q2Qc 0 ?= a)%Qc.
Proof.
  intros Hc.
  destruct (Qc_dec a (Q2Qc 0)) as [[Hlt | Hgt] | Heq].
  - assert (H : (a * c < Q2Qc 0)%Qc).
    { apply (Qcmult_lt_compat_r _ _ _ Hc) in Hlt. now rewrite Qcmult_0_l in Hlt. }
    apply (proj1 (Qcgt_alt _ _)) in H. apply (proj1 (Qcgt_alt _ _)) in Hlt. congruence.
  - assert (H : (Q2Qc 0 < a * c)%Qc).
    { apply (Qcmult_lt_compat_r _ _ _ Hc) in Hgt. now rewrite Qcmult_0_l in Hgt. }
    apply (proj1 (Qclt_alt _ _)) in H. apply (proj1 (Qclt_alt _ _)) in Hgt. congruence.
  - subst a. rewrite Qcmult_0_l. reflexivity.
Qed.

Lemma Math_max_zero_scale (x : number) (c : Qc) :
  (Q2Qc 0 < c)%Qc ->
  Math_max [zero; (x * Fin c)%js] = (Math_max [zero; x] * Fin c)%js.
Proof.
  intros Hc. pose proof (proj2 (sgn_Gt c) Hc) as Hs.
  unfold Math_max. cbn [fold_left]. change (max2 NInf zero) with zero.
  destruct x as [a | | |]; [| simpl; rewrite ?Hs; simpl ..].
  - rewrite nmul_Fin. unfold max2, zero, dec, ncompare.
    rewrite (zero_compare_scale a c Hc).
    destruct (Q2Qc 0 ?= a)%Qc; rewrite nmul_Fin;
      (reflexivity || (f_equal; ring)).
  - reflexivity.
  - change (max2 zero NInf) with (Fin (Q2Qc 0)). f_equal. ring.
  - reflexivity.
Qed.

Lemma dcf_loop_scale (wacc gRev : number) (c : Qc) (years : list nat) :
  (Q2Qc 0 < c)%Qc ->
  forall cur pv,
    fold_left (dcf_step wacc gRev) years ((cur * Fin c)%js, (pv * Fin c)%js)
    = (fst (fold_left (dcf_step wacc gRev) years (cur, pv)) * Fin c,
       snd (fold_left (dcf_step wacc gRev) years (cur, pv)) * Fin c)%js.
Proof.
  intros Hc. induction years as [| i years IH]; intros cur pv; [reflexivity |].
  cbn [fold_left dcf_step].
  rewrite (nmul_scale_l _ _ _ Hc), (ndiv_scale_l _ _ _ Hc), (nadd_scale _ _ _ Hc).
  apply IH.
Qed.

(** X15.  A snapshot whose free cash flow, cash and debt are those of
    another multiplied by a positive constant, with the same share count,
    has the DCF fair value of the other multiplied by that constant:
    stating the amounts in another unit rescales the result and nothing
    else, for every input, finite or not. *)
Theorem calcDCF_unit (data data' : FinancialData.t) (c : Qc)
    (wacc gPerp gRev : number) :
  (Q2Qc 0 < c)%Qc ->
  FinancialData.freeCashFlow data' = (FinancialData.freeCashFlow data * Fin c)%js ->
  FinancialData.cashAndEquivalents data'
  = (FinancialData.cashAndEquivalents data * Fin c)%js ->
  FinancialData.debt data' = (FinancialData.debt data * Fin c)%js ->
  FinancialData.sharesOutstanding data' = FinancialData.sharesOutstanding data ->
  calcDCF data' wacc gPerp gRev = (calcDCF data wacc gPerp gRev * Fin c)%js.
Proof.
  intros Hc Hf Hca Hd Hs. unfold calcDCF. rewrite Hf, Hca, Hd, Hs.
  rewrite (nmul_scale_l _ _ _ Hc).
  rewrite <- (nmul_zero_Fin c) at 1.
  rewrite (dcf_loop_scale wacc gRev c (seq 1 5) Hc).
  destruct (fold_left (dcf_step wacc gRev) (seq 1 5) _) as [cur pv]. cbn [fst snd].
  rewrite (nmul_scale_l _ _ _ Hc), !(ndiv_scale_l _ _ _ Hc), !(nadd_scale _ _ _ Hc).
  rewrite (nsub_scale _ _ _ Hc), (ndiv_scale_l _ _ _ Hc).
  apply Math_max_zero_scale, Hc.
Qed.

(** Amounts in thousands against amounts in units. *)
Lemma calcDCF_unit_witness :
  (Q2Qc 0 < Q2Qc 1000)%Qc
  /\ calcDCF dcf_example (dec 0.12) (dec 0.05) (dec 0.05)
     = (calcDCF (snapshot_of 10 100000 1000 0 0 0 0 0 0 0) (dec 0.12) (dec 0.05)
          (dec 0.05) * Fin (Q2Qc 1000))%js.
Proof.
  split; [reflexivity |].
  apply calcDCF_unit; [reflexivity | | | | reflexivity];
    apply same_value_eq; vm_compute; reflexivity.
Defined.

(** ** The consensus *)

Lemma finite_number (x : number) : Number_isFinite x = true -> exists q, x = Fin q.
Proof. destruct x; try discriminate. eauto. Qed.

(** X16.  With finite weights whose sum is not zero, the normalized
    weights of the five results add up to 1. *)
Theorem normalized_weights_sum (data : FinancialData.t) (a : ValuationAssumptions)
    (d g e m gr : Qc) :
  (d + g + e + m + gr)%Qc <> Q2Qc 0 ->
  nsum (map ValuationResult.weight
          (ComprehensiveValuation.results
             (performValuation data a (Some (weights_of d g e m gr)))))
  = dec 1.
Proof.
  intros HW. unfold performValuation. destruct (calculateWacc data a) as [wacc ke].
  cbn [ComprehensiveValuation.results nullish weights_of DCF GORDON EVA MULTIPLES GRAHAM
       map ValuationResult.weight].
  rewrite !nadd_Fin, !(ndiv_Fin _ _ HW).
  unfold nsum, zero, dec. cbn [fold_left]. rewrite !nadd_Fin.
  f_equal. field. exact HW.
Qed.

Lemma normalized_weights_sum_witness :
  (Q2Qc 0.50 + Q2Qc 0.0 + Q2Qc 0.20 + Q2Qc 0.20 + Q2Qc 0.10)%Qc <> Q2Qc 0
  /\ nsum (map ValuationResult.weight
             (ComprehensiveValuation.results
                (performValuation going_concern BASE_assumptions
                   (Some DEFAULT_WEIGHTS.GROWTH))))
     = dec 1.
Proof.
  assert (H : (Q2Qc 0.50 + Q2Qc 0.0 + Q2Qc 0.20 + Q2Qc 0.20 + Q2Qc 0.10)%Qc <> Q2Qc 0)
    by (apply Qc_neq_by_value; reflexivity).
  split; [exact H |].
  exact (normalized_weights_sum going_concern BASE_assumptions _ _ _ _ _ H).
Defined.

(** X17.  When the five fair values are finite (and the weights finite
    with a sum that is not zero), the weighted fair value is the sum over
    the results of fair value times normalized weight. *)
Theorem weighted_is_sum_of_results (data : FinancialData.t) (a : ValuationAssumptions)
    (d g e m gr : Qc) :
  let v := performValuation data a (Some (weights_of d g e m gr)) in
  (d + g + e + m + gr)%Qc <> Q2Qc 0 ->
  Forall (fun x => Number_isFinite x = true) (fair_values v) ->
  ComprehensiveValuation.weightedFairValue v
  = nsum (map (fun r => (ValuationResult.fairValue r * ValuationResult.weight r)%js)
            (ComprehensiveValuation.results v)).
Proof.
  intros v HW Hfin. subst v. revert Hfin.
  unfold fair_values, performValuation. destruct (calculateWacc data a) as [wacc ke].
  cbn [ComprehensiveValuation.results ComprehensiveValuation.weightedFairValue
       nullish weights_of DCF GORDON EVA MULTIPLES GRAHAM
       map ValuationResult.weight ValuationResult.fairValue].
  intros Hfin.
  repeat match goal with
         | H : Forall _ (_ :: _) |- _ =>
             let Hx := fresh "Hx" in
             let Hl := fresh "Hl" in
             inversion H as [| ? ? Hx Hl]; subst; clear H;
             apply finite_number in Hx as [? Hx]; rewrite Hx
         end.
  rewrite !nadd_Fin, !(ndiv_Fin _ _ HW), !nmul_Fin, !nadd_Fin, (ndiv_Fin _ _ HW).
  unfold nsum, zero, dec. cbn [fold_left]. rewrite !nadd_Fin.
  f_equal. field. exact HW.
Qed.

Lemma all_finite (l : list number) :
  forallb Number_isFinite l = true -> Forall (fun x => Number_isFinite x = true) l.
Proof. intros H. apply Forall_forall. now apply forallb_forall. Qed.

Lemma weighted_is_sum_of_results_witness :
  let v := performValuation going_concern BASE_assumptions (Some DEFAULT_WEIGHTS.MATURE) in
  (Q2Qc 0.40 + Q2Qc 0.10 + Q2Qc 0.15 + Q2Qc 0.15 + Q2Qc 0.20)%Qc <> Q2Qc 0
  /\ Forall (fun x => Number_isFinite x = true) (fair_values v)
  /\ ComprehensiveValuation.weightedFairValue v
     = nsum (map (fun r => (ValuationResult.fairValue r * ValuationResult.weight r)%js)
               (ComprehensiveValuation.results v)).
Proof.
  intros v.
  assert (H : (Q2Qc 0.40 + Q2Qc 0.10 + Q2Qc 0.15 + Q2Qc 0.15 + Q2Qc 0.20)%Qc <> Q2Qc 0)
    by (apply Qc_neq_by_value; reflexivity).
  assert (Hf : Forall (fun x => Number_isFinite x = true) (fair_values v))
    by (apply all_finite; vm_compute; reflexivity).
  split; [exact H |]. split; [exact Hf |].
  exact (weighted_is_sum_of_results going_concern BASE_assumptions _ _ _ _ _ H Hf).
Defined.

(** X18.  A method of weight 0 whose fair value is finite leaves the
    weighted fair value as it would be without it: with the Gordon weight
    at 0 (as in the GROWTH and DISTRESS profiles), the weighted fair value
    is the weighted sum of the four other fair values over the sum of
    their weights. *)
Theorem zero_weight_excludes (data : FinancialData.t) (a : ValuationAssumptions)
    (d e m gr gordon : Qc) :
  let v := performValuation data a (Some (weights_of d (Q2Qc 0) e m gr)) in
  nth_error (fair_values v) 1 = Some (Fin gordon) ->
  ComprehensiveValuation.weightedFairValue v
  = ((nth 0 (fair_values v) NaN * Fin d + nth 2 (fair_values v) NaN * Fin e
      + nth 3 (fair_values v) NaN * Fin m + nth 4 (fair_values v) NaN * Fin gr)
     / Fin (d + e + m + gr))%js.
Proof.
  intros v. subst v.
  unfold fair_values, performValuation. destruct (calculateWacc data a) as [wacc ke].
  cbn [ComprehensiveValuation.results ComprehensiveValuation.weightedFairValue
       nullish weights_of DCF GORDON EVA MULTIPLES GRAHAM
       map ValuationResult.fairValue nth nth_error].
  intros Hg. injection Hg as Hg. rewrite Hg.
  rewrite nmul_Fin, Qcmult_0_r. fold zero. rewrite nadd_zero_r.
  rewrite !nadd_Fin. do 2 f_equal. ring.
Qed.

Lemma zero_weight_excludes_witness :
  let v := performValuation going_concern BASE_assumptions (Some DEFAULT_WEIGHTS.GROWTH) in
  nth_error (fair_values v) 1 = Some (Fin (Q2Qc 42))
  /\ ComprehensiveValuation.weightedFairValue v
     = ((nth 0 (fair_values v) NaN * Fin (Q2Qc 0.50)
         + nth 2 (fair_values v) NaN * Fin (Q2Qc 0.20)
         + nth 3 (fair_values v) NaN * Fin (Q2Qc 0.20)
         + nth 4 (fair_values v) NaN * Fin (Q2Qc 0.10))
        / Fin (Q2Qc 0.50 + Q2Qc 0.20 + Q2Qc 0.20 + Q2Qc 0.10))%js.
Proof.
  intros v.
  assert (H : nth_error (fair_values v) 1 = Some (Fin (Q2Qc 42))).
  { subst v. rewrite performValuation_fair_values. cbn [nth_error].
    f_equal. apply same_value_eq. vm_compute. reflexivity. }
  split; [exact H |].
  exact (zero_weight_excludes going_concern BASE_assumptions _ _ _ _ _ H).
Defined.

(** ** The generated page *)

Lemma BASE_cost_of_equity (data : FinancialData.t) :
  snd (calculateWacc data BASE_assumptions) = dec 0.20.
Proof.
  unfold calculateWacc.
  assert (E : (riskFreeRate BASE_assumptions
               + beta BASE_assumptions * equityRiskPremium BASE_assumptions)%js
              = dec 0.20) by (apply same_value_eq; vm_compute; reflexivity).
  rewrite E. destruct (_ === _)%js; reflexivity.
Qed.

Lemma BASE_cost_of_equity_binary64 (data : FinancialData.t) :
  snd (Binary64.calculateWacc data BASE_assumptions) = Binary64.lit 0.20.
Proof.
  unfold Binary64.calculateWacc.
  assert (E : Binary64.add (Binary64.of_number (riskFreeRate BASE_assumptions))
                (Binary64.mul (Binary64.of_number (beta BASE_assumptions))
                   (Binary64.of_number (equityRiskPremium BASE_assumptions)))
              = Binary64.lit 0.20) by (vm_compute; reflexivity).
  rewrite E. destruct (Binary64.eqb _ _); reflexivity.
Qed.

(** X19.  [generatePage] values every company at the cost of equity
    0.20, the BASE assumptions with their beta of 1.0: the beta kept in
    the snapshot is not read.  This holds without rounding and in
    binary64, where the sum [0.15 + 1.0 * 0.05] is the double 0.2.
    Without rounding, with the BASE growth of 0.05, the Gordon fair value
    of a page is 7 times the earnings per share, when these are finite;
    the program rounds three times on the way (6.999999999999999 for
    earnings of 1 per share). *)
Theorem page_cost_of_equity (data : FinancialData.t) (w : option ValuationWeights)
    (eps : Qc) :
  FinancialData.currentEPS data = Fin eps ->
  snd (calculateWacc data BASE_assumptions) = dec 0.20
  /\ snd (Binary64.calculateWacc data BASE_assumptions) = Binary64.lit 0.20
  /\ nth_error (fair_values (performValuation data BASE_assumptions w)) 1
     = Some (Fin (Q2Qc 7 * eps)).
Proof.
  intros He. split; [apply BASE_cost_of_equity |].
  split; [apply BASE_cost_of_equity_binary64 |].
  rewrite performValuation_fair_values. cbn [nth_error]. f_equal.
  rewrite BASE_cost_of_equity. unfold calcGordon. rewrite He.
  change (perpetualGrowth BASE_assumptions) with (dec 0.05).
  change (dec 0.20 <=? dec 0.05)%js with false. cbv iota.
  unfold dec. rewrite nadd_Fin, nmul_Fin, nsub_Fin.
  rewrite ndiv_Fin by (apply Qc_neq_by_value; reflexivity).
  f_equal. apply Qc_is_canon. rewrite this_div, !this_mult, this_minus, this_plus.
  rewrite !this_Q2Qc. field.
Qed.

Lemma page_cost_of_equity_witness :
  FinancialData.currentEPS going_concern = Fin (Q2Qc 6)
  /\ nth_error (fair_values (performValuation going_concern BASE_assumptions None)) 1
     = Some (Fin (Q2Qc 7 * Q2Qc 6)).
Proof.
  split; [reflexivity |].
  exact (proj2 (proj2 (page_cost_of_equity going_concern None (Q2Qc 6) eq_refl))).
Defined.

Lemma build_snapshot_price_truthy (h : Host) (now : number) (t : string)
    (q : Brapi.row) (inc : list Income.row) (bal : list Balance.row)
    (cf : list CashFlow.row) (divs : list Dividend.row) :
  truthy (FinancialData.price (build_snapshot h now t q inc bal cf divs)) = true.
Proof.
  unfold build_snapshot.
  destruct (or_latest h (nth_error (yearly_sorted h Income.period inc) 0) inc)
    as [baseIncome inc'].
  destruct (or_latest h _ bal) as [baseBalance bal'].
  destruct (or_latest h _ cf) as [baseCF cf'].
  cbn [FinancialData.price]. apply or_num_truthy. reflexivity.
Qed.

Lemma performValuation_upside (data : FinancialData.t) (a : ValuationAssumptions)
    (w : option ValuationWeights) :
  ComprehensiveValuation.totalUpside (performValuation data a w)
  = (ComprehensiveValuation.weightedFairValue (performValuation data a w)
     / FinancialData.price data - dec 1)%js
  /\ ComprehensiveValuation.currentPrice (performValuation data a w)
     = FinancialData.price data.
Proof.
  unfold performValuation. destruct (calculateWacc data a) as [wacc ke].
  split; reflexivity.
Qed.

Lemma finite_over_truthy (x p : Qc) (price : number) :
  truthy price = true -> exists u, (Fin x / price - dec 1)%js = Fin u.
Proof.
  destruct price as [q | | |]; cbn [truthy]; try discriminate.
  - intros H. assert (Hq : q <> Q2Qc 0).
    { intros E. apply sgn_Eq in E. rewrite E in H. discriminate. }
    unfold dec. rewrite (ndiv_Fin _ _ Hq), nsub_Fin. eauto.
  - intros _. eexists. reflexivity.
  - intros _. eexists. reflexivity.
Qed.

(** X20.  A page is rendered only from a snapshot that
    [getFinancialData] produced and its valuation under the BASE
    assumptions and default weights, and only when the weighted fair value
    is finite and not zero; the total upside shown is then finite as
    well.  A negative weighted fair value passes the test. *)
Theorem generatePage_gate (h : Host) (now : number)
    (fetchFinancials : string -> option SupabaseFinancials) (ticker : string)
    (data : FinancialData.t) (val : ComprehensiveValuation.t) :
  generatePage h now fetchFinancials ticker = Some (data, val) ->
  getFinancialData h now fetchFinancials ticker = inr data
  /\ val = performValuation data BASE_assumptions None
  /\ (exists wfv, ComprehensiveValuation.weightedFairValue val = Fin wfv
                  /\ wfv <> Q2Qc 0)
  /\ (exists u, ComprehensiveValuation.totalUpside val = Fin u).
Proof.
  unfold generatePage.
  destruct (getFinancialData h now fetchFinancials ticker) as [msg | fd] eqn:Eg;
    [discriminate |].
  destruct (negb (truthy _) || negb (Number_isFinite _)) eqn:Egate; [discriminate |].
  intros E. injection E as <- <-.
  apply orb_false_elim in Egate as [Et Ef].
  apply negb_false_iff in Et, Ef.
  split; [reflexivity |]. split; [reflexivity |].
  destruct (finite_number _ Ef) as [wfv Hw].
  split.
  - exists wfv. split; [exact Hw |]. rewrite Hw in Et. cbn [truthy] in Et.
    intros E0. apply sgn_Eq in E0. rewrite E0 in Et. discriminate.
  - rewrite (proj1 (performValuation_upside fd BASE_assumptions None)), Hw.
    apply (finite_over_truthy wfv wfv).
    revert Eg. unfold getFinancialData.
    destruct (fetchFinancials _) as [supa |]; [| discriminate].
    intros Eg. apply snapshot_of_rows_inr in Eg as (q & _ & ->).
    apply build_snapshot_price_truthy.
Qed.

(** The rows of a deep loss: the page is rendered with a negative
    weighted fair value. *)
Lemma generatePage_gate_witness :
  let data :=
    build_snapshot utc_host clock_day1 "LOSS3"
      (quote_row "LOSS3" (Some (dec 1000)) None None)
      (income deep_loss_rows) (balance deep_loss_rows) (cashFlow deep_loss_rows) [] in
  let val := performValuation data BASE_assumptions None in
  generatePage utc_host clock_day1 (fun _ => Some deep_loss_rows) "LOSS3"
  = Some (data, val)
  /\ (exists wfv, ComprehensiveValuation.weightedFairValue val = Fin wfv
                  /\ wfv <> Q2Qc 0)
  /\ (ComprehensiveValuation.weightedFairValue val <? zero)%js = true.
Proof.
  intros data val.
  assert (H : generatePage utc_host clock_day1 (fun _ => Some deep_loss_rows) "LOSS3"
              = Some (data, val)) by (vm_compute; reflexivity).
  split; [exact H |]. split.
  - exact (proj1 (proj2 (proj2 (generatePage_gate _ _ _ _ _ _ H)))).
  - vm_compute. reflexivity.
Defined.

(** ** The batches of [main] *)

Lemma record_results (page_ok : string -> bool) (batch : list string) :
  forall st,
    fold_left record_result (combine batch (map page_ok batch)) st
    = {| success := (success st + List.length (filter page_ok batch))%nat;
         failed := (failed st + List.length (filter (fun t => negb (page_ok t)) batch))%nat;
         generated := generated st ++ filter page_ok batch;
         sleeps := sleeps st |}.
Proof.
  induction batch as [| t batch IH]; intros st; cbn [map combine fold_left filter].
  - destruct st. cbn. rewrite !Nat.add_0_r, app_nil_r. reflexivity.
  - rewrite IH. unfold record_result. cbn [fst snd].
    destruct (page_ok t); cbn [negb success failed generated sleeps List.length].
    + rewrite <- app_assoc. cbn [app]. f_equal; lia.
    + f_equal; lia.
Qed.

Lemma filter_split_length {A : Type} (f : A -> bool) (l : list A) :
  (List.length (filter f l) + List.length (filter (fun x => negb (f x)) l))%nat
  = List.length l.
Proof.
  induction l as [| x l IH]; cbn [filter List.length]; [reflexivity |].
  destruct (f x); cbn [negb List.length]; lia.
Qed.

Lemma batch_loop_spec (page_ok : string -> bool) (tickers : list string) :
  forall fuel i st,
    (List.length tickers - i <= fuel)%nat ->
    batch_loop fuel page_ok tickers i st
    = Some {| success :=
                (success st + List.length (filter page_ok (skipn i tickers)))%nat;
              failed :=
                (failed st
                 + List.length (filter (fun t => negb (page_ok t)) (skipn i tickers)))%nat;
              generated := generated st ++ filter page_ok (skipn i tickers);
              sleeps := (sleeps st + (List.length tickers - i - 1) / BATCH_SIZE)%nat |}.
Proof.
  assert (Hdone : forall fuel i st,
             (List.length tickers <= i)%nat ->
             batch_loop fuel page_ok tickers i st
             = Some {| success :=
                         (success st
                          + List.length (filter page_ok (skipn i tickers)))%nat;
                       failed :=
                         (failed st
                          + List.length (filter (fun t => negb (page_ok t))
                                           (skipn i tickers)))%nat;
                       generated := generated st ++ filter page_ok (skipn i tickers);
                       sleeps :=
                         (sleeps st
                          + (List.length tickers - i - 1) / BATCH_SIZE)%nat |}).
  { intros fuel i st Hi.
    assert (E : Nat.ltb i (List.length tickers) = false) by (apply Nat.ltb_ge; lia).
    destruct fuel; cbn [batch_loop]; rewrite E; rewrite (skipn_all2 tickers Hi);
      replace (List.length tickers - i - 1)%nat with 0%nat by lia;
      destruct st; cbn; rewrite !Nat.add_0_r, app_nil_r; reflexivity. }
  induction fuel as [| fuel IH]; intros i st Hfuel.
  - apply Hdone. lia.
  - destruct (Nat.ltb i (List.length tickers)) eqn:E.
    + apply Nat.ltb_lt in E. cbn [batch_loop]. rewrite (proj2 (Nat.ltb_lt _ _) E).
      unfold slice. replace (i + BATCH_SIZE - i)%nat with BATCH_SIZE by lia.
      rewrite record_results.
      set (rest := skipn i tickers).
      assert (Hrest : skipn (i + BATCH_SIZE)%nat tickers = skipn BATCH_SIZE rest).
      { unfold rest. rewrite skipn_skipn. f_equal. lia. }
      assert (Hf : forall f : string -> bool,
                 filter f rest
                 = filter f (firstn BATCH_SIZE rest) ++ filter f (skipn BATCH_SIZE rest))
        by (intros f; rewrite <- filter_app, firstn_skipn; reflexivity).
      assert (Hsleeps :
                ((if Nat.ltb (i + BATCH_SIZE) (List.length tickers) then 1 else 0)
                 + (List.length tickers - (i + BATCH_SIZE) - 1) / BATCH_SIZE
                 = (List.length tickers - i - 1) / BATCH_SIZE)%nat).
      { unfold BATCH_SIZE.
        destruct (Nat.ltb (i + 5)%nat (List.length tickers)) eqn:E5.
        - apply Nat.ltb_lt in E5.
          replace (List.length tickers - i - 1)%nat
            with (List.length tickers - (i + 5) - 1 + 1 * 5)%nat by lia.
          rewrite Nat.div_add by lia. lia.
        - apply Nat.ltb_ge in E5.
          replace (List.length tickers - (i + 5) - 1)%nat with 0%nat by lia.
          rewrite (Nat.div_small (List.length tickers - i - 1)%nat) by lia. reflexivity. }
      destruct (Nat.ltb (i + BATCH_SIZE)%nat (List.length tickers));
        rewrite IH by (unfold BATCH_SIZE; lia);
        unfold sleep; cbn [success failed generated sleeps];
        rewrite Hrest, (Hf page_ok), (Hf (fun t => negb (page_ok t)));
        rewrite !length_app, <- app_assoc;
        f_equal; f_equal; lia.
    + apply Hdone. apply Nat.ltb_ge in E. lia.
Qed.

(** X21.  The batch loop of [main] ends, whatever the outcome of each
    page; every ticker is handled once: the generated list holds the
    tickers whose page succeeded, in their order, [success] counts them,
    [success + failed] is the number of tickers, and the loop sleeps
    between two batches, [(n - 1) / 5] times for [n] tickers.  More fuel
    than the number of tickers changes nothing. *)
Theorem run_batches_counts (page_ok : string -> bool) (tickers : list string) :
  exists st,
    run_batches page_ok tickers = Some st
    /\ generated st = filter page_ok tickers
    /\ success st = List.length (generated st)
    /\ (success st + failed st)%nat = List.length tickers
    /\ sleeps st = ((List.length tickers - 1) / BATCH_SIZE)%nat
    /\ (forall fuel, (List.length tickers <= fuel)%nat ->
        batch_loop fuel page_ok tickers 0 no_progress = Some st).
Proof.
  eexists. split; [| split; [| split; [| split; [| split]]]].
  - unfold run_batches. apply batch_loop_spec. lia.
  - reflexivity.
  - reflexivity.
  - cbn [success failed no_progress skipn Nat.add]. apply filter_split_length.
  - cbn [sleeps no_progress Nat.add]. now rewrite Nat.sub_0_r.
  - intros fuel Hfuel. apply batch_loop_spec. lia.
Qed.

(** ** Statement tables *)

Lemma includes_In (l : list string) (x : string) : includes l x = true <-> In x l.
Proof.
  unfold includes. rewrite existsb_exists. split.
  - intros (y & Hy & E). apply String.eqb_eq in E. now subst.
  - intros H. exists x. split; [exact H | apply String.eqb_refl].
Qed.

Lemma dedupe_In {T : Type} (year : T -> string) (l : list T) :
  forall seen x, In x (dedupe_by_year year seen l) -> In x l /\ ~ In (year x) seen.
Proof.
  induction l as [| d l IH]; intros seen x; cbn [dedupe_by_year]; [intros [] |].
  destruct (includes seen (year d)) eqn:E.
  - intros H. apply IH in H as [H1 H2]. split; [now right | exact H2].
  - intros [<- | H].
    + split; [now left |]. intros Hin. apply includes_In in Hin. congruence.
    + apply IH in H as [H1 H2]. split; [now right |].
      intros Hin. apply H2. now right.
Qed.

Lemma dedupe_NoDup {T : Type} (year : T -> string) (l : list T) :
  forall seen, NoDup (map year (dedupe_by_year year seen l)).
Proof.
  induction l as [| d l IH]; intros seen; cbn [dedupe_by_year]; [constructor |].
  destruct (includes seen (year d)); [apply IH |].
  cbn [map]. constructor; [| apply IH].
  intros Hin. apply in_map_iff in Hin as (x & Ex & Hx).
  apply dedupe_In in Hx as [_ Hx]. apply Hx. rewrite Ex. now left.
Qed.

Lemma dedupe_sorted {T : Type} (R : T -> T -> Prop) (year : T -> string) (l : list T) :
  StronglySorted R l -> forall seen, StronglySorted R (dedupe_by_year year seen l).
Proof.
  induction 1 as [| d l Hs IH Hall]; intros seen; cbn [dedupe_by_year]; [constructor |].
  destruct (includes seen (year d)); [apply IH |].
  constructor; [apply IH |].
  apply Forall_forall. intros x Hx. apply dedupe_In in Hx as [Hx _].
  rewrite Forall_forall in Hall. now apply Hall.
Qed.

Lemma In_firstn {A : Type} (n : nat) (l : list A) (x : A) :
  In x (firstn n l) -> In x l.
Proof.
  revert l. induction n as [| n IH]; intros [| y l]; cbn [firstn In]; try tauto.
  intros [<- | H]; [now left | right; now apply IH].
Qed.

Lemma NoDup_firstn {A : Type} (n : nat) (l : list A) :
  NoDup l -> NoDup (firstn n l).
Proof.
  revert l. induction n as [| n IH]; intros [| y l] H; cbn [firstn]; try constructor.
  - inversion H; subst. intros Hin. apply In_firstn in Hin. contradiction.
  - inversion H; subst. now apply IH.
Qed.

Lemma sorted_firstn {A : Type} (R : A -> A -> Prop) (n : nat) (l : list A) :
  StronglySorted R l -> StronglySorted R (firstn n l).
Proof.
  revert l. induction n as [| n IH]; intros [| y l] H; cbn [firstn]; try constructor.
  - inversion H; subst. now apply IH.
  - inversion H as [| ? ? _ Hall]; subst. apply Forall_forall. intros x Hx.
    apply In_firstn in Hx. rewrite Forall_forall in Hall. now apply Hall.
Qed.

(** X22.  The table rows [getYearlyData] selects are at most 10 rows of
    the data, no two of the same calendar year; they are yearly rows when
    the data have one, and they run from the latest to the earliest when
    every end date parses.  The array passed in holds the same rows
    afterwards. *)
Theorem getYearlyData_table {T : Type} `{HasPeriod T} `{HasEndDate T}
    (h : Host) (cal : Calendar) (data : list T) :
  let rows := fst (getYearlyData h cal data) in
  (List.length rows <= 10)%nat
  /\ NoDup (map (year_of h cal) rows)
  /\ (forall d, In d rows -> In d data)
  /\ (existsb is_yearly_row data = true ->
      forall d, In d rows -> is_yearly_row d = true)
  /\ (dates_finite h data -> latest_first h rows)
  /\ Permutation (snd (getYearlyData h cal data)) data.
Proof.
  intros rows. subst rows. unfold getYearlyData.
  set (yearly := filter is_yearly_row data).
  assert (Hy : existsb is_yearly_row data = Nat.ltb 0 (List.length yearly)).
  { unfold yearly. induction data as [| x l IH]; cbn [existsb filter]; [reflexivity |].
    destruct (is_yearly_row x); [reflexivity | exact IH]. }
  assert (Hrows : forall picked d,
             In d (firstn 10 (dedupe_by_year (year_of h cal) []
                                (Array_sort (by_end_date_desc h) picked))) ->
             In d picked).
  { intros picked d Hd. apply In_firstn, dedupe_In in Hd as [Hd _].
    now apply (Permutation_in _ (Array_sort_perm (by_end_date_desc h) picked)). }
  assert (Hsorted : forall picked,
             dates_finite h picked ->
             latest_first h
               (firstn 10 (dedupe_by_year (year_of h cal) []
                             (Array_sort (by_end_date_desc h) picked)))).
  { intros picked Hfin. now apply sorted_firstn, dedupe_sorted, Array_sort_latest_first. }
  rewrite Hy.
  destruct (Nat.ltb 0 (List.length yearly)) eqn:E; cbn [fst snd].
  - split; [apply firstn_le_length |].
    split; [rewrite <- firstn_map; apply NoDup_firstn, dedupe_NoDup |].
    split; [intros d Hd; apply Hrows in Hd; now apply filter_In in Hd |].
    split; [intros _ d Hd; apply Hrows in Hd; now apply filter_In in Hd |].
    split; [| reflexivity].
    intros Hfin. apply Hsorted. unfold dates_finite, yearly in *.
    rewrite Forall_forall in *. intros d Hd. apply Hfin. now apply filter_In in Hd.
  - split; [apply firstn_le_length |].
    split; [rewrite <- firstn_map; apply NoDup_firstn, dedupe_NoDup |].
    split; [intros d Hd; now apply Hrows in Hd |].
    split; [discriminate |].
    split; [apply Hsorted | apply Array_sort_perm].
Qed.

(** ** Rounding in the program *)

(** Without debt, at the price 3 with one share under the BASE
    assumptions, the program's WACC is [0.2 * 3 / 3] rounded twice, the
    double printed 0.20000000000000004, one step above its cost of
    equity 0.2. *)
Example binary64_wacc_without_debt :
  Binary64.calculateWacc (snapshot_of 3 1 0 0 0 0 0 0 0 0) BASE_assumptions
  = (S754_finite false 7205759403792795 (-55), Binary64.lit 0.2).
Proof. vm_compute. reflexivity. Qed.

(** With earnings of 1 per share, at the cost of equity 0.2 and the
    growth 0.05, the program's Gordon value is the double printed
    6.999999999999999, one step below 7. *)
Example binary64_gordon_of_page :
  Binary64.calcGordon (snapshot_of 10 100 0 0 0 0 0 0 1 0) (Binary64.lit 0.2)
    (Binary64.lit 0.05)
  = S754_finite false 7881299347898367 (-50)
  /\ Binary64.lit 7 = S754_finite false 7881299347898368 (-50).
Proof. split; vm_compute; reflexivity. Qed.
